(** * FETS-POINT: the operations console, verified against its specification

    A shallow embedding of the parts of the console that carry a contract:
    the session capacity validator, the roster (schedule store, version
    ledger, leave requests, quick add, overtime, deletion of a month, the
    month grid), the checklists (instantiation, ticking an item), the
    candidate tracker (CSV bulk upload, status updates) and the session
    calendar.  JavaScript values are modelled as follows.

    - an integral [number] is a [Z]; [NaN] is the [None] of [option Z];
    - a [string] is a [String.string];
    - a [Date] is the instant it denotes, in milliseconds since the epoch;
    - [undefined]/[null] is the [None] of an [option];
    - an [async] handler is a function from the world (remote tables, the
      replies still to come, the clock, the console, the pending React
      state) to a result and a new world; a rejected promise or a [throw]
      is the [Thrown] result. *)

From Stdlib Require Import ZArith List String Ascii Bool Lia.
Import ListNotations.
Local Open Scope string_scope.
Local Open Scope Z_scope.

(** ** JavaScript strings and numbers *)

Module Js.

(** [c] is one of '0'..'9': its value. *)
Definition digitVal (c : ascii) : option Z :=
  let n := Z.of_nat (nat_of_ascii c) in
  if (48 <=? n) && (n <=? 57) then Some (n - 48) else None.

Definition digitChar (d : Z) : ascii := ascii_of_nat (Z.to_nat (48 + d)).

(** The decimal digits of a non-negative integer, most significant first,
    put in front of [acc]. *)
Fixpoint decimal_aux (fuel : nat) (n : Z) (acc : string) : string :=
  match fuel with
  | O => acc
  | S fuel' =>
      let acc' := String (digitChar (n mod 10)) acc in
      if n / 10 =? 0 then acc' else decimal_aux fuel' (n / 10) acc'
  end.

Definition decimal (n : Z) : string :=
  decimal_aux (S (Z.to_nat (Z.log2 n))) n "".

(** [Number.prototype.toString] (and the conversion done by a template
    literal) on an integral number. *)
Definition toString (n : Z) : string :=
  if n <? 0 then "-" ++ decimal (- n) else decimal n.

(** [NaN] prints as "NaN". *)
Definition numberToString (n : option Z) : string :=
  match n with
  | Some z => toString z
  | None => "NaN"
  end.

Fixpoint repeatChar (c : ascii) (k : nat) : string :=
  match k with
  | O => ""
  | S k' => String c (repeatChar c k')
  end.

(** [s.padStart(width, c)] for a one-character filler. *)
Definition padStart (width : nat) (c : ascii) (s : string) : string :=
  repeatChar c (width - String.length s) ++ s.

(** The value of the longest run of decimal digits at the front of [s],
    continuing from [acc]. *)
Fixpoint parseDigits (s : string) (acc : Z) : Z :=
  match s with
  | String c rest =>
      match digitVal c with
      | Some d => parseDigits rest (acc * 10 + d)
      | None => acc
      end
  | EmptyString => acc
  end.

(** Every character is a decimal digit. *)
Fixpoint allDigits (s : string) : Prop :=
  match s with
  | String c rest => (exists d, digitVal c = Some d) /\ allDigits rest
  | EmptyString => True
  end.

Definition isWhite (c : ascii) : bool :=
  let n := nat_of_ascii c in
  (Nat.eqb n 32) || ((Nat.leb 9 n) && (Nat.leb n 13)).

Fixpoint trimStart (s : string) : string :=
  match s with
  | String c rest => if isWhite c then trimStart rest else s
  | EmptyString => s
  end.

(** [parseInt(s)] with no radix, on decimal input: leading white space is
    skipped, a sign is read, then the longest run of digits; no digit at all
    gives [NaN].  (A "0x" prefix, which selects base 16, is read here as the
    single digit 0.) *)
Definition parseInt (s : string) : option Z :=
  let unsigned (t : string) : option Z :=
    match t with
    | String c _ =>
        match digitVal c with
        | Some _ => Some (parseDigits t 0)
        | None => None
        end
    | EmptyString => None
    end in
  match trimStart s with
  | String c rest =>
      if Ascii.eqb c "-" then option_map Z.opp (unsigned rest)
      else if Ascii.eqb c "+" then unsigned rest
      else unsigned (String c rest)
  | EmptyString => None
  end.

(** [s.includes(t)]. *)
Fixpoint includes (s t : string) : bool :=
  String.prefix t s ||
  match s with
  | String _ rest => includes rest t
  | EmptyString => false
  end.

(** [s.replace(pat, rep)] with a string pattern: the first occurrence only. *)
Fixpoint replace (s pat rep : string) : string :=
  if String.prefix pat s
  then rep ++ String.substring (String.length pat) (String.length s - String.length pat) s
  else match s with
       | String c rest => String c (replace rest pat rep)
       | EmptyString => EmptyString
       end.

(** [s.trim()] *)
Fixpoint trimEnd (s : string) : string :=
  match s with
  | String c rest =>
      let rest' := trimEnd rest in
      if isWhite c && (rest' =? "")%string then "" else String c rest'
  | EmptyString => s
  end.

Definition trim (s : string) : string := trimEnd (trimStart s).

(** [s.split(sep)] for a one-character separator. *)
Fixpoint split (sep : ascii) (s : string) : list string :=
  match s with
  | String c rest =>
      if Ascii.eqb c sep then "" :: split sep rest
      else match split sep rest with
           | piece :: pieces => String c piece :: pieces
           | [] => [String c ""]
           end
  | EmptyString => [""]
  end.

(** [s.toLowerCase()] on the letters A..Z. *)
Definition lowerChar (c : ascii) : ascii :=
  let n := nat_of_ascii c in
  if (Nat.leb 65 n) && (Nat.leb n 90) then ascii_of_nat (n + 32) else c.

Fixpoint toLowerCase (s : string) : string :=
  match s with
  | String c rest => String (lowerChar c) (toLowerCase rest)
  | EmptyString => s
  end.

(** [s.toUpperCase()] on the letters a..z. *)
Definition upperChar (c : ascii) : ascii :=
  let n := nat_of_ascii c in
  if (Nat.leb 97 n) && (Nat.leb n 122) then ascii_of_nat (n - 32) else c.

Fixpoint toUpperCase (s : string) : string :=
  match s with
  | String c rest => String (upperChar c) (toUpperCase rest)
  | EmptyString => s
  end.

(** The names of the properties that every object inherits. *)
Definition inherited : list string :=
  ["constructor"; "__defineGetter__"; "__defineSetter__"; "hasOwnProperty";
   "__lookupGetter__"; "__lookupSetter__"; "isPrototypeOf"; "propertyIsEnumerable";
   "toString"; "valueOf"; "__proto__"; "toLocaleString"].

(** An object used as a map from strings to numbers, its keys in the order
    in which they were first assigned.  [get o k] is [o[k]] and [set o k v]
    is [o[k] = v], for the keys that are not among [inherited] (such a key
    reads as the inherited property until it is assigned). *)
Definition get (o : list (string * Z)) (k : string) : option Z :=
  option_map snd (find (fun kv => (fst kv =? k)%string) o).

Fixpoint set (o : list (string * Z)) (k : string) (v : Z) : list (string * Z) :=
  match o with
  | [] => [(k, v)]
  | (k', v') :: rest =>
      if (k' =? k)%string then (k, v) :: rest else (k', v') :: set rest k v
  end.

(** [array.push(x)] *)
Definition push {A} (array : list A) (x : A) : list A := (array ++ [x])%list.

(** A JavaScript string in a boolean position: empty is falsy. *)
Definition truthy (s : string) : bool := negb (s =? "")%string.

(** [a || b] on strings. *)
Definition orElse (a b : string) : string := if truthy a then a else b.

End Js.

(** ** Session capacity (utils/sessionUtils) *)

Module SessionUtils.

Record CapacityValidationResult := {
  isValid : bool;
  warning : option string;
  error : option string
}.

Definition MAX_CAPACITY : Z := 40.
Definition WARNING_THRESHOLD : Z := 30.

Definition validateSessionCapacity (candidateCount : Z) : CapacityValidationResult :=
  if candidateCount >? MAX_CAPACITY then
    {| isValid := false;
       warning := None;
       error := Some ("Session exceeds maximum capacity of "
                      ++ Js.toString MAX_CAPACITY ++ " candidates") |}
  else if candidateCount >=? WARNING_THRESHOLD then
    {| isValid := true;
       warning := Some ("Session approaching capacity (" ++ Js.toString candidateCount
                        ++ "/" ++ Js.toString MAX_CAPACITY ++ " candidates)");
       error := None |}
  else
    {| isValid := true; warning := None; error := None |}.

(** The colour classes of a capacity badge. *)
Definition getCapacityStatusColor (candidateCount : Z) : string :=
  if candidateCount >=? 40 then "text-red-600 bg-red-100"
  else if candidateCount >=? 30 then "text-orange-600 bg-orange-100"
  else "text-green-600 bg-green-100".

End SessionUtils.

(** ** Dates

    A [Date] holds an instant; its local getters depend on the offset of the
    machine's time zone, taken here as a fixed number of minutes east of UTC
    ([- getTimezoneOffset()]).  The civil calendar is the proleptic Gregorian
    one, computed by era (400 years = 146097 days), with years starting in
    March. *)

Module JsDate.

Definition Instant := Z.

Definition msPerDay : Z := 86400000.
Definition msPerMinute : Z := 60000.

(** Days from 1970-01-01 to the civil date [y]-[m]-[d], [m] in 1..12. *)
Definition days_from_civil (y m d : Z) : Z :=
  let y' := if m <=? 2 then y - 1 else y in
  let era := y' / 400 in
  let yoe := y' - era * 400 in
  let mp := if m >? 2 then m - 3 else m + 9 in
  let doy := (153 * mp + 2) / 5 + d - 1 in
  let doe := yoe * 365 + yoe / 4 - yoe / 100 + doy in
  era * 146097 + doe - 719468.

(** The civil date (year, month 1..12, day) of a day number. *)
Definition civil_from_days (z : Z) : Z * Z * Z :=
  let z' := z + 719468 in
  let era := z' / 146097 in
  let doe := z' - era * 146097 in
  let yoe := (doe - doe / 1460 + doe / 36524 - doe / 146096) / 365 in
  let doy := doe - (365 * yoe + yoe / 4 - yoe / 100) in
  let mp := (5 * doy + 2) / 153 in
  let d := doy - (153 * mp + 2) / 5 + 1 in
  let m := if mp <? 10 then mp + 3 else mp - 9 in
  let y := yoe + era * 400 in
  (if m <=? 2 then y + 1 else y, m, d).

(** [new Date(year, monthIndex, day)]: local midnight; a month index outside
    0..11 carries into the year and a day outside the month carries into the
    neighbouring months (day 0 is the last day of the month before). *)
Definition newDate (tz : Z) (year monthIndex day : Z) : Instant :=
  let ym := year + monthIndex / 12 in
  let mn := monthIndex mod 12 in
  (days_from_civil ym (mn + 1) 1 + (day - 1)) * msPerDay - tz * msPerMinute.

Definition localDay (tz : Z) (t : Instant) : Z := (t + tz * msPerMinute) / msPerDay.

Definition getFullYear (tz : Z) (t : Instant) : Z :=
  let '(y, _, _) := civil_from_days (localDay tz t) in y.

(** [getMonth()]: the month index, 0..11. *)
Definition getMonth (tz : Z) (t : Instant) : Z :=
  let '(_, m, _) := civil_from_days (localDay tz t) in m - 1.

Definition getDate (tz : Z) (t : Instant) : Z :=
  let '(_, _, d) := civil_from_days (localDay tz t) in d.

Definition pad (width : nat) (n : Z) : string := Js.padStart width "0" (Js.toString n).

(** "YYYY-MM-DD" (years 0..9999). *)
Definition formatCivil (ymd : Z * Z * Z) : string :=
  let '(y, m, d) := ymd in
  pad 4 y ++ "-" ++ pad 2 m ++ "-" ++ pad 2 d.

(** [d.toISOString().split('T')[0]]: the calendar date in UTC. *)
Definition toISODate (t : Instant) : string := formatCivil (civil_from_days (t / msPerDay)).

(** [d.toISOString()]: "YYYY-MM-DDTHH:mm:ss.sssZ". *)
Definition toISOString (t : Instant) : string :=
  let ms := t mod msPerDay in
  toISODate t ++ "T" ++ pad 2 (ms / 3600000) ++ ":" ++ pad 2 (ms / 60000 mod 60)
    ++ ":" ++ pad 2 (ms / 1000 mod 60) ++ "." ++ pad 3 (ms mod 1000) ++ "Z".

(** [d.getDay()]: the day of the week, 0 for Sunday (1 January 1970 was a
    Thursday). *)
Definition getDay (tz : Z) (t : Instant) : Z := (localDay tz t + 4) mod 7.

(** The time elapsed since local midnight. *)
Definition timeWithinDay (tz : Z) (t : Instant) : Z := (t + tz * msPerMinute) mod msPerDay.

(** [d.setMonth(monthIndex)]: the same day of the month and the same local
    time of day in the month [monthIndex] of the same year, with the
    carries of [newDate]. *)
Definition setMonth (tz : Z) (t : Instant) (monthIndex : Z) : Instant :=
  newDate tz (getFullYear tz t) monthIndex (getDate tz t) + timeWithinDay tz t.

(** The Gregorian leap years and the lengths of the months, [m] in 1..12. *)
Definition isLeapYear (y : Z) : bool :=
  (y mod 4 =? 0) && (negb (y mod 100 =? 0) || (y mod 400 =? 0)).

Definition daysIn (y m : Z) : Z :=
  if m =? 2 then (if isLeapYear y then 29 else 28)
  else if (m =? 4) || (m =? 6) || (m =? 9) || (m =? 11) then 30
  else 31.

End JsDate.

(** ** The date formatter (utils/dateUtils) *)

Module DateUtils.

(** The fixed time zone of the console: India Standard Time, UTC+05:30. *)
Definition IST_OFFSET_MINUTES : Z := 330.

(** The calendar day, in the fixed time zone, on which an instant falls. *)
Definition istDay (d : JsDate.Instant) : Z := JsDate.localDay IST_OFFSET_MINUTES d.

(** Modelled from the spec: [formatDateForIST] of utils/dateUtils, which is
    imported by the roster and the calendar but is not among the sources.
    The spec gives its contract: it converts any date to a calendar-date
    string normalized to a fixed time zone offset.  The offset [localTz] of
    the caller's machine is an input of every [Date] getter; the formatter
    reads the instant only. *)
Definition formatDateForIST (localTz : Z) (d : JsDate.Instant) : string :=
  JsDate.formatCivil (JsDate.civil_from_days (istDay d)).

End DateUtils.

(** ** Asynchronous handlers over the remote data service *)

Module Remote.

(** What a [catch] clause receives: a value with a message, which may or may
    not be an instance of [Error], and the error code of the data service. *)
Record JsError := {
  instanceofError : bool;
  message : string;
  code : string
}.

Definition newError (msg : string) : JsError :=
  {| instanceofError := true; message := msg; code := "" |}.

(** How one round trip to the data service ends: the operation is carried
    out and [{ error: null }] comes back; or it is refused and [{ error }]
    comes back; or the promise itself is rejected. *)
Inductive Reply :=
  | Resolved
  | Failed (e : JsError)
  | Rejected (e : JsError).

Section World.

Context {B U : Type}.

(** The world of a handler: the remote tables, the replies of the round
    trips still to come (none left means the service answers), the clock
    (read by [new Date()]; the time a handler takes is not modelled), the
    lines written by [console.error], and the React state as the setters
    called so far leave it for the next render. *)
Record World := {
  db : B;
  replies : list Reply;
  now : JsDate.Instant;
  console : list string;
  ui : U
}.

Inductive Completion (A : Type) :=
  | Normal (a : A)
  | Thrown (e : JsError).

Definition Async (A : Type) : Type := World -> Completion A * World.

Definition ret {A} (a : A) : Async A := fun w => (Normal A a, w).

Definition bind {A C} (m : Async A) (k : A -> Async C) : Async C :=
  fun w =>
    match m w with
    | (Normal _ a, w') => k a w'
    | (Thrown _ e, w') => (Thrown C e, w')
    end.

Definition throw {A} (e : JsError) : Async A := fun w => (Thrown A e, w).

(** [try { body } catch (error) { handler }] *)
Definition tryCatch {A} (body : Async A) (handler : JsError -> Async A) : Async A :=
  fun w =>
    match body w with
    | (Normal _ a, w') => (Normal A a, w')
    | (Thrown _ e, w') => handler e w'
    end.

(** [try { body } finally { cleanup }], for a cleanup that cannot throw. *)
Definition tryFinally {A} (body : Async A) (cleanup : World -> World) : Async A :=
  fun w => let '(c, w') := body w in (c, cleanup w').

Definition setDb (f : B -> B) (w : World) : World :=
  {| db := f (db w); replies := replies w; now := now w; console := console w; ui := ui w |}.

Definition popReply (w : World) : World :=
  {| db := db w; replies := tl (replies w); now := now w; console := console w; ui := ui w |}.

(** A React setter: the new value is seen by the next render only. *)
Definition setState (f : U -> U) : Async unit :=
  fun w => (Normal unit tt,
            {| db := db w; replies := replies w; now := now w; console := console w;
               ui := f (ui w) |}).

Definition consoleError (line : string) : Async unit :=
  fun w => (Normal unit tt,
            {| db := db w; replies := replies w; now := now w;
               console := (console w ++ [line])%list; ui := ui w |}).

(** [new Date()] *)
Definition newDateNow : Async JsDate.Instant := fun w => (Normal _ (now w), w).

(** [await supabase.from(...)...]: one round trip.  [op] is the query on the
    tables: it yields [data] (or an [error] of its own, as [single()] does)
    and the tables after it.  The result is [{ data, error }]. *)
Definition request {R} (op : B -> (R + JsError) * B) : Async (R + JsError) :=
  fun w =>
    match replies w with
    | [] | Resolved :: _ =>
        let '(r, db') := op (db w) in
        (Normal _ r, setDb (fun _ => db') (popReply w))
    | Failed e :: _ => (Normal _ (inr e), popReply w)
    | Rejected e :: _ => (Thrown _ e, popReply w)
    end.

(** Every round trip still to come is carried out. *)
Definition answers (w : World) : Prop := Forall (fun r => r = Resolved) (replies w).

(** The next [n] round trips are carried out. *)
Definition carriedOut (n : nat) (w : World) : Prop :=
  Forall (fun r => r = Resolved) (firstn n (replies w)).

(** No promise still to come is rejected: what goes wrong comes back as
    [{ error }]. *)
Definition settles (w : World) : Prop :=
  Forall (fun r => match r with Rejected _ => False | _ => True end) (replies w).

(** [m] never throws. *)
Definition total {A} (m : Async A) : Prop :=
  forall w, exists a w', m w = (Normal A a, w').

(** [m] leaves the part [part] of the remote tables as it is. *)
Definition preserves {X A} (part : B -> X) (m : Async A) : Prop :=
  forall w, part (db (snd (m w))) = part (db w).

(** [m] leaves the remote tables as they are. *)
Definition readOnly {A} (m : Async A) : Prop := preserves (fun b => b) m.

(** [m] takes the remote tables along the relation [R]: what they are after
    [m] is related to what they were before. *)
Definition evolves {A} (R : B -> B -> Prop) (m : Async A) : Prop :=
  forall w, R (db w) (db (snd (m w))).

(** [m] leaves the part [part] of the React state as it is. *)
Definition keeps {X A} (part : U -> X) (m : Async A) : Prop :=
  forall w, part (ui (snd (m w))) = part (ui w).

(** [if (error) throw error] *)
Definition orThrow {R} (r : R + JsError) : Async R :=
  match r with
  | inl data => ret data
  | inr e => throw e
  end.

End World.

Arguments World : clear implicits.
Arguments Async : clear implicits.

Declare Scope async_scope.
Delimit Scope async_scope with async.
Notation "x <- c ;; k" := (bind c (fun x => k))
  (at level 100, c at next level, right associativity) : async_scope.
Notation "c ;; k" := (bind c (fun _ => k))
  (at level 100, right associativity) : async_scope.

(** A handler run by a component that has further state variables [V]: it
    reads and sets its own variables only. *)
Definition within {B U V A} (m : Async B U A) : Async B (U * V) A :=
  fun w =>
    let '(c, w') := m {| db := db w; replies := replies w; now := now w;
                         console := console w; ui := fst (ui w) |} in
    (c, {| db := db w'; replies := replies w'; now := now w';
           console := console w'; ui := (ui w', snd (ui w)) |}).

(** Queries. *)

(** [.order(column)]: a stable sort; [le a b] says that [a] may come before [b]. *)
Fixpoint insertSorted {A} (le : A -> A -> bool) (x : A) (l : list A) : list A :=
  match l with
  | [] => [x]
  | y :: l' => if le x y then x :: l else y :: insertSorted le x l'
  end.

Definition orderBy {A} (le : A -> A -> bool) (l : list A) : list A :=
  fold_right (insertSorted le) [] l.

(** [.maybeSingle()]: no row gives [null], one row gives the row, several
    rows give the error PGRST116. *)
Definition maybeSingle {A} (rows : list A) : option A + JsError :=
  match rows with
  | [] => inl None
  | [x] => inl (Some x)
  | _ => inr {| instanceofError := false;
                message := "JSON object requested, multiple (or no) rows returned";
                code := "PGRST116" |}
  end.

(** [.single()]: exactly one row, or the error PGRST116. *)
Definition single {A} (rows : list A) : A + JsError :=
  match rows with
  | [x] => inl x
  | _ => inr {| instanceofError := false;
                message := "JSON object requested, multiple (or no) rows returned";
                code := "PGRST116" |}
  end.

(** The identifier the service gives to the [n]-th row it stores. *)
Definition rowId (n : nat) : string := Js.toString (Z.of_nat n).

End Remote.

(** ** The roster (FetsRoster) *)

Module Roster.

Import Remote.
Local Open Scope async_scope.

(** *** Rows *)

Module RosterSchedule.
Record t := {
  id : option string;
  profile_id : string;
  date : string;
  shift_code : string;
  overtime_hours : option Z;
  status : string;
  created_at : option string;
  updated_at : option string
}.
End RosterSchedule.

Module StaffProfile.
Record t := {
  id : string;
  user_id : option string;
  full_name : string;
  role : string;
  email : string;
  department : option string
}.
End StaffProfile.

(** A row of staff_profiles as the service returns it: [email] may be null. *)
Module StaffProfileRow.
Record t := {
  id : string;
  user_id : option string;
  full_name : string;
  role : string;
  email : option string;
  department : option string
}.
End StaffProfileRow.

(** [created_at] of leave_requests and roster_versions is never written by
    the console: the service stamps it, and the console only orders by it.
    It is kept as the logical time of the insertion. *)
Module LeaveRequest.
Record t := {
  id : option string;
  user_id : string;
  request_type : string;
  requested_date : string;
  swap_with_user_id : option string;
  swap_date : option string;
  reason : option string;
  status : string;
  approved_by : option string;
  approved_at : option string;
  created_at : Z
}.
End LeaveRequest.

Module RosterVersion.
Record t := {
  id : option string;
  month : Z;
  year : Z;
  version_number : string;
  created_by : option string;
  created_at : Z;
  edit_log : option string;
  is_active : bool
}.
End RosterVersion.

Module OvertimeTracking.
Record t := {
  id : option string;
  user_id : string;
  date : string;
  ot_hours : Z;
  description : option string;
  created_by : option string
}.
End OvertimeTracking.

Module User.
Record t := { id : string }.
End User.

Inductive NotificationType := success | error | warning.

Module Notification.
Record t := { type : NotificationType; message : string }.
End Notification.

(** *** The remote tables *)

Record Backend := {
  staff_profiles : list StaffProfileRow.t;
  roster_schedules : list RosterSchedule.t;
  roster_versions : list RosterVersion.t;
  overtime_tracking : list OvertimeTracking.t;
  leave_requests : list LeaveRequest.t;
  serial : nat
}.

Definition optEqb (a b : option string) : bool :=
  match a, b with
  | Some x, Some y => (x =? y)%string
  | _, _ => false
  end.

(** A query that only reads. *)
Definition select {R} (f : Backend -> R) : Backend -> (R + JsError) * Backend :=
  fun b => (inl (f b), b).

(** [from('roster_schedules').insert(rows)]: each row gets its identifier. *)
Fixpoint stampSchedules (n : nat) (rows : list RosterSchedule.t) : list RosterSchedule.t :=
  match rows with
  | [] => []
  | s :: rest =>
      {| RosterSchedule.id := Some (rowId n);
         RosterSchedule.profile_id := RosterSchedule.profile_id s;
         RosterSchedule.date := RosterSchedule.date s;
         RosterSchedule.shift_code := RosterSchedule.shift_code s;
         RosterSchedule.overtime_hours := RosterSchedule.overtime_hours s;
         RosterSchedule.status := RosterSchedule.status s;
         RosterSchedule.created_at := RosterSchedule.created_at s;
         RosterSchedule.updated_at := RosterSchedule.updated_at s |}
      :: stampSchedules (S n) rest
  end.

Definition insertSchedules (rows : list RosterSchedule.t)
  : Backend -> (unit + JsError) * Backend :=
  fun b =>
    (inl tt,
     {| staff_profiles := staff_profiles b;
        roster_schedules := (roster_schedules b ++ stampSchedules (serial b) rows)%list;
        roster_versions := roster_versions b;
        overtime_tracking := overtime_tracking b;
        leave_requests := leave_requests b;
        serial := (serial b + List.length rows)%nat |}).

(** [from('roster_schedules').update(values).eq('id', id)]: [patch] writes
    the columns of [values] into a row and keeps the others. *)
Definition updateScheduleById (id : option string) (patch : RosterSchedule.t -> RosterSchedule.t)
  : Backend -> (unit + JsError) * Backend :=
  fun b =>
    (inl tt,
     {| staff_profiles := staff_profiles b;
        roster_schedules :=
          map (fun s => if optEqb (RosterSchedule.id s) id then patch s else s)
              (roster_schedules b);
        roster_versions := roster_versions b;
        overtime_tracking := overtime_tracking b;
        leave_requests := leave_requests b;
        serial := serial b |}).

Definition setVersions (f : list RosterVersion.t -> list RosterVersion.t) (n : nat)
  (b : Backend) : Backend :=
  {| staff_profiles := staff_profiles b;
     roster_schedules := roster_schedules b;
     roster_versions := f (roster_versions b);
     overtime_tracking := overtime_tracking b;
     leave_requests := leave_requests b;
     serial := n |}.

Definition deactivate (v : RosterVersion.t) : RosterVersion.t :=
  {| RosterVersion.id := RosterVersion.id v;
     RosterVersion.month := RosterVersion.month v;
     RosterVersion.year := RosterVersion.year v;
     RosterVersion.version_number := RosterVersion.version_number v;
     RosterVersion.created_by := RosterVersion.created_by v;
     RosterVersion.created_at := RosterVersion.created_at v;
     RosterVersion.edit_log := RosterVersion.edit_log v;
     RosterVersion.is_active := false |}.

(** [from('roster_versions').update({ is_active: false }).eq('id', id)] *)
Definition deactivateVersionById (id : option string)
  : Backend -> (unit + JsError) * Backend :=
  fun b =>
    (inl tt,
     setVersions (map (fun v => if optEqb (RosterVersion.id v) id then deactivate v else v))
                 (serial b) b).

(** [from('roster_versions').insert([versionData])]: the service gives the
    row its identifier and its creation time. *)
Definition stampVersion (n : nat) (v : RosterVersion.t) : RosterVersion.t :=
  {| RosterVersion.id := Some (rowId n);
     RosterVersion.month := RosterVersion.month v;
     RosterVersion.year := RosterVersion.year v;
     RosterVersion.version_number := RosterVersion.version_number v;
     RosterVersion.created_by := RosterVersion.created_by v;
     RosterVersion.created_at := Z.of_nat n;
     RosterVersion.edit_log := RosterVersion.edit_log v;
     RosterVersion.is_active := RosterVersion.is_active v |}.

Definition insertVersion (v : RosterVersion.t) : Backend -> (unit + JsError) * Backend :=
  fun b => (inl tt, setVersions (fun vs => (vs ++ [stampVersion (serial b) v])%list) (S (serial b)) b).

(** [from('leave_requests').update(updateData).eq('id', requestId)] *)
Definition updateRequestById (id : string) (patch : LeaveRequest.t -> LeaveRequest.t)
  : Backend -> (unit + JsError) * Backend :=
  fun b =>
    (inl tt,
     {| staff_profiles := staff_profiles b;
        roster_schedules := roster_schedules b;
        roster_versions := roster_versions b;
        overtime_tracking := overtime_tracking b;
        leave_requests :=
          map (fun q => if optEqb (LeaveRequest.id q) (Some id) then patch q else q)
              (leave_requests b);
        serial := serial b |}).

(** *** The component: its state and what a render captures *)

Module SelectedEdit.
Record t := { profileId : string; date : string }.
End SelectedEdit.

Record RosterState := {
  currentDate : JsDate.Instant;
  schedules : list RosterSchedule.t;
  staffProfiles : list StaffProfile.t;
  requests : list LeaveRequest.t;
  versions : list RosterVersion.t;
  overtimeData : list OvertimeTracking.t;
  loading : bool;
  showEditModal : bool;
  showApprovalModal : bool;
  selectedEdit : option SelectedEdit.t;
  selectedRequest : option LeaveRequest.t;
  currentVersion : option RosterVersion.t;
  notification : option Notification.t
}.

Definition setSchedules (v : list RosterSchedule.t) (s : RosterState) : RosterState :=
  {| currentDate := currentDate s; schedules := v;
     staffProfiles := staffProfiles s; requests := requests s;
     versions := versions s; overtimeData := overtimeData s;
     loading := loading s; showEditModal := showEditModal s;
     showApprovalModal := showApprovalModal s;
     selectedEdit := selectedEdit s; selectedRequest := selectedRequest s;
     currentVersion := currentVersion s; notification := notification s |}.

Definition setStaffProfiles (v : list StaffProfile.t) (s : RosterState) : RosterState :=
  {| currentDate := currentDate s; schedules := schedules s;
     staffProfiles := v; requests := requests s; versions := versions s;
     overtimeData := overtimeData s; loading := loading s;
     showEditModal := showEditModal s;
     showApprovalModal := showApprovalModal s;
     selectedEdit := selectedEdit s; selectedRequest := selectedRequest s;
     currentVersion := currentVersion s; notification := notification s |}.

Definition setRequests (v : list LeaveRequest.t) (s : RosterState) : RosterState :=
  {| currentDate := currentDate s; schedules := schedules s;
     staffProfiles := staffProfiles s; requests := v;
     versions := versions s; overtimeData := overtimeData s;
     loading := loading s; showEditModal := showEditModal s;
     showApprovalModal := showApprovalModal s;
     selectedEdit := selectedEdit s; selectedRequest := selectedRequest s;
     currentVersion := currentVersion s; notification := notification s |}.

Definition setVersionsState (v : list RosterVersion.t) (s : RosterState) : RosterState :=
  {| currentDate := currentDate s; schedules := schedules s;
     staffProfiles := staffProfiles s; requests := requests s;
     versions := v; overtimeData := overtimeData s; loading := loading s;
     showEditModal := showEditModal s;
     showApprovalModal := showApprovalModal s;
     selectedEdit := selectedEdit s; selectedRequest := selectedRequest s;
     currentVersion := currentVersion s; notification := notification s |}.

Definition setOvertimeData (v : list OvertimeTracking.t) (s : RosterState) : RosterState :=
  {| currentDate := currentDate s; schedules := schedules s;
     staffProfiles := staffProfiles s; requests := requests s;
     versions := versions s; overtimeData := v; loading := loading s;
     showEditModal := showEditModal s;
     showApprovalModal := showApprovalModal s;
     selectedEdit := selectedEdit s; selectedRequest := selectedRequest s;
     currentVersion := currentVersion s; notification := notification s |}.

Definition setLoading (v : bool) (s : RosterState) : RosterState :=
  {| currentDate := currentDate s; schedules := schedules s;
     staffProfiles := staffProfiles s; requests := requests s;
     versions := versions s; overtimeData := overtimeData s; loading := v;
     showEditModal := showEditModal s;
     showApprovalModal := showApprovalModal s;
     selectedEdit := selectedEdit s; selectedRequest := selectedRequest s;
     currentVersion := currentVersion s; notification := notification s |}.

Definition setShowEditModal (v : bool) (s : RosterState) : RosterState :=
  {| currentDate := currentDate s; schedules := schedules s;
     staffProfiles := staffProfiles s; requests := requests s;
     versions := versions s; overtimeData := overtimeData s;
     loading := loading s; showEditModal := v;
     showApprovalModal := showApprovalModal s;
     selectedEdit := selectedEdit s; selectedRequest := selectedRequest s;
     currentVersion := currentVersion s; notification := notification s |}.

Definition setShowApprovalModal (v : bool) (s : RosterState) : RosterState :=
  {| currentDate := currentDate s; schedules := schedules s;
     staffProfiles := staffProfiles s; requests := requests s;
     versions := versions s; overtimeData := overtimeData s;
     loading := loading s; showEditModal := showEditModal s;
     showApprovalModal := v; selectedEdit := selectedEdit s;
     selectedRequest := selectedRequest s;
     currentVersion := currentVersion s; notification := notification s |}.

Definition setSelectedEdit (v : option SelectedEdit.t) (s : RosterState) : RosterState :=
  {| currentDate := currentDate s; schedules := schedules s;
     staffProfiles := staffProfiles s; requests := requests s;
     versions := versions s; overtimeData := overtimeData s;
     loading := loading s; showEditModal := showEditModal s;
     showApprovalModal := showApprovalModal s; selectedEdit := v;
     selectedRequest := selectedRequest s;
     currentVersion := currentVersion s; notification := notification s |}.

Definition setSelectedRequest (v : option LeaveRequest.t) (s : RosterState) : RosterState :=
  {| currentDate := currentDate s; schedules := schedules s;
     staffProfiles := staffProfiles s; requests := requests s;
     versions := versions s; overtimeData := overtimeData s;
     loading := loading s; showEditModal := showEditModal s;
     showApprovalModal := showApprovalModal s;
     selectedEdit := selectedEdit s; selectedRequest := v;
     currentVersion := currentVersion s; notification := notification s |}.

Definition setCurrentVersion (v : option RosterVersion.t) (s : RosterState) : RosterState :=
  {| currentDate := currentDate s; schedules := schedules s;
     staffProfiles := staffProfiles s; requests := requests s;
     versions := versions s; overtimeData := overtimeData s;
     loading := loading s; showEditModal := showEditModal s;
     showApprovalModal := showApprovalModal s;
     selectedEdit := selectedEdit s; selectedRequest := selectedRequest s;
     currentVersion := v; notification := notification s |}.

Definition setNotification (v : option Notification.t) (s : RosterState) : RosterState :=
  {| currentDate := currentDate s; schedules := schedules s;
     staffProfiles := staffProfiles s; requests := requests s;
     versions := versions s; overtimeData := overtimeData s;
     loading := loading s; showEditModal := showEditModal s;
     showApprovalModal := showApprovalModal s;
     selectedEdit := selectedEdit s; selectedRequest := selectedRequest s;
     currentVersion := currentVersion s; notification := v |}.

(** The values a render closes over: the signed-in user, the time zone of
    the machine, and the state of that render.  A handler reads these; what
    it sets is seen by the next render. *)
Record Render := {
  user : option User.t;
  tz : Z;
  state : RosterState
}.

Definition W : Type := World Backend RosterState.

(** An [async] function of the component. *)
Definition Promise (A : Type) : Type := Async Backend RosterState A.

Definition getCurrentUserStaffProfile (r : Render) : option StaffProfile.t :=
  match user r with
  | None => None
  | Some u => find (fun p => optEqb (StaffProfile.user_id p) (Some (User.id u)))
                   (staffProfiles (state r))
  end.

Definition currentStaffProfile := getCurrentUserStaffProfile.

Definition isSuperAdmin (r : Render) : bool :=
  match currentStaffProfile r with
  | Some p => (StaffProfile.role p =? "super_admin")%string
  | None => false
  end.

Definition isAdmin (r : Render) : bool :=
  match currentStaffProfile r with
  | Some p => (StaffProfile.role p =? "admin")%string || isSuperAdmin r
  | None => false
  end.

Definition showNotification (type : NotificationType) (message : string) : Promise unit :=
  setState (setNotification (Some {| Notification.type := type; Notification.message := message |})).

(** [if (error) { console.error(line, error); throw error }] *)
Definition orThrowLogged {R} (line : string) (res : R + JsError) : Promise R :=
  match res with
  | inl data => ret data
  | inr e => consoleError (line ++ " " ++ message e) ;; throw e
  end.

(** *** loadData *)

Definition toStaffProfile (profile : StaffProfileRow.t) : StaffProfile.t :=
  {| StaffProfile.id := StaffProfileRow.id profile;
     StaffProfile.user_id := StaffProfileRow.user_id profile;
     StaffProfile.full_name := StaffProfileRow.full_name profile;
     StaffProfile.role := StaffProfileRow.role profile;
     StaffProfile.email := match StaffProfileRow.email profile with
                           | Some e => Js.orElse e ""
                           | None => ""
                           end;
     StaffProfile.department := StaffProfileRow.department profile |}.

(** The first and the last day of the displayed month, at local midnight. *)
Definition startOfMonth (r : Render) : JsDate.Instant :=
  let currentDate := currentDate (state r) in
  JsDate.newDate (tz r) (JsDate.getFullYear (tz r) currentDate)
                 (JsDate.getMonth (tz r) currentDate) 1.

Definition endOfMonth (r : Render) : JsDate.Instant :=
  let currentDate := currentDate (state r) in
  JsDate.newDate (tz r) (JsDate.getFullYear (tz r) currentDate)
                 (JsDate.getMonth (tz r) currentDate + 1) 0.

(** The (month, year) of the displayed month, as the ledger records it. *)
Definition scopeMonth (r : Render) : Z := JsDate.getMonth (tz r) (currentDate (state r)) + 1.
Definition scopeYear (r : Render) : Z := JsDate.getFullYear (tz r) (currentDate (state r)).

Definition inScope (m y : Z) (v : RosterVersion.t) : bool :=
  (RosterVersion.month v =? m) && (RosterVersion.year v =? y).

(** [.gte('date', lo).lte('date', hi)] on calendar-date strings. *)
Definition dateBetween (lo hi d : string) : bool := String.leb lo d && String.leb d hi.

Definition querySchedules (r : Render) (b : Backend) : list RosterSchedule.t :=
  orderBy (fun a c => String.leb (RosterSchedule.date a) (RosterSchedule.date c))
    (filter (fun s => dateBetween (JsDate.toISODate (startOfMonth r))
                                  (JsDate.toISODate (endOfMonth r))
                                  (RosterSchedule.date s))
            (roster_schedules b)).

(** The active versions of a (month, year). *)
Definition activeIn (m y : Z) (vs : list RosterVersion.t) : list RosterVersion.t :=
  filter (fun v => inScope m y v && RosterVersion.is_active v) vs.

Definition queryCurrentVersion (r : Render) : Backend -> (option RosterVersion.t + JsError) * Backend :=
  fun b => (maybeSingle (activeIn (scopeMonth r) (scopeYear r) (roster_versions b)), b).

(** What [loadData] leaves in [currentVersion] when the query is carried
    out: the one active version of the displayed month, if there is exactly
    one (the error PGRST116 of [maybeSingle] is let through as [null]). *)
Definition loadedCurrentVersion (r : Render) (b : Backend) : option RosterVersion.t :=
  match fst (queryCurrentVersion r b) with
  | inl data => data
  | inr _ => None
  end.

(** [id] is the primary key of the ledger: every row has one, and no two
    rows have the same. *)
Definition keyedVersions (vs : list RosterVersion.t) : Prop :=
  NoDup (map RosterVersion.id vs) /\ Forall (fun v => RosterVersion.id v <> None) vs.

(** The ledger after the active flag of [cv] has been flipped. *)
Definition deactivateCurrent (cv : option RosterVersion.t) (vs : list RosterVersion.t)
  : list RosterVersion.t :=
  match cv with
  | Some cv => map (fun v => if optEqb (RosterVersion.id v) (RosterVersion.id cv)
                             then deactivate v else v) vs
  | None => vs
  end.

Definition queryAllVersions (r : Render) (b : Backend) : list RosterVersion.t :=
  orderBy (fun a c => RosterVersion.created_at c <=? RosterVersion.created_at a)
    (filter (inScope (scopeMonth r) (scopeYear r)) (roster_versions b)).

Definition queryOvertime (r : Render) (b : Backend) : list OvertimeTracking.t :=
  filter (fun o => dateBetween (JsDate.toISODate (startOfMonth r))
                               (JsDate.toISODate (endOfMonth r))
                               (OvertimeTracking.date o))
         (overtime_tracking b).

Definition newestFirst (l : list LeaveRequest.t) : list LeaveRequest.t :=
  orderBy (fun a c => LeaveRequest.created_at c <=? LeaveRequest.created_at a) l.

Definition databaseErrorMessage (e : JsError) : string :=
  "Database error: " ++ (if instanceofError e then message e else "Connection failed")
  ++ ". Please check your authentication.".

Definition loadData (r : Render) : Promise unit :=
  tryFinally
    (tryCatch
       (setState (setLoading true) ;;
        _ <- request (select (fun _ => tt)) ;;
        res <- request (select (fun b =>
                 orderBy (fun a c => String.leb (StaffProfileRow.full_name a)
                                                (StaffProfileRow.full_name c))
                         (staff_profiles b))) ;;
        profiles <- orThrowLogged "Staff profiles error:" res ;;
        let mappedProfiles := map toStaffProfile profiles in
        setState (setStaffProfiles mappedProfiles) ;;
        res <- request (select (querySchedules r)) ;;
        scheduleData <- orThrowLogged "Schedule data error:" res ;;
        setState (setSchedules scheduleData) ;;
        res <- request (queryCurrentVersion r) ;;
        versionData <-
          match res with
          | inl data => ret data
          | inr versionError =>
              if negb (code versionError =? "PGRST116")%string
              then throw versionError else ret None
          end ;;
        setState (setCurrentVersion versionData) ;;
        res <- request (select (queryAllVersions r)) ;;
        allVersions <- orThrow res ;;
        setState (setVersionsState allVersions) ;;
        res <- request (select (queryOvertime r)) ;;
        overtimeDataResult <- orThrow res ;;
        setState (setOvertimeData overtimeDataResult) ;;
        if isSuperAdmin r then
          res <- request (select (fun b => newestFirst (leave_requests b))) ;;
          requestData <- orThrow res ;;
          setState (setRequests requestData)
        else
          match user r with
          | Some u =>
              match find (fun p => optEqb (StaffProfile.user_id p) (Some (User.id u)))
                         mappedProfiles with
              | Some userStaffProfile =>
                  res <- request (select (fun b =>
                           newestFirst
                             (filter (fun q => (LeaveRequest.user_id q
                                                =? StaffProfile.id userStaffProfile)%string)
                                     (leave_requests b)))) ;;
                  requestData <- orThrow res ;;
                  setState (setRequests requestData)
              | None => ret tt
              end
          | None => ret tt
          end)
       (fun error =>
          consoleError ("Error loading roster data: " ++ message error) ;;
          showNotification Roster.error (databaseErrorMessage error) ;;
          setState (setStaffProfiles []) ;;
          setState (setSchedules []) ;;
          setState (setRequests []) ;;
          setState (setVersionsState []) ;;
          setState (setOvertimeData [])))
    (fun w => snd (setState (setLoading false) w)).

(** *** The grid *)

Definition getDaysInMonth (r : Render) : list JsDate.Instant :=
  let year := JsDate.getFullYear (tz r) (currentDate (state r)) in
  let month := JsDate.getMonth (tz r) (currentDate (state r)) in
  let daysInMonth := JsDate.getDate (tz r) (JsDate.newDate (tz r) year (month + 1) 0) in
  map (fun day => JsDate.newDate (tz r) year month (Z.of_nat day))
      (seq 1 (Z.to_nat daysInMonth)).

Definition getStaffName (r : Render) (profileId : string) : string :=
  match find (fun s => (StaffProfile.id s =? profileId)%string) (staffProfiles (state r)) with
  | Some s => Js.orElse (StaffProfile.full_name s) "Unknown"
  | None => "Unknown"
  end.

(** *** The version ledger *)

Definition getNextVersionNumber (r : Render) : string :=
  match versions (state r) with
  | [] => "v.01"
  | latest :: _ =>
      let latestVersion := Js.orElse (RosterVersion.version_number latest) "v.00" in
      let versionNum := option_map (fun n => n + 1) (Js.parseInt (Js.replace latestVersion "v." "")) in
      "v." ++ Js.padStart 2 "0" (Js.numberToString versionNum)
  end.


(** The numeric suffix of a version number. *)
Definition versionSuffix (label : string) : option Z := Js.parseInt (Js.replace label "v." "").


(** The row [createNewVersion] builds for the ledger. *)
Definition versionData (r : Render) (editLog : string) : RosterVersion.t :=
  {| RosterVersion.id := None;
     RosterVersion.month := scopeMonth r;
     RosterVersion.year := scopeYear r;
     RosterVersion.version_number := getNextVersionNumber r;
     RosterVersion.created_by :=
       match currentStaffProfile r with
       | Some p => StaffProfile.user_id p
       | None => None
       end;
     RosterVersion.created_at := 0;
     RosterVersion.edit_log := Some editLog;
     RosterVersion.is_active := true |}.

Definition createNewVersion (r : Render) (editLog : string) : Promise unit :=
  tryCatch
    (let versionData := versionData r editLog in
     match currentVersion (state r) with
     | Some cv => _ <- request (deactivateVersionById (RosterVersion.id cv)) ;; ret tt
     | None => ret tt
     end ;;
     res <- request (insertVersion versionData) ;;
     orThrow res)
    (fun error => consoleError ("Error creating version: " ++ message error)).

(** *** The schedule store *)

(** [schedules.find(s => s.profile_id === profileId && s.date === date)] *)
Definition findSchedule (schedules : list RosterSchedule.t) (profileId date : string)
  : option RosterSchedule.t :=
  find (fun s => (RosterSchedule.profile_id s =? profileId)%string
                 && (RosterSchedule.date s =? date)%string) schedules.

Definition saveShift (r : Render) (shiftCode : string) (overtimeHours : Z) : Promise unit :=
  match selectedEdit (state r), user r, isAdmin r with
  | Some sel, Some _, true =>
      tryCatch
        (t <- newDateNow ;;
         let scheduleData (old : RosterSchedule.t) :=
           {| RosterSchedule.id := RosterSchedule.id old;
              RosterSchedule.profile_id := SelectedEdit.profileId sel;
              RosterSchedule.date := SelectedEdit.date sel;
              RosterSchedule.shift_code := shiftCode;
              RosterSchedule.overtime_hours := Some overtimeHours;
              RosterSchedule.status := "confirmed";
              RosterSchedule.created_at := RosterSchedule.created_at old;
              RosterSchedule.updated_at := Some (JsDate.toISOString t) |} in
         match findSchedule (schedules (state r)) (SelectedEdit.profileId sel)
                            (SelectedEdit.date sel) with
         | Some existing =>
             res <- request (updateScheduleById (RosterSchedule.id existing) scheduleData) ;;
             orThrowLogged "Update error:" res
         | None =>
             t' <- newDateNow ;;
             res <- request (insertSchedules
                      [ {| RosterSchedule.id := None;
                           RosterSchedule.profile_id := SelectedEdit.profileId sel;
                           RosterSchedule.date := SelectedEdit.date sel;
                           RosterSchedule.shift_code := shiftCode;
                           RosterSchedule.overtime_hours := Some overtimeHours;
                           RosterSchedule.status := "confirmed";
                           RosterSchedule.created_at := Some (JsDate.toISOString t');
                           RosterSchedule.updated_at := Some (JsDate.toISOString t) |} ]) ;;
             orThrowLogged "Insert error:" res
         end ;;
         createNewVersion r ("Updated shift for " ++ getStaffName r (SelectedEdit.profileId sel)
                             ++ " on " ++ SelectedEdit.date sel) ;;
         setState (setShowEditModal false) ;;
         setState (setSelectedEdit None) ;;
         loadData r ;;
         showNotification success "Shift updated successfully!")
        (fun error =>
           consoleError ("Error saving shift: " ++ message error) ;;
           showNotification Roster.error
             ("Failed to save shift: "
              ++ (if instanceofError error then message error else "Unknown error")))
  | _, _, _ =>
      showNotification warning "Unable to save shift - permission or context issue"
  end.

(** *** Leave requests *)

(** The shift code an approved request writes. *)
Definition approvedCode (q : LeaveRequest.t) : string :=
  if (LeaveRequest.request_type q =? "half_day")%string then "HD" else "L".

Definition applyApprovedRequest (r : Render) (request_ : LeaveRequest.t) : Promise unit :=
  tryCatch
    (t <- newDateNow ;;
     let shiftCode :=
       if (LeaveRequest.request_type request_ =? "half_day")%string then "HD" else "L" in
     let scheduleData (old : RosterSchedule.t) :=
       {| RosterSchedule.id := RosterSchedule.id old;
          RosterSchedule.profile_id := LeaveRequest.user_id request_;
          RosterSchedule.date := LeaveRequest.requested_date request_;
          RosterSchedule.shift_code := shiftCode;
          RosterSchedule.overtime_hours := RosterSchedule.overtime_hours old;
          RosterSchedule.status := "confirmed";
          RosterSchedule.created_at := RosterSchedule.created_at old;
          RosterSchedule.updated_at := Some (JsDate.toISOString t) |} in
     match findSchedule (schedules (state r)) (LeaveRequest.user_id request_)
                        (LeaveRequest.requested_date request_) with
     | Some existing =>
         res <- request (updateScheduleById (RosterSchedule.id existing) scheduleData) ;;
         orThrowLogged "Update schedule error:" res
     | None =>
         t' <- newDateNow ;;
         res <- request (insertSchedules
                  [ {| RosterSchedule.id := None;
                       RosterSchedule.profile_id := LeaveRequest.user_id request_;
                       RosterSchedule.date := LeaveRequest.requested_date request_;
                       RosterSchedule.shift_code := shiftCode;
                       RosterSchedule.overtime_hours := None;
                       RosterSchedule.status := "confirmed";
                       RosterSchedule.created_at := Some (JsDate.toISOString t');
                       RosterSchedule.updated_at := Some (JsDate.toISOString t) |} ]) ;;
         orThrowLogged "Insert schedule error:" res
     end ;;
     createNewVersion r ("Applied approved " ++ LeaveRequest.request_type request_
                         ++ " request for " ++ getStaffName r (LeaveRequest.user_id request_)))
    (fun error =>
       consoleError ("Error applying approved request: " ++ message error) ;;
       throw error).

Definition approveRequest (r : Render) (requestId : string) (approved : bool) : Promise unit :=
  if negb (isSuperAdmin r) then ret tt
  else
    tryCatch
      (t <- newDateNow ;;
       let updateData (q : LeaveRequest.t) :=
         {| LeaveRequest.id := LeaveRequest.id q;
            LeaveRequest.user_id := LeaveRequest.user_id q;
            LeaveRequest.request_type := LeaveRequest.request_type q;
            LeaveRequest.requested_date := LeaveRequest.requested_date q;
            LeaveRequest.swap_with_user_id := LeaveRequest.swap_with_user_id q;
            LeaveRequest.swap_date := LeaveRequest.swap_date q;
            LeaveRequest.reason := LeaveRequest.reason q;
            LeaveRequest.status := if approved then "approved" else "rejected";
            LeaveRequest.approved_by := option_map StaffProfile.id (currentStaffProfile r);
            LeaveRequest.approved_at := Some (JsDate.toISOString t);
            LeaveRequest.created_at := LeaveRequest.created_at q |} in
       res <- request (updateRequestById requestId updateData) ;;
       orThrow res ;;
       match approved, selectedRequest (state r) with
       | true, Some selected => applyApprovedRequest r selected
       | _, _ => ret tt
       end ;;
       setState (setShowApprovalModal false) ;;
       setState (setSelectedRequest None) ;;
       loadData r ;;
       showNotification success
         ("Request " ++ (if approved then "approved" else "rejected") ++ " successfully"))
      (fun error =>
         consoleError ("Error processing request: " ++ message error) ;;
         showNotification Roster.error "Failed to process request").

(** *** Quick add month *)

(** The row pushed for a staff member and a day, at day counter
    [dayCounter]: six days of work, then a rest day. *)
Definition quickAddRow (created : string) (staff : StaffProfile.t) (day : JsDate.Instant)
  (dayCounter : Z) : RosterSchedule.t :=
  let dateStr := JsDate.toISODate day in
  let shiftCode := if dayCounter mod 7 =? 6 then "RD" else "D" in
  {| RosterSchedule.id := None;
     RosterSchedule.profile_id := StaffProfile.id staff;
     RosterSchedule.date := dateStr;
     RosterSchedule.shift_code := shiftCode;
     RosterSchedule.overtime_hours := None;
     RosterSchedule.status := "confirmed";
     RosterSchedule.created_at := Some created;
     RosterSchedule.updated_at := None |}.

(** The inner loop of quick add: the days of the month for one staff
    member, [dayCounter] counting every day, [schedulesToCreate] growing by
    one row for each day that has no row yet. *)
Fixpoint quickAddDays (schedules : list RosterSchedule.t) (created : string)
  (staff : StaffProfile.t) (days : list JsDate.Instant) (dayCounter : Z)
  (schedulesToCreate : list RosterSchedule.t) : list RosterSchedule.t :=
  match days with
  | [] => schedulesToCreate
  | day :: rest =>
      let dateStr := JsDate.toISODate day in
      let existing := findSchedule schedules (StaffProfile.id staff) dateStr in
      let schedulesToCreate' :=
        match existing with
        | None => Js.push schedulesToCreate (quickAddRow created staff day dayCounter)
        | Some _ => schedulesToCreate
        end in
      quickAddDays schedules created staff rest (dayCounter + 1) schedulesToCreate'
  end.

(** The outer loop: every staff member starts again at day counter 0. *)
Definition quickAddRows (schedules : list RosterSchedule.t) (created : string)
  (staffProfiles : list StaffProfile.t) (days : list JsDate.Instant) : list RosterSchedule.t :=
  fold_left (fun schedulesToCreate staff =>
               quickAddDays schedules created staff days 0 schedulesToCreate)
            staffProfiles [].

Definition quickAddMonth (r : Render) : Promise unit :=
  if negb (isAdmin r) then showNotification warning "Only admins can use Quick Add"
  else
    tryCatch
      (let days := getDaysInMonth r in
       t <- newDateNow ;;
       let schedulesToCreate :=
         quickAddRows (schedules (state r)) (JsDate.toISOString t)
                      (staffProfiles (state r)) days in
       let count := Js.toString (Z.of_nat (List.length schedulesToCreate)) in
       if (0 <? List.length schedulesToCreate)%nat then
         res <- request (insertSchedules schedulesToCreate) ;;
         orThrowLogged "Quick Add database error:" res ;;
         createNewVersion r ("Quick add generated " ++ count ++ " schedules") ;;
         loadData r ;;
         showNotification success ("Generated " ++ count ++ " roster entries successfully!")
       else
         showNotification warning "All roster entries already exist for this month")
      (fun error =>
         consoleError ("Error in Quick Add: " ++ message error) ;;
         showNotification Roster.error
           "Failed to generate month roster. Check console for details.").

(** The rows quick add computes from what the render holds. *)
Definition rowsToCreate (r : Render) (w : W) : list RosterSchedule.t :=
  quickAddRows (schedules (state r)) (JsDate.toISOString (now w))
               (staffProfiles (state r)) (getDaysInMonth r).


(** Two rows of the schedule store have the same (staff, date) key. *)
Definition sameKey (a b : RosterSchedule.t) : Prop :=
  RosterSchedule.profile_id a = RosterSchedule.profile_id b
  /\ RosterSchedule.date a = RosterSchedule.date b.

(** [id] is the primary key of the schedule store: every row has one, and
    no two rows have the same. *)
Definition keyedSchedules (l : list RosterSchedule.t) : Prop :=
  NoDup (map RosterSchedule.id l) /\ Forall (fun s => RosterSchedule.id s <> None) l.

(** *** Moving between months *)

Definition setCurrentDate (v : JsDate.Instant) (s : RosterState) : RosterState :=
  {| currentDate := v; schedules := schedules s;
     staffProfiles := staffProfiles s; requests := requests s;
     versions := versions s; overtimeData := overtimeData s;
     loading := loading s; showEditModal := showEditModal s;
     showApprovalModal := showApprovalModal s;
     selectedEdit := selectedEdit s; selectedRequest := selectedRequest s;
     currentVersion := currentVersion s; notification := notification s |}.

Inductive Direction := prev | next.

(** The date [navigateMonth] computes. *)
Definition navigated (r : Render) (direction : Direction) : JsDate.Instant :=
  let newDate := currentDate (state r) in
  match direction with
  | prev => JsDate.setMonth (tz r) newDate (JsDate.getMonth (tz r) newDate - 1)
  | next => JsDate.setMonth (tz r) newDate (JsDate.getMonth (tz r) newDate + 1)
  end.

Definition navigateMonth (r : Render) (direction : Direction) : Promise unit :=
  setState (setCurrentDate (navigated r direction)).

(** *** Filing a request *)

Module RequestForm.
Record t := {
  type : string;
  date : string;
  reason : string;
  swapPartner : string;
  swapDate : string
}.
End RequestForm.

(** The state variables of the request modal. *)
Record RequestModal := {
  showRequestModal : bool;
  requestForm : RequestForm.t
}.

Definition setShowRequestModal (v : bool) (s : RosterState * RequestModal)
  : RosterState * RequestModal :=
  (fst s, {| showRequestModal := v; requestForm := requestForm (snd s) |}).

Definition setRequestForm (v : RequestForm.t) (s : RosterState * RequestModal)
  : RosterState * RequestModal :=
  (fst s, {| showRequestModal := showRequestModal (snd s); requestForm := v |}).

(** [value || null] *)
Definition orNull (value : string) : option string :=
  if Js.truthy value then Some value else None.

(** [from('leave_requests').insert([requestData])]: the service gives the
    row its identifier and its creation time. *)
Definition insertRequest (q : LeaveRequest.t) : Backend -> (unit + JsError) * Backend :=
  fun b =>
    (inl tt,
     {| staff_profiles := staff_profiles b;
        roster_schedules := roster_schedules b;
        roster_versions := roster_versions b;
        overtime_tracking := overtime_tracking b;
        leave_requests :=
          (leave_requests b ++
           [ {| LeaveRequest.id := Some (rowId (serial b));
                LeaveRequest.user_id := LeaveRequest.user_id q;
                LeaveRequest.request_type := LeaveRequest.request_type q;
                LeaveRequest.requested_date := LeaveRequest.requested_date q;
                LeaveRequest.swap_with_user_id := LeaveRequest.swap_with_user_id q;
                LeaveRequest.swap_date := LeaveRequest.swap_date q;
                LeaveRequest.reason := LeaveRequest.reason q;
                LeaveRequest.status := LeaveRequest.status q;
                LeaveRequest.approved_by := LeaveRequest.approved_by q;
                LeaveRequest.approved_at := LeaveRequest.approved_at q;
                LeaveRequest.created_at := Z.of_nat (serial b) |} ])%list;
        serial := S (serial b) |}).

(** The row [submitRequest] sends for a form, in the name of a staff
    profile (the columns of the approval are not sent). *)
Definition requestData (profile : StaffProfile.t) (form : RequestForm.t) : LeaveRequest.t :=
  {| LeaveRequest.id := None;
     LeaveRequest.user_id := StaffProfile.id profile;
     LeaveRequest.request_type := RequestForm.type form;
     LeaveRequest.requested_date := RequestForm.date form;
     LeaveRequest.swap_with_user_id := orNull (RequestForm.swapPartner form);
     LeaveRequest.swap_date := orNull (RequestForm.swapDate form);
     LeaveRequest.reason := Some (RequestForm.reason form);
     LeaveRequest.status := "pending";
     LeaveRequest.approved_by := None;
     LeaveRequest.approved_at := None;
     LeaveRequest.created_at := 0 |}.

(** [form] is the [requestForm] of the render. *)
Definition submitRequest (r : Render) (form : RequestForm.t)
  : Async Backend (RosterState * RequestModal) unit :=
  match user r, currentStaffProfile r with
  | Some _, Some profile =>
      tryCatch
        (res <- request (insertRequest (requestData profile form)) ;;
         orThrow res ;;
         setState (setShowRequestModal false) ;;
         setState (setRequestForm {| RequestForm.type := "leave"; RequestForm.date := "";
                                     RequestForm.reason := ""; RequestForm.swapPartner := "";
                                     RequestForm.swapDate := "" |}) ;;
         within (loadData r) ;;
         within (showNotification success "Request submitted successfully"))
        (fun error =>
           consoleError ("Error submitting request: " ++ message error) ;;
           within (showNotification Roster.error "Failed to submit request"))
  | _, _ => ret tt
  end.

(** *** Overtime *)

(** [overtimeData.find(ot => ot.user_id === profileId && ot.date === date)] *)
Definition findOvertime (overtimeData : list OvertimeTracking.t) (profileId date : string)
  : option OvertimeTracking.t :=
  find (fun ot => (OvertimeTracking.user_id ot =? profileId)%string
                  && (OvertimeTracking.date ot =? date)%string) overtimeData.

(** [from('overtime_tracking').update({ ot_hours, description })
      .eq('user_id', profileId).eq('date', date)] *)
Definition updateOvertime (profileId date : string) (hours : Z) (description : string)
  : Backend -> (unit + JsError) * Backend :=
  fun b =>
    (inl tt,
     {| staff_profiles := staff_profiles b;
        roster_schedules := roster_schedules b;
        roster_versions := roster_versions b;
        overtime_tracking :=
          map (fun o =>
                 if (OvertimeTracking.user_id o =? profileId)%string
                    && (OvertimeTracking.date o =? date)%string
                 then {| OvertimeTracking.id := OvertimeTracking.id o;
                         OvertimeTracking.user_id := OvertimeTracking.user_id o;
                         OvertimeTracking.date := OvertimeTracking.date o;
                         OvertimeTracking.ot_hours := hours;
                         OvertimeTracking.description := Some description;
                         OvertimeTracking.created_by := OvertimeTracking.created_by o |}
                 else o)
              (overtime_tracking b);
        leave_requests := leave_requests b;
        serial := serial b |}).

(** [from('overtime_tracking').insert([otData])] *)
Definition insertOvertime (otData : OvertimeTracking.t)
  : Backend -> (unit + JsError) * Backend :=
  fun b =>
    (inl tt,
     {| staff_profiles := staff_profiles b;
        roster_schedules := roster_schedules b;
        roster_versions := roster_versions b;
        overtime_tracking :=
          (overtime_tracking b ++
           [ {| OvertimeTracking.id := Some (rowId (serial b));
                OvertimeTracking.user_id := OvertimeTracking.user_id otData;
                OvertimeTracking.date := OvertimeTracking.date otData;
                OvertimeTracking.ot_hours := OvertimeTracking.ot_hours otData;
                OvertimeTracking.description := OvertimeTracking.description otData;
                OvertimeTracking.created_by := OvertimeTracking.created_by otData |} ])%list;
        leave_requests := leave_requests b;
        serial := S (serial b) |}).


(** [hours] is a number of whole hours (the form steps by half hours). *)
Definition saveOvertime (r : Render) (profileId date : string) (hours : Z)
  (description : string) : Promise unit :=
  if negb (isAdmin r) then ret tt
  else
    tryCatch
      (let otData :=
         {| OvertimeTracking.id := None;
            OvertimeTracking.user_id := profileId;
            OvertimeTracking.date := date;
            OvertimeTracking.ot_hours := hours;
            OvertimeTracking.description := Some description;
            OvertimeTracking.created_by :=
              match currentStaffProfile r with
              | Some p => StaffProfile.user_id p
              | None => None
              end |} in
       match findOvertime (overtimeData (state r)) profileId date with
       | Some _ =>
           res <- request (updateOvertime profileId date hours description) ;;
           orThrow res
       | None =>
           res <- request (insertOvertime otData) ;;
           orThrow res
       end ;;
       loadData r ;;
       showNotification success "Overtime updated successfully")
      (fun error =>
         consoleError ("Error saving overtime: " ++ message error) ;;
         showNotification Roster.error "Failed to save overtime").

(** *** The grid cells and the deletion of a month

    [formatDateForIST] of utils/dateUtils is not among the sources: the
    functions that call it are given for any formatter. *)

Section Formatter.

Variable formatDateForIST : JsDate.Instant -> string.

Definition getScheduleForDate (r : Render) (profileId : string) (date : JsDate.Instant)
  : option RosterSchedule.t :=
  let dateStr := formatDateForIST date in
  findSchedule (schedules (state r)) profileId dateStr.

Definition handleEditShift (r : Render) (profileId : string) (date : JsDate.Instant)
  : Promise unit :=
  if negb (isAdmin r) then ret tt
  else
    setState (setSelectedEdit (Some {| SelectedEdit.profileId := profileId;
                                       SelectedEdit.date := formatDateForIST date |})) ;;
    setState (setShowEditModal true).

(** [from('roster_schedules').delete().gte('date', lo).lte('date', hi)] *)
Definition deleteSchedulesBetween (lo hi : string) : Backend -> (unit + JsError) * Backend :=
  fun b =>
    (inl tt,
     {| staff_profiles := staff_profiles b;
        roster_schedules :=
          filter (fun s => negb (dateBetween lo hi (RosterSchedule.date s)))
                 (roster_schedules b);
        roster_versions := roster_versions b;
        overtime_tracking := overtime_tracking b;
        leave_requests := leave_requests b;
        serial := serial b |}).

(** [from('roster_versions').update({ is_active: false })
      .eq('month', m).eq('year', y)] *)
Definition deactivateScope (m y : Z) : Backend -> (unit + JsError) * Backend :=
  fun b =>
    (inl tt,
     setVersions (map (fun v => if inScope m y v then deactivate v else v)) (serial b) b).

(** [confirmed] is the answer given to the [confirm] dialog. *)
Definition deleteRoster (r : Render) (confirmed : bool) : Promise unit :=
  if negb (isSuperAdmin r) then
    showNotification Roster.error "Only super admins can delete rosters"
  else if negb confirmed then ret tt
  else
    tryCatch
      (let startDateIST := formatDateForIST (startOfMonth r) in
       let endDateIST := formatDateForIST (endOfMonth r) in
       res <- request (deleteSchedulesBetween startDateIST endDateIST) ;;
       orThrow res ;;
       match currentVersion (state r) with
       | Some _ =>
           _ <- request (deactivateScope (scopeMonth r) (scopeYear r)) ;; ret tt
       | None => ret tt
       end ;;
       loadData r ;;
       showNotification success "Roster deleted successfully")
      (fun error =>
         consoleError ("Error deleting roster: " ++ message error) ;;
         showNotification Roster.error
           ("Failed to delete roster: "
            ++ (if instanceofError error then message error else "Unknown error"))).

End Formatter.

End Roster.

(** ** Checklists (ChecklistManagement) *)

Module Checklist.

Import Remote.
Local Open Scope async_scope.

Inductive Category := pre_exam | post_exam.
Inductive Priority := low | medium | high.

Module ChecklistTemplateItem.
Record t := {
  id : string;
  template_id : string;
  title : string;
  description : option string;
  priority : Priority;
  estimated_time_minutes : Z;
  responsible_role : string;
  notes : option string;
  sort_order : Z;
  created_at : string
}.
End ChecklistTemplateItem.

Module ChecklistTemplate.
Record t := {
  id : string;
  name : string;
  description : option string;
  category : Category;
  is_active : bool;
  created_by : string;
  created_at : string;
  updated_at : string;
  items : option (list ChecklistTemplateItem.t)
}.
End ChecklistTemplate.

(** [created_at] and [updated_at] of the instance tables are stamped by the
    service; they are kept as the logical time of the insertion. *)
Module ChecklistInstanceItem.
Record t := {
  id : string;
  instance_id : string;
  template_item_id : option string;
  title : string;
  description : option string;
  priority : Priority;
  estimated_time_minutes : Z;
  responsible_role : string;
  notes : option string;
  is_completed : bool;
  completed_by : option string;
  completed_at : option string;
  sort_order : Z;
  created_at : Z
}.
End ChecklistInstanceItem.

Module ChecklistInstance.
Record t := {
  id : string;
  template_id : string;
  name : string;
  category : Category;
  exam_date : string;
  created_by : string;
  completed_at : option string;
  created_at : Z;
  updated_at : Z;
  items : option (list ChecklistInstanceItem.t)
}.
End ChecklistInstance.

(** The object handed to [insert] for an instance. *)
Module NewInstance.
Record t := {
  template_id : string;
  name : string;
  category : Category;
  exam_date : string;
  created_by : string
}.
End NewInstance.

(** The object handed to [insert] for an instance item. *)
Module NewInstanceItem.
Record t := {
  instance_id : string;
  template_item_id : string;
  title : string;
  description : option string;
  priority : Priority;
  estimated_time_minutes : Z;
  responsible_role : string;
  notes : option string;
  sort_order : Z
}.
End NewInstanceItem.

Module User.
Record t := { id : string }.
End User.

Record Backend := {
  checklist_instances : list ChecklistInstance.t;
  checklist_instance_items : list ChecklistInstanceItem.t;
  serial : nat
}.

(** Modelled from the spec: the default of the column [is_completed] of
    checklist_instance_items, whose table definition is not among the
    sources.  [handleCreateInstance] does not send the column; the spec says
    that each instance item starts with completed = false. *)
Definition is_completed_default : bool := false.

Definition storeInstance (n : nat) (v : NewInstance.t) : ChecklistInstance.t :=
  {| ChecklistInstance.id := rowId n;
     ChecklistInstance.template_id := NewInstance.template_id v;
     ChecklistInstance.name := NewInstance.name v;
     ChecklistInstance.category := NewInstance.category v;
     ChecklistInstance.exam_date := NewInstance.exam_date v;
     ChecklistInstance.created_by := NewInstance.created_by v;
     ChecklistInstance.completed_at := None;
     ChecklistInstance.created_at := Z.of_nat n;
     ChecklistInstance.updated_at := Z.of_nat n;
     ChecklistInstance.items := None |}.

(** [from('checklist_instances').insert([v]).select().single()] *)
Definition insertInstance (v : NewInstance.t)
  : Backend -> (ChecklistInstance.t + JsError) * Backend :=
  fun b =>
    let row := storeInstance (serial b) v in
    (single [row],
     {| checklist_instances := (checklist_instances b ++ [row])%list;
        checklist_instance_items := checklist_instance_items b;
        serial := S (serial b) |}).

Definition storeItem (n : nat) (v : NewInstanceItem.t) : ChecklistInstanceItem.t :=
  {| ChecklistInstanceItem.id := rowId n;
     ChecklistInstanceItem.instance_id := NewInstanceItem.instance_id v;
     ChecklistInstanceItem.template_item_id := Some (NewInstanceItem.template_item_id v);
     ChecklistInstanceItem.title := NewInstanceItem.title v;
     ChecklistInstanceItem.description := NewInstanceItem.description v;
     ChecklistInstanceItem.priority := NewInstanceItem.priority v;
     ChecklistInstanceItem.estimated_time_minutes := NewInstanceItem.estimated_time_minutes v;
     ChecklistInstanceItem.responsible_role := NewInstanceItem.responsible_role v;
     ChecklistInstanceItem.notes := NewInstanceItem.notes v;
     ChecklistInstanceItem.is_completed := is_completed_default;
     ChecklistInstanceItem.completed_by := None;
     ChecklistInstanceItem.completed_at := None;
     ChecklistInstanceItem.sort_order := NewInstanceItem.sort_order v;
     ChecklistInstanceItem.created_at := Z.of_nat n |}.

Fixpoint storeItems (n : nat) (vs : list NewInstanceItem.t) : list ChecklistInstanceItem.t :=
  match vs with
  | [] => []
  | v :: rest => storeItem n v :: storeItems (S n) rest
  end.

(** [from('checklist_instance_items').insert(vs)] *)
Definition insertItems (vs : list NewInstanceItem.t) : Backend -> (unit + JsError) * Backend :=
  fun b =>
    (inl tt,
     {| checklist_instances := checklist_instances b;
        checklist_instance_items := (checklist_instance_items b ++ storeItems (serial b) vs)%list;
        serial := (serial b + List.length vs)%nat |}).

(** The instances, each with its items, latest [exam_date] first. *)
Definition queryInstances (b : Backend) : list ChecklistInstance.t :=
  orderBy (fun a c => String.leb (ChecklistInstance.exam_date c) (ChecklistInstance.exam_date a))
    (map (fun i =>
            {| ChecklistInstance.id := ChecklistInstance.id i;
               ChecklistInstance.template_id := ChecklistInstance.template_id i;
               ChecklistInstance.name := ChecklistInstance.name i;
               ChecklistInstance.category := ChecklistInstance.category i;
               ChecklistInstance.exam_date := ChecklistInstance.exam_date i;
               ChecklistInstance.created_by := ChecklistInstance.created_by i;
               ChecklistInstance.completed_at := ChecklistInstance.completed_at i;
               ChecklistInstance.created_at := ChecklistInstance.created_at i;
               ChecklistInstance.updated_at := ChecklistInstance.updated_at i;
               ChecklistInstance.items :=
                 Some (filter (fun it => (ChecklistInstanceItem.instance_id it
                                          =? ChecklistInstance.id i)%string)
                              (checklist_instance_items b)) |})
         (checklist_instances b)).

Record ChecklistState := {
  instances : list ChecklistInstance.t;
  submitting : bool;
  error : string;
  success : string
}.

Definition setInstances (v : list ChecklistInstance.t) (s : ChecklistState) : ChecklistState :=
  {| instances := v; submitting := submitting s; error := error s; success := success s |}.
Definition setSubmitting (v : bool) (s : ChecklistState) : ChecklistState :=
  {| instances := instances s; submitting := v; error := error s; success := success s |}.
Definition setError (v : string) (s : ChecklistState) : ChecklistState :=
  {| instances := instances s; submitting := submitting s; error := v; success := success s |}.
Definition setSuccess (v : string) (s : ChecklistState) : ChecklistState :=
  {| instances := instances s; submitting := submitting s; error := error s; success := v |}.

Definition Promise (A : Type) : Type := Async Backend ChecklistState A.

Definition loadInstances : Promise unit :=
  res <- request (fun b => (inl (queryInstances b), b)) ;;
  data <- orThrow res ;;
  setState (setInstances data).

(** A call that is not awaited: what it throws is not seen by the caller. *)
Definition detached (p : Promise unit) : Promise unit :=
  tryCatch p (fun _ => ret tt).

Definition copyItem (instanceId : string) (item : ChecklistTemplateItem.t) : NewInstanceItem.t :=
  {| NewInstanceItem.instance_id := instanceId;
     NewInstanceItem.template_item_id := ChecklistTemplateItem.id item;
     NewInstanceItem.title := ChecklistTemplateItem.title item;
     NewInstanceItem.description := ChecklistTemplateItem.description item;
     NewInstanceItem.priority := ChecklistTemplateItem.priority item;
     NewInstanceItem.estimated_time_minutes := ChecklistTemplateItem.estimated_time_minutes item;
     NewInstanceItem.responsible_role := ChecklistTemplateItem.responsible_role item;
     NewInstanceItem.notes := ChecklistTemplateItem.notes item;
     NewInstanceItem.sort_order := ChecklistTemplateItem.sort_order item |}.

(** The items of a template ([template.items] may be absent). *)
Definition templateItems (template : ChecklistTemplate.t) : list ChecklistTemplateItem.t :=
  match ChecklistTemplate.items template with
  | Some items => items
  | None => []
  end.

(** An instance item is the copy of a template item, for an instance, that
    nobody has completed yet. *)
Definition copyOf (instanceId : string) (item : ChecklistTemplateItem.t)
  (copy : ChecklistInstanceItem.t) : Prop :=
  ChecklistInstanceItem.instance_id copy = instanceId
  /\ ChecklistInstanceItem.template_item_id copy = Some (ChecklistTemplateItem.id item)
  /\ ChecklistInstanceItem.title copy = ChecklistTemplateItem.title item
  /\ ChecklistInstanceItem.description copy = ChecklistTemplateItem.description item
  /\ ChecklistInstanceItem.priority copy = ChecklistTemplateItem.priority item
  /\ ChecklistInstanceItem.estimated_time_minutes copy
     = ChecklistTemplateItem.estimated_time_minutes item
  /\ ChecklistInstanceItem.responsible_role copy = ChecklistTemplateItem.responsible_role item
  /\ ChecklistInstanceItem.sort_order copy = ChecklistTemplateItem.sort_order item
  /\ ChecklistInstanceItem.is_completed copy = false
  /\ ChecklistInstanceItem.completed_by copy = None
  /\ ChecklistInstanceItem.completed_at copy = None.

Definition handleCreateInstance (user : option User.t) (template : ChecklistTemplate.t)
  : Promise unit :=
  match user with
  | None => ret tt
  | Some u =>
      tryFinally
        (tryCatch
           (setState (setSubmitting true) ;;
            t <- newDateNow ;;
            let today := JsDate.toISODate t in
            res <- request (insertInstance
                     {| NewInstance.template_id := ChecklistTemplate.id template;
                        NewInstance.name := ChecklistTemplate.name template ++ " - " ++ today;
                        NewInstance.category := ChecklistTemplate.category template;
                        NewInstance.exam_date := today;
                        NewInstance.created_by := User.id u |}) ;;
            instance <- orThrow res ;;
            match ChecklistTemplate.items template with
            | Some ((_ :: _) as items) =>
                let instanceItems := map (copyItem (ChecklistInstance.id instance)) items in
                res <- request (insertItems instanceItems) ;;
                orThrow res
            | _ => ret tt
            end ;;
            setState (setSuccess "Checklist instance created successfully!") ;;
            detached loadInstances)
           (fun error =>
              consoleError ("Error creating instance: " ++ message error) ;;
              setState (setError (Js.orElse (message error)
                                            "Failed to create checklist instance"))))
        (fun w => snd (setState (setSubmitting false) w))
  end.

(** *** Ticking an item *)

(** [from('checklist_instance_items').update(updateData).eq('id', id)] *)
Definition updateItemById (id : string)
  (patch : ChecklistInstanceItem.t -> ChecklistInstanceItem.t)
  : Backend -> (unit + JsError) * Backend :=
  fun b =>
    (inl tt,
     {| checklist_instances := checklist_instances b;
        checklist_instance_items :=
          map (fun it => if (ChecklistInstanceItem.id it =? id)%string then patch it else it)
              (checklist_instance_items b);
        serial := serial b |}).

(** The three columns a toggle writes into a row, for an item that the
    render shows as [isCompleted]. *)
Definition updateData (isCompleted : bool) (userId stamp : string)
  (old : ChecklistInstanceItem.t) : ChecklistInstanceItem.t :=
  {| ChecklistInstanceItem.id := ChecklistInstanceItem.id old;
     ChecklistInstanceItem.instance_id := ChecklistInstanceItem.instance_id old;
     ChecklistInstanceItem.template_item_id := ChecklistInstanceItem.template_item_id old;
     ChecklistInstanceItem.title := ChecklistInstanceItem.title old;
     ChecklistInstanceItem.description := ChecklistInstanceItem.description old;
     ChecklistInstanceItem.priority := ChecklistInstanceItem.priority old;
     ChecklistInstanceItem.estimated_time_minutes :=
       ChecklistInstanceItem.estimated_time_minutes old;
     ChecklistInstanceItem.responsible_role := ChecklistInstanceItem.responsible_role old;
     ChecklistInstanceItem.notes := ChecklistInstanceItem.notes old;
     ChecklistInstanceItem.is_completed := negb isCompleted;
     ChecklistInstanceItem.completed_by := if negb isCompleted then Some userId else None;
     ChecklistInstanceItem.completed_at := if negb isCompleted then Some stamp else None;
     ChecklistInstanceItem.sort_order := ChecklistInstanceItem.sort_order old;
     ChecklistInstanceItem.created_at := ChecklistInstanceItem.created_at old |}.

Definition handleToggleItem (user : option User.t) (instanceItem : ChecklistInstanceItem.t)
  : Promise unit :=
  match user with
  | None => ret tt
  | Some u =>
      tryCatch
        (t <- newDateNow ;;
         res <- request (updateItemById (ChecklistInstanceItem.id instanceItem)
                           (updateData (ChecklistInstanceItem.is_completed instanceItem)
                                       (User.id u) (JsDate.toISOString t))) ;;
         orThrow res ;;
         detached loadInstances)
        (fun error =>
           consoleError ("Error updating item: " ++ message error) ;;
           setState (setError "Failed to update item"))
  end.

(** The rows of an item identifier are not completed. *)
Definition pending (id : string) (items : list ChecklistInstanceItem.t) : Prop :=
  Forall (fun it => ChecklistInstanceItem.id it = id ->
                    ChecklistInstanceItem.is_completed it = false
                    /\ ChecklistInstanceItem.completed_by it = None
                    /\ ChecklistInstanceItem.completed_at it = None) items.

End Checklist.

(** ** Candidates (CandidateTracker) *)

Module CandidateTracker.

Import Remote.
Local Open Scope async_scope.

Module Candidate.
Record t := {
  id : string;
  fullName : string;
  email : string;
  phone : option string;
  examDate : option (option JsDate.Instant);
  examName : string;
  status : string;
  confirmationNumber : string;
  checkInTime : option (option JsDate.Instant);
  notes : option string;
  createdAt : option JsDate.Instant
}.
End Candidate.

(** A row of the table candidates; [created_at] is stamped by the service. *)
Module CandidateRow.
Record t := {
  id : string;
  full_name : string;
  email : string;
  phone : option string;
  exam_date : option string;
  exam_name : option string;
  status : string;
  confirmation_number : string;
  check_in_time : option string;
  notes : option string;
  user_id : string;
  created_at : string
}.
End CandidateRow.

(** The object built for one line of the file. *)
Module CandidateData.
Record t := {
  full_name : option string;
  email : option string;
  phone : option string;
  exam_name : option string;
  exam_date : option string;
  notes : option string
}.
Definition empty : t :=
  {| full_name := None; email := None; phone := None; exam_name := None;
     exam_date := None; notes := None |}.
Definition withFullName (v : string) (c : t) : t :=
  {| full_name := Some v; email := email c; phone := phone c; exam_name := exam_name c;
     exam_date := exam_date c; notes := notes c |}.
Definition withEmail (v : string) (c : t) : t :=
  {| full_name := full_name c; email := Some v; phone := phone c; exam_name := exam_name c;
     exam_date := exam_date c; notes := notes c |}.
Definition withPhone (v : option string) (c : t) : t :=
  {| full_name := full_name c; email := email c; phone := v; exam_name := exam_name c;
     exam_date := exam_date c; notes := notes c |}.
Definition withExamName (v : option string) (c : t) : t :=
  {| full_name := full_name c; email := email c; phone := phone c; exam_name := v;
     exam_date := exam_date c; notes := notes c |}.
Definition withExamDate (v : option string) (c : t) : t :=
  {| full_name := full_name c; email := email c; phone := phone c; exam_name := exam_name c;
     exam_date := v; notes := notes c |}.
Definition withNotes (v : option string) (c : t) : t :=
  {| full_name := full_name c; email := email c; phone := phone c; exam_name := exam_name c;
     exam_date := exam_date c; notes := v |}.
End CandidateData.

Module UploadRecord.
Record t := {
  id : string;
  filename : string;
  total_candidates : Z;
  uploaded_by_user_id : string;
  status : string;
  processed_candidates : option Z;
  failed_candidates : option Z;
  error_log : option string;
  processed_date : option string
}.
End UploadRecord.

Module File.
Record t := { name : string; text : string }.
End File.

Module User.
Record t := { id : string }.
End User.

Module UploadResults.
Record t := { success : Z; errors : list string }.
End UploadResults.

Inductive UploadStatus := idle | uploading | success | error.

Record Backend := {
  candidates_table : list CandidateRow.t;
  candidate_roster_uploads : list UploadRecord.t;
  serial : nat
}.

Record TrackerState := {
  candidates : list Candidate.t;
  uploadFile : option File.t;
  uploadProgress : Z;
  uploadStatus : UploadStatus;
  uploadResults : UploadResults.t;
  loading : bool
}.

Definition setCandidates (v : list Candidate.t) (s : TrackerState) : TrackerState :=
  {| candidates := v; uploadFile := uploadFile s; uploadProgress := uploadProgress s;
     uploadStatus := uploadStatus s; uploadResults := uploadResults s; loading := loading s |}.
Definition setUploadProgress (v : Z) (s : TrackerState) : TrackerState :=
  {| candidates := candidates s; uploadFile := uploadFile s; uploadProgress := v;
     uploadStatus := uploadStatus s; uploadResults := uploadResults s; loading := loading s |}.
Definition setUploadStatus (v : UploadStatus) (s : TrackerState) : TrackerState :=
  {| candidates := candidates s; uploadFile := uploadFile s; uploadProgress := uploadProgress s;
     uploadStatus := v; uploadResults := uploadResults s; loading := loading s |}.
Definition setUploadResults (v : UploadResults.t) (s : TrackerState) : TrackerState :=
  {| candidates := candidates s; uploadFile := uploadFile s; uploadProgress := uploadProgress s;
     uploadStatus := uploadStatus s; uploadResults := v; loading := loading s |}.
Definition setLoading (v : bool) (s : TrackerState) : TrackerState :=
  {| candidates := candidates s; uploadFile := uploadFile s; uploadProgress := uploadProgress s;
     uploadStatus := uploadStatus s; uploadResults := uploadResults s; loading := v |}.

Definition Promise (A : Type) : Type := Async Backend TrackerState A.

Section Environment.

(** The time zone of the machine, in minutes east of UTC. *)
Variable tz : Z.

(** [new Date(text)]: the instant a text denotes, if it denotes one (which
    texts do is up to the JavaScript engine). *)
Variable parseDate : string -> option JsDate.Instant.

(** [Math.floor(Math.random() * 1000)] at the call made for the row of the
    given index. *)
Variable random1000 : nat -> Z.

Definition generateConfirmationNumber (row : nat) : Promise string :=
  t <- newDateNow ;;
  let prefix := "EXAM" in
  let year := JsDate.getFullYear tz t in
  let random := Js.padStart 3 "0" (Js.toString (random1000 row)) in
  ret (prefix ++ Js.toString year ++ "-" ++ random).

(** [value || null] *)
Definition orNull (value : string) : option string :=
  if Js.truthy value then Some value else None.

(** [new Date(text).toISOString()], which throws on an invalid date. *)
Definition dateToISOString (text : string) : string + JsError :=
  match parseDate text with
  | Some t => inl (JsDate.toISOString t)
  | None => inr (newError "Invalid time value")
  end.

(** One turn of [headers.forEach((header, index) => ...)]. *)
Definition readColumn (values : list string) (candidateData : CandidateData.t)
  (header : string) (index : nat) : CandidateData.t + JsError :=
  let value := Js.orElse (nth index values "") "" in
  let c1 :=
    if Js.includes header "name" || Js.includes header "full"
    then CandidateData.withFullName value candidateData else candidateData in
  let c2 := if Js.includes header "email" then CandidateData.withEmail value c1 else c1 in
  let c3 := if Js.includes header "phone" then CandidateData.withPhone (orNull value) c2 else c2 in
  let c4 :=
    if Js.includes header "exam" && Js.includes header "name"
    then CandidateData.withExamName (orNull value) c3 else c3 in
  let notes (c : CandidateData.t) : CandidateData.t :=
    if Js.includes header "note" then CandidateData.withNotes (orNull value) c else c in
  if Js.includes header "exam" && Js.includes header "date" then
    if Js.truthy value then
      match dateToISOString value with
      | inl iso => inl (notes (CandidateData.withExamDate (Some iso) c4))
      | inr e => inr e
      end
    else inl (notes (CandidateData.withExamDate None c4))
  else inl (notes c4).

(** [headers.forEach]: a turn that throws ends the loop. *)
Fixpoint readColumns (values : list string) (headers : list string) (index : nat)
  (candidateData : CandidateData.t) : CandidateData.t + JsError :=
  match headers with
  | [] => inl candidateData
  | header :: rest =>
      match readColumn values candidateData header index with
      | inl candidateData' => readColumns values rest (S index) candidateData'
      | inr e => inr e
      end
  end.

(** [!text] for a field that may be absent. *)
Definition blank (field : option string) : bool :=
  match field with
  | Some text => negb (Js.truthy text)
  | None => true
  end.

Definition rowLabel (i : nat) : string := "Row " ++ Js.toString (Z.of_nat i + 2) ++ ": ".

(** [from('candidates').insert(candidateData)] *)
Definition insertCandidate (c : CandidateData.t) (confirmation userId : string)
  : Backend -> (unit + JsError) * Backend :=
  fun b =>
    (inl tt,
     {| candidates_table :=
          (candidates_table b ++
           [ {| CandidateRow.id := rowId (serial b);
                CandidateRow.full_name := match CandidateData.full_name c with
                                          | Some v => v | None => "" end;
                CandidateRow.email := match CandidateData.email c with
                                      | Some v => v | None => "" end;
                CandidateRow.phone := CandidateData.phone c;
                CandidateRow.exam_date := CandidateData.exam_date c;
                CandidateRow.exam_name := CandidateData.exam_name c;
                CandidateRow.status := "registered";
                CandidateRow.confirmation_number := confirmation;
                CandidateRow.check_in_time := None;
                CandidateRow.notes := CandidateData.notes c;
                CandidateRow.user_id := userId;
                CandidateRow.created_at := rowId (serial b) |} ])%list;
        candidate_roster_uploads := candidate_roster_uploads b;
        serial := S (serial b) |}).

(** The cells of a line of the file. *)
Definition cells (line : string) : list string := map Js.trim (Js.split "," line).

(** The row loop refuses the line at index [i] without a round trip, and
    [msg] is what it pushes for it: a date that cannot be read, a missing
    name or email, or an email that a loaded candidate already has. *)
Definition refusedLocally (state : TrackerState) (headers : list string) (i : nat)
  (line : string) (msg : string) : Prop :=
  match readColumns (cells line) headers 0 CandidateData.empty with
  | inr e => msg = rowLabel i ++ message e
  | inl candidateData =>
      if blank (CandidateData.full_name candidateData)
         || blank (CandidateData.email candidateData)
      then msg = rowLabel i ++ "Missing name or email"
      else
        let email := match CandidateData.email candidateData with
                     | Some v => v | None => "" end in
        match find (fun c => (Candidate.email c =? email)%string) (candidates state) with
        | Some _ => msg = rowLabel i ++ "Email " ++ email ++ " already exists"
        | None => False
        end
  end.

(** How the body of the row loop is left: by [continue], or at its end. *)
Inductive RowExit :=
  | Continue (errors : list string)
  | Completed (errors : list string) (successCount : Z).

(** [Math.round(((i + 1) / total) * 100)] *)
Definition progress (i total : nat) : Z :=
  (2 * 100 * (Z.of_nat i + 1) + Z.of_nat total) / (2 * Z.of_nat total).

(** One turn of the row loop: [errors] and [successCount] are the
    accumulators the loop carries. *)
Definition processRow (state : TrackerState) (user : User.t) (headers : list string)
  (total : nat) (i : nat) (line : string) (errors : list string) (successCount : Z)
  : Promise (list string * Z) :=
  exit <-
    tryCatch
      (let values := cells line in
       candidateData <- orThrow (readColumns values headers 0 CandidateData.empty) ;;
       if blank (CandidateData.full_name candidateData)
          || blank (CandidateData.email candidateData)
       then ret (Continue (Js.push errors (rowLabel i ++ "Missing name or email")))
       else
         let email := match CandidateData.email candidateData with
                      | Some v => v | None => "" end in
         match find (fun c => (Candidate.email c =? email)%string) (candidates state) with
         | Some _ =>
             ret (Continue (Js.push errors (rowLabel i ++ "Email " ++ email
                                            ++ " already exists")))
         | None =>
             confirmation <- generateConfirmationNumber i ;;
             res <- request (insertCandidate candidateData confirmation (User.id user)) ;;
             match res with
             | inr e =>
                 ret (Completed (Js.push errors (rowLabel i ++ "Database error - "
                                                 ++ message e)) successCount)
             | inl _ => ret (Completed errors (successCount + 1))
             end
         end)
      (fun rowError =>
         ret (Completed (Js.push errors (rowLabel i ++ message rowError)) successCount)) ;;
  match exit with
  | Continue errors' => ret (errors', successCount)
  | Completed errors' successCount' =>
      setState (setUploadProgress (progress i total)) ;;
      ret (errors', successCount')
  end.

(** [for (let i = 0; i < dataLines.length; i++) { ... }], from row [i] on. *)
Fixpoint processRows (state : TrackerState) (user : User.t) (headers : list string)
  (total : nat) (i : nat) (dataLines : list string) (errors : list string)
  (successCount : Z) : Promise (list string * Z) :=
  match dataLines with
  | [] => ret (errors, successCount)
  | line :: rest =>
      acc <- processRow state user headers total i line errors successCount ;;
      processRows state user headers total (S i) rest (fst acc) (snd acc)
  end.

Definition toCandidate (row : nat) (candidate : CandidateRow.t) : Promise Candidate.t :=
  confirmation <-
    (if Js.truthy (CandidateRow.confirmation_number candidate)
     then ret (CandidateRow.confirmation_number candidate)
     else generateConfirmationNumber row) ;;
  ret {| Candidate.id := CandidateRow.id candidate;
         Candidate.fullName := CandidateRow.full_name candidate;
         Candidate.email := CandidateRow.email candidate;
         Candidate.phone := CandidateRow.phone candidate;
         Candidate.examDate :=
           match CandidateRow.exam_date candidate with
           | Some text => if Js.truthy text then Some (parseDate text) else None
           | None => None
           end;
         Candidate.examName := match CandidateRow.exam_name candidate with
                               | Some text => Js.orElse text "Exam Session"
                               | None => "Exam Session"
                               end;
         Candidate.status := CandidateRow.status candidate;
         Candidate.confirmationNumber := confirmation;
         Candidate.checkInTime :=
           match CandidateRow.check_in_time candidate with
           | Some text => if Js.truthy text then Some (parseDate text) else None
           | None => None
           end;
         Candidate.notes := CandidateRow.notes candidate;
         Candidate.createdAt := parseDate (CandidateRow.created_at candidate) |}.

Fixpoint toCandidates (row : nat) (rows : list CandidateRow.t) : Promise (list Candidate.t) :=
  match rows with
  | [] => ret []
  | candidate :: rest =>
      c <- toCandidate row candidate ;;
      cs <- toCandidates (S row) rest ;;
      ret (c :: cs)
  end.

Definition loadCandidates : Promise unit :=
  tryFinally
    (tryCatch
       (setState (setLoading true) ;;
        (* order('created_at', descending): the rows, last stored first *)
        res <- request (fun b => (inl (rev (candidates_table b)), b)) ;;
        match res with
        | inr e => consoleError ("Error loading candidates: " ++ message e)
        | inl candidatesData =>
            formattedCandidates <- toCandidates 0 candidatesData ;;
            setState (setCandidates formattedCandidates)
        end)
       (fun error => consoleError ("Error loading candidates: " ++ message error)))
    (fun w => snd (setState (setLoading false) w)).

(** [from('candidate_roster_uploads').insert({...}).select().single()] *)
Definition insertUpload (filename userId : string)
  : Backend -> (UploadRecord.t + JsError) * Backend :=
  fun b =>
    let row := {| UploadRecord.id := rowId (serial b);
                  UploadRecord.filename := filename;
                  UploadRecord.total_candidates := 0;
                  UploadRecord.uploaded_by_user_id := userId;
                  UploadRecord.status := "processing";
                  UploadRecord.processed_candidates := None;
                  UploadRecord.failed_candidates := None;
                  UploadRecord.error_log := None;
                  UploadRecord.processed_date := None |} in
    (single [row],
     {| candidates_table := candidates_table b;
        candidate_roster_uploads := (candidate_roster_uploads b ++ [row])%list;
        serial := S (serial b) |}).

(** [from('candidate_roster_uploads').update({...}).eq('id', id)] *)
Definition updateUpload (id : string) (patch : UploadRecord.t -> UploadRecord.t)
  : Backend -> (unit + JsError) * Backend :=
  fun b =>
    (inl tt,
     {| candidates_table := candidates_table b;
        candidate_roster_uploads :=
          map (fun u => if (UploadRecord.id u =? id)%string then patch u else u)
              (candidate_roster_uploads b);
        serial := serial b |}).

(** [text.split('\n').filter(line => line.trim())] *)
Definition nonBlankLines (text : string) : list string :=
  filter (fun line => Js.truthy (Js.trim line)) (Js.split "010" text).

Definition requiredHeaders : list string := ["full_name"; "email"].

Definition missingHeaders (headers : list string) : list string :=
  filter (fun h => negb (existsb (fun header => Js.includes header (Js.replace h "_" ""))
                                 headers))
         requiredHeaders.

(** The header cells of the file and its data lines. *)
Definition headersOf (file : File.t) : list string :=
  map (fun h => Js.toLowerCase (Js.trim h)) (Js.split "," (hd "" (nonBlankLines (File.text file)))).

Definition dataLinesOf (file : File.t) : list string := tl (nonBlankLines (File.text file)).

Definition processBulkUpload (state : TrackerState) (user : option User.t) : Promise unit :=
  match uploadFile state, user with
  | Some file, Some u =>
      setState (setUploadStatus uploading) ;;
      setState (setUploadProgress 0) ;;
      tryCatch
        (res <- request (insertUpload (File.name file) (User.id u)) ;;
         uploadRecord <-
           match res with
           | inl record => ret (Some record)
           | inr uploadError =>
               consoleError ("Error creating upload record: " ++ message uploadError) ;;
               ret None
           end ;;
         let lines := nonBlankLines (File.text file) in
         if (List.length lines <? 2)%nat then
           throw (newError "File must contain at least a header row and one data row")
         else
           let headers := map (fun h => Js.toLowerCase (Js.trim h))
                              (Js.split "," (hd "" lines)) in
           let dataLines := tl lines in
           let missing := missingHeaders headers in
           if (0 <? List.length missing)%nat then
             throw (newError ("Missing required columns: " ++ String.concat ", " missing))
           else
             acc <- processRows state u headers (List.length dataLines) 0 dataLines [] 0 ;;
             let errors := fst acc in
             let successCount := snd acc in
             let allFailed := (List.length errors =? List.length dataLines)%nat in
             match uploadRecord with
             | Some record =>
                 t <- newDateNow ;;
                 _ <- request (updateUpload (UploadRecord.id record) (fun old =>
                        {| UploadRecord.id := UploadRecord.id old;
                           UploadRecord.filename := UploadRecord.filename old;
                           UploadRecord.total_candidates := Z.of_nat (List.length dataLines);
                           UploadRecord.uploaded_by_user_id := UploadRecord.uploaded_by_user_id old;
                           UploadRecord.status := if allFailed then "failed" else "completed";
                           UploadRecord.processed_candidates := Some successCount;
                           UploadRecord.failed_candidates := Some (Z.of_nat (List.length errors));
                           UploadRecord.error_log :=
                             if (0 <? List.length errors)%nat
                             then Some (String.concat (String "010" "") errors) else None;
                           UploadRecord.processed_date := Some (JsDate.toISOString t) |})) ;;
                 ret tt
             | None => ret tt
             end ;;
             setState (setUploadResults {| UploadResults.success := successCount;
                                           UploadResults.errors := errors |}) ;;
             setState (setUploadStatus (if allFailed then error else success)) ;;
             if 0 <? successCount then loadCandidates else ret tt)
        (fun error =>
           setState (setUploadStatus CandidateTracker.error) ;;
           setState (setUploadResults {| UploadResults.success := 0;
                                         UploadResults.errors := [message error] |}))
  | _, _ => ret tt
  end.

(** *** The status of a candidate *)

(** [alert(text)]: the texts shown so far are kept beside the state of the
    component. *)
Definition alert (text : string) : Async Backend (TrackerState * list string) unit :=
  setState (fun s => (fst s, (snd s ++ [text])%list)).

(** [from('candidates').update(updateData).eq('id', id)] *)
Definition updateCandidateById (id : string) (patch : CandidateRow.t -> CandidateRow.t)
  : Backend -> (unit + JsError) * Backend :=
  fun b =>
    (inl tt,
     {| candidates_table :=
          map (fun c => if (CandidateRow.id c =? id)%string then patch c else c)
              (candidates_table b);
        candidate_roster_uploads := candidate_roster_uploads b;
        serial := serial b |}).

(** The columns [handleUpdateStatus] writes into a row: the status, and the
    check-in time when the new status is "checked_in". *)
Definition statusUpdate (newStatus stamp : string) (old : CandidateRow.t) : CandidateRow.t :=
  {| CandidateRow.id := CandidateRow.id old;
     CandidateRow.full_name := CandidateRow.full_name old;
     CandidateRow.email := CandidateRow.email old;
     CandidateRow.phone := CandidateRow.phone old;
     CandidateRow.exam_date := CandidateRow.exam_date old;
     CandidateRow.exam_name := CandidateRow.exam_name old;
     CandidateRow.status := newStatus;
     CandidateRow.confirmation_number := CandidateRow.confirmation_number old;
     CandidateRow.check_in_time :=
       if (newStatus =? "checked_in")%string then Some stamp
       else CandidateRow.check_in_time old;
     CandidateRow.notes := CandidateRow.notes old;
     CandidateRow.user_id := CandidateRow.user_id old;
     CandidateRow.created_at := CandidateRow.created_at old |}.

Definition handleUpdateStatus (candidateId newStatus : string)
  : Async Backend (TrackerState * list string) unit :=
  tryCatch
    (t <- newDateNow ;;
     res <- request (updateCandidateById candidateId
                       (statusUpdate newStatus (JsDate.toISOString t))) ;;
     match res with
     | inr e =>
         consoleError ("Error updating status: " ++ message e) ;;
         alert ("Failed to update status: " ++ message e)
     | inl _ => within loadCandidates
     end)
    (fun error =>
       consoleError ("Error updating status: " ++ message error) ;;
       alert "Failed to update status. Please try again.").

End Environment.

End CandidateTracker.

(** ** The session calendar (FetsCalendar)

    [formatDateForIST] of utils/dateUtils is not among the sources: the
    component is given for any formatter. *)

Module FetsCalendar.

Import Remote.
Local Open Scope async_scope.

Module Session.
Record t := {
  id : option Z;
  client_name : string;
  exam_name : string;
  date : string;
  candidate_count : Z;
  start_time : string;
  end_time : string;
  user_id : string;
  created_at : option string;
  updated_at : option string
}.
End Session.

Module FormData.
Record t := {
  client_name : string;
  exam_name : string;
  date : string;
  candidate_count : Z;
  start_time : string;
  end_time : string
}.
End FormData.

Module User.
Record t := { id : string }.
End User.

Inductive NotificationType := success | error | warning.

Module Notification.
Record t := { type : NotificationType; message : string }.
End Notification.

Inductive ClientType := PEARSON | VUE | ETS | PSI | PROMETRIC | OTHER.

Record Backend := {
  sessions_table : list Session.t;
  serial : nat
}.

Record CalendarState := {
  currentDate : JsDate.Instant;
  sessions : list Session.t;
  loading : bool;
  showModal : bool;
  showDetailsModal : bool;
  selectedDate : option JsDate.Instant;
  editingSession : option Session.t;
  notification : option Notification.t;
  formData : FormData.t
}.

Definition setSessions (v : list Session.t) (s : CalendarState) : CalendarState :=
  {| currentDate := currentDate s; sessions := v; loading := loading s;
     showModal := showModal s; showDetailsModal := showDetailsModal s;
     selectedDate := selectedDate s; editingSession := editingSession s;
     notification := notification s; formData := formData s |}.

Definition setLoading (v : bool) (s : CalendarState) : CalendarState :=
  {| currentDate := currentDate s; sessions := sessions s; loading := v;
     showModal := showModal s; showDetailsModal := showDetailsModal s;
     selectedDate := selectedDate s; editingSession := editingSession s;
     notification := notification s; formData := formData s |}.

Definition setShowModal (v : bool) (s : CalendarState) : CalendarState :=
  {| currentDate := currentDate s; sessions := sessions s; loading := loading s;
     showModal := v; showDetailsModal := showDetailsModal s;
     selectedDate := selectedDate s; editingSession := editingSession s;
     notification := notification s; formData := formData s |}.

Definition setShowDetailsModal (v : bool) (s : CalendarState) : CalendarState :=
  {| currentDate := currentDate s; sessions := sessions s; loading := loading s;
     showModal := showModal s; showDetailsModal := v;
     selectedDate := selectedDate s; editingSession := editingSession s;
     notification := notification s; formData := formData s |}.

Definition setSelectedDate (v : option JsDate.Instant) (s : CalendarState) : CalendarState :=
  {| currentDate := currentDate s; sessions := sessions s; loading := loading s;
     showModal := showModal s; showDetailsModal := showDetailsModal s;
     selectedDate := v; editingSession := editingSession s;
     notification := notification s; formData := formData s |}.

Definition setEditingSession (v : option Session.t) (s : CalendarState) : CalendarState :=
  {| currentDate := currentDate s; sessions := sessions s; loading := loading s;
     showModal := showModal s; showDetailsModal := showDetailsModal s;
     selectedDate := selectedDate s; editingSession := v;
     notification := notification s; formData := formData s |}.

Definition setNotification (v : option Notification.t) (s : CalendarState) : CalendarState :=
  {| currentDate := currentDate s; sessions := sessions s; loading := loading s;
     showModal := showModal s; showDetailsModal := showDetailsModal s;
     selectedDate := selectedDate s; editingSession := editingSession s;
     notification := v; formData := formData s |}.

Definition setFormData (v : FormData.t) (s : CalendarState) : CalendarState :=
  {| currentDate := currentDate s; sessions := sessions s; loading := loading s;
     showModal := showModal s; showDetailsModal := showDetailsModal s;
     selectedDate := selectedDate s; editingSession := editingSession s;
     notification := notification s; formData := v |}.

(** The values a render closes over. *)
Record Render := {
  user : option User.t;
  tz : Z;
  state : CalendarState
}.

Definition Promise (A : Type) : Type := Async Backend CalendarState A.

Definition showNotification (type : NotificationType) (message : string) : Promise unit :=
  setState (setNotification (Some {| Notification.type := type;
                                     Notification.message := message |})).

(** [a === b] on an identifier that may be absent and a number. *)
Definition idEqb (a : option Z) (b : Z) : bool :=
  match a with
  | Some x => x =? b
  | None => false
  end.

(** [from('sessions').insert([row])]: the service numbers the row. *)
Definition insertSession (row : Session.t) : Backend -> (unit + JsError) * Backend :=
  fun b =>
    (inl tt,
     {| sessions_table :=
          (sessions_table b ++
           [ {| Session.id := Some (Z.of_nat (S (serial b)));
                Session.client_name := Session.client_name row;
                Session.exam_name := Session.exam_name row;
                Session.date := Session.date row;
                Session.candidate_count := Session.candidate_count row;
                Session.start_time := Session.start_time row;
                Session.end_time := Session.end_time row;
                Session.user_id := Session.user_id row;
                Session.created_at := Session.created_at row;
                Session.updated_at := Session.updated_at row |} ])%list;
        serial := S (serial b) |}).

(** [from('sessions').update(values).eq('id', id)] *)
Definition updateSessionById (id : Z) (patch : Session.t -> Session.t)
  : Backend -> (unit + JsError) * Backend :=
  fun b =>
    (inl tt,
     {| sessions_table :=
          map (fun s => if idEqb (Session.id s) id then patch s else s) (sessions_table b);
        serial := serial b |}).

(** [from('sessions').delete().eq('id', id)] *)
Definition deleteSessionById (id : Z) : Backend -> (unit + JsError) * Backend :=
  fun b =>
    (inl tt,
     {| sessions_table := filter (fun s => negb (idEqb (Session.id s) id)) (sessions_table b);
        serial := serial b |}).

(** The values of the form, with the user and the time, written into a row. *)
Definition sessionData (formData : FormData.t) (userId stamp : string) (old : Session.t)
  : Session.t :=
  {| Session.id := Session.id old;
     Session.client_name := FormData.client_name formData;
     Session.exam_name := FormData.exam_name formData;
     Session.date := FormData.date formData;
     Session.candidate_count := FormData.candidate_count formData;
     Session.start_time := FormData.start_time formData;
     Session.end_time := FormData.end_time formData;
     Session.user_id := userId;
     Session.created_at := Session.created_at old;
     Session.updated_at := Some stamp |}.

(** [formatTimeRange]: a time of day "HH:mm" on the 12-hour clock. *)
Definition formatTime (time : string) : string :=
  let parts := Js.split ":" time in
  let hours := nth 0 parts "" in
  let minutes := match nth_error parts 1 with
                 | Some m => m
                 | None => "undefined"
                 end in
  let hour := Js.parseInt hours in
  let ampm := match hour with
              | Some h => if h >=? 12 then "pm" else "am"
              | None => "am"
              end in
  let displayHour := match hour with
                     | Some h => if h >? 12 then Some (h - 12)
                                 else if h =? 0 then Some 12 else Some h
                     | None => None
                     end in
  Js.numberToString displayHour ++ ":" ++ minutes ++ ampm.

Definition formatTimeRange (startTime endTime : string) : string :=
  formatTime startTime ++ " - " ++ formatTime endTime.

Definition getClientType (clientName : string) : ClientType :=
  let upperName := Js.toUpperCase clientName in
  if Js.includes upperName "PEARSON" then PEARSON
  else if Js.includes upperName "VUE" then VUE
  else if Js.includes upperName "ETS" then ETS
  else if Js.includes upperName "PSI" then PSI
  else if Js.includes upperName "PROMETRIC" then PROMETRIC
  else OTHER.

(** The cells of the month grid: a blank for each day of the week before
    the first day of the month, then the days of the month. *)
Definition getDaysInMonth (r : Render) : list (option JsDate.Instant) :=
  let year := JsDate.getFullYear (tz r) (currentDate (state r)) in
  let month := JsDate.getMonth (tz r) (currentDate (state r)) in
  let firstDay := JsDate.newDate (tz r) year month 1 in
  let lastDay := JsDate.newDate (tz r) year (month + 1) 0 in
  let daysInMonth := JsDate.getDate (tz r) lastDay in
  let startingDayOfWeek := JsDate.getDay (tz r) firstDay in
  (repeat None (Z.to_nat startingDayOfWeek)
   ++ map (fun day => Some (JsDate.newDate (tz r) year month (Z.of_nat day)))
          (seq 1 (Z.to_nat daysInMonth)))%list.

Definition setCurrentDate (v : JsDate.Instant) (s : CalendarState) : CalendarState :=
  {| currentDate := v; sessions := sessions s; loading := loading s;
     showModal := showModal s; showDetailsModal := showDetailsModal s;
     selectedDate := selectedDate s; editingSession := editingSession s;
     notification := notification s; formData := formData s |}.

Inductive Direction := prev | next.

(** The date [navigateMonth] computes. *)
Definition navigated (r : Render) (direction : Direction) : JsDate.Instant :=
  let newDate := currentDate (state r) in
  match direction with
  | prev => JsDate.setMonth (tz r) newDate (JsDate.getMonth (tz r) newDate - 1)
  | next => JsDate.setMonth (tz r) newDate (JsDate.getMonth (tz r) newDate + 1)
  end.

Definition navigateMonth (r : Render) (direction : Direction) : Promise unit :=
  setState (setCurrentDate (navigated r direction)).

Section Formatter.

Variable formatDateForIST : JsDate.Instant -> string.

Definition startOfMonth (r : Render) : JsDate.Instant :=
  let currentDate := currentDate (state r) in
  JsDate.newDate (tz r) (JsDate.getFullYear (tz r) currentDate)
                 (JsDate.getMonth (tz r) currentDate) 1.

Definition endOfMonth (r : Render) : JsDate.Instant :=
  let currentDate := currentDate (state r) in
  JsDate.newDate (tz r) (JsDate.getFullYear (tz r) currentDate)
                 (JsDate.getMonth (tz r) currentDate + 1) 0.

(** The sessions of the displayed month, by date. *)
Definition querySessions (r : Render) (b : Backend) : list Session.t :=
  let startDateIST := formatDateForIST (startOfMonth r) in
  let endDateIST := formatDateForIST (endOfMonth r) in
  orderBy (fun a c => String.leb (Session.date a) (Session.date c))
    (filter (fun s => String.leb startDateIST (Session.date s)
                      && String.leb (Session.date s) endDateIST)
            (sessions_table b)).

Definition loadSessions (r : Render) : Promise unit :=
  tryFinally
    (tryCatch
       (setState (setLoading true) ;;
        res <- request (fun b => (inl (querySessions r b), b)) ;;
        data <-
          match res with
          | inl data => ret data
          | inr e => consoleError ("Supabase error: " ++ message e) ;; throw e
          end ;;
        setState (setSessions data))
       (fun error =>
          consoleError ("Error loading sessions: " ++ message error) ;;
          showNotification FetsCalendar.error "Failed to load sessions" ;;
          setState (setSessions [])))
    (fun w => snd (setState (setLoading false) w)).

Definition getSessionsForDate (r : Render) (date : JsDate.Instant) : list Session.t :=
  let dateStr := formatDateForIST date in
  filter (fun session => (Session.date session =? dateStr)%string) (sessions (state r)).

(** The candidates of a day, per client. *)
Definition getClientCounts (r : Render) (date : JsDate.Instant) : list (string * Z) :=
  let daySessions := getSessionsForDate r date in
  fold_left
    (fun clientCounts session =>
       Js.set clientCounts (Session.client_name session)
              ((match Js.get clientCounts (Session.client_name session) with
                | Some n => if n =? 0 then 0 else n
                | None => 0
                end) + Session.candidate_count session))
    daySessions [].

Definition closeModal : Promise unit :=
  setState (setShowModal false) ;;
  setState (setShowDetailsModal false) ;;
  setState (setEditingSession None) ;;
  setState (setSelectedDate None) ;;
  setState (setFormData {| FormData.client_name := ""; FormData.exam_name := "";
                           FormData.date := ""; FormData.candidate_count := 1;
                           FormData.start_time := "09:00"; FormData.end_time := "17:00" |}).

(** The identifier of the session being edited, when there is one that is
    not zero ([editingSession && editingSession.id]). *)
Definition editedId (r : Render) : option Z :=
  match editingSession (state r) with
  | Some session =>
      match Session.id session with
      | Some id => if id =? 0 then None else Some id
      | None => None
      end
  | None => None
  end.

Definition handleSubmit (r : Render) : Promise unit :=
  match user r with
  | None => ret tt
  | Some u =>
      let formData := formData (state r) in
      let capacityValidation :=
        SessionUtils.validateSessionCapacity (FormData.candidate_count formData) in
      if negb (SessionUtils.isValid capacityValidation) then
        showNotification FetsCalendar.error
          (match SessionUtils.error capacityValidation with
           | Some text => text
           | None => ""
           end)
      else
        match SessionUtils.warning capacityValidation with
        | Some text => if Js.truthy text then showNotification warning text else ret tt
        | None => ret tt
        end ;;
        tryCatch
          (t <- newDateNow ;;
           match editedId r with
           | Some id =>
               res <- request (updateSessionById id
                                 (sessionData formData (User.id u) (JsDate.toISOString t))) ;;
               orThrow res ;;
               showNotification success "Session updated successfully!"
           | None =>
               t' <- newDateNow ;;
               res <- request (insertSession
                                 {| Session.id := None;
                                    Session.client_name := FormData.client_name formData;
                                    Session.exam_name := FormData.exam_name formData;
                                    Session.date := FormData.date formData;
                                    Session.candidate_count :=
                                      FormData.candidate_count formData;
                                    Session.start_time := FormData.start_time formData;
                                    Session.end_time := FormData.end_time formData;
                                    Session.user_id := User.id u;
                                    Session.created_at := Some (JsDate.toISOString t');
                                    Session.updated_at := Some (JsDate.toISOString t) |}) ;;
               orThrow res ;;
               showNotification success "Session created successfully!"
           end ;;
           closeModal ;;
           loadSessions r)
          (fun error =>
             consoleError ("Error saving session: " ++ message error) ;;
             showNotification FetsCalendar.error "Failed to save session")
  end.

(** [confirmed] is the answer given to the [confirm] dialog. *)
Definition handleDelete (r : Render) (sessionId : Z) (confirmed : bool) : Promise unit :=
  if negb confirmed then ret tt
  else
    tryCatch
      (res <- request (deleteSessionById sessionId) ;;
       orThrow res ;;
       showNotification success "Session deleted successfully!" ;;
       loadSessions r ;;
       match selectedDate (state r) with
       | Some date =>
           let remainingSessions :=
             filter (fun s => negb (idEqb (Session.id s) sessionId))
                    (getSessionsForDate r date) in
           if (List.length remainingSessions =? 0)%nat
           then setState (setShowDetailsModal false) else ret tt
       | None => ret tt
       end)
      (fun error =>
         consoleError ("Error deleting session: " ++ message error) ;;
         showNotification FetsCalendar.error "Failed to delete session").

End Formatter.

(** No stored session has more candidates than the capacity. *)
Definition withinCapacity (b : Backend) : Prop :=
  Forall (fun s => Session.candidate_count s <= SessionUtils.MAX_CAPACITY) (sessions_table b).

(** The candidates of the sessions of a client, added up. *)
Definition candidatesOf (clientName : string) (l : list Session.t) : Z :=
  fold_right Z.add 0
    (map Session.candidate_count
         (filter (fun s => (Session.client_name s =? clientName)%string) l)).

(** The hour of the 12-hour clock for an hour of the day. *)
Definition twelveHour (hour : Z) : Z := (hour + 11) mod 12 + 1.

(** A change of the tables that keeps them within capacity. *)
Definition capacityStep (b b' : Backend) : Prop := withinCapacity b -> withinCapacity b'.

End FetsCalendar.

(** ** Scenarios

    Concrete data on which the statements below are exercised: an exam
    centre with three staff members (Ann is an administrator and is signed
    in), the roster of April 2025, a machine in India (UTC+05:30). *)

Module Scenario.

Import Remote Roster.

Definition staff (id user name role : string) : StaffProfile.t :=
  {| StaffProfile.id := id; StaffProfile.user_id := Some user;
     StaffProfile.full_name := name; StaffProfile.role := role;
     StaffProfile.email := ""; StaffProfile.department := None |}.

Definition ann : StaffProfile.t := staff "s1" "u1" "Ann" "super_admin".
Definition bob : StaffProfile.t := staff "s2" "u2" "Bob" "staff".
Definition cy : StaffProfile.t := staff "s3" "u3" "Cy" "staff".

Definition version (id label : string) (created : Z) (active : bool) : RosterVersion.t :=
  {| RosterVersion.id := Some id; RosterVersion.month := 4; RosterVersion.year := 2025;
     RosterVersion.version_number := label; RosterVersion.created_by := Some "u1";
     RosterVersion.created_at := created; RosterVersion.edit_log := None;
     RosterVersion.is_active := active |}.

Definition shift (id profile date code : string) : RosterSchedule.t :=
  {| RosterSchedule.id := Some id; RosterSchedule.profile_id := profile;
     RosterSchedule.date := date; RosterSchedule.shift_code := code;
     RosterSchedule.overtime_hours := Some 2; RosterSchedule.status := "confirmed";
     RosterSchedule.created_at := None; RosterSchedule.updated_at := None |}.

(** The state of a render of April 2025 (15 April, 01:00 local time). *)
Definition april (schedules : list RosterSchedule.t) (versions : list RosterVersion.t)
  (currentVersion : option RosterVersion.t) : RosterState :=
  {| currentDate := JsDate.newDate 330 2025 3 15 + 3600000;
     schedules := schedules;
     staffProfiles := [ann; bob; cy];
     requests := [];
     versions := versions;
     overtimeData := [];
     loading := false;
     showEditModal := false;
     showApprovalModal := false;
     selectedEdit := None;
     selectedRequest := None;
     currentVersion := currentVersion;
     notification := None |}.

Definition render (st : RosterState) : Render :=
  {| user := Some {| User.id := "u1" |}; tz := 330; state := st |}.

Definition staffRow (p : StaffProfile.t) : StaffProfileRow.t :=
  {| StaffProfileRow.id := StaffProfile.id p;
     StaffProfileRow.user_id := StaffProfile.user_id p;
     StaffProfileRow.full_name := StaffProfile.full_name p;
     StaffProfileRow.role := StaffProfile.role p;
     StaffProfileRow.email := None;
     StaffProfileRow.department := None |}.

Definition tables (schedules : list RosterSchedule.t) (versions : list RosterVersion.t)
  : Backend :=
  {| staff_profiles := map staffRow [ann; bob; cy];
     roster_schedules := schedules;
     roster_versions := versions;
     overtime_tracking := [];
     leave_requests := [];
     serial := 100 |}.

Definition refused : JsError :=
  {| instanceofError := false; message := "permission denied"; code := "42501" |}.

(** Bob asks for a half day on 10 May 2025. *)
Definition halfDay : LeaveRequest.t :=
  {| LeaveRequest.id := Some "q1"; LeaveRequest.user_id := "s2";
     LeaveRequest.request_type := "half_day"; LeaveRequest.requested_date := "2025-05-10";
     LeaveRequest.swap_with_user_id := None; LeaveRequest.swap_date := None;
     LeaveRequest.reason := None; LeaveRequest.status := "pending";
     LeaveRequest.approved_by := None; LeaveRequest.approved_at := None;
     LeaveRequest.created_at := 50 |}.

Definition withRequests (requests : list LeaveRequest.t) (b : Backend) : Backend :=
  {| staff_profiles := staff_profiles b;
     roster_schedules := roster_schedules b;
     roster_versions := roster_versions b;
     overtime_tracking := overtime_tracking b;
     leave_requests := requests;
     serial := serial b |}.

Definition world (b : Backend) (rs : list Reply) (st : RosterState) : W :=
  {| db := b; replies := rs; now := 1744700000000; console := []; ui := st |}.

(** The same render with another staff member signed in. *)
Definition renderAs (userId : string) (st : RosterState) : Render :=
  {| user := Some {| User.id := userId |}; tz := 330; state := st |}.

(** A formatter that gives the calendar date at UTC+05:30. *)
Definition localDate (t : JsDate.Instant) : string :=
  JsDate.formatCivil (JsDate.civil_from_days (JsDate.localDay 330 t)).

End Scenario.

(** A pre-exam template with two items, instantiated on 15 April 2025. *)
Module ChecklistScenario.

Import Remote Checklist.

Definition item (id title : string) (order : Z) : ChecklistTemplateItem.t :=
  {| ChecklistTemplateItem.id := id;
     ChecklistTemplateItem.template_id := "t1";
     ChecklistTemplateItem.title := title;
     ChecklistTemplateItem.description := None;
     ChecklistTemplateItem.priority := high;
     ChecklistTemplateItem.estimated_time_minutes := 5;
     ChecklistTemplateItem.responsible_role := "tca";
     ChecklistTemplateItem.notes := None;
     ChecklistTemplateItem.sort_order := order;
     ChecklistTemplateItem.created_at := "2025-01-01T00:00:00.000Z" |}.

Definition opening : ChecklistTemplate.t :=
  {| ChecklistTemplate.id := "t1";
     ChecklistTemplate.name := "Opening";
     ChecklistTemplate.description := None;
     ChecklistTemplate.category := pre_exam;
     ChecklistTemplate.is_active := true;
     ChecklistTemplate.created_by := "u1";
     ChecklistTemplate.created_at := "2025-01-01T00:00:00.000Z";
     ChecklistTemplate.updated_at := "2025-01-01T00:00:00.000Z";
     ChecklistTemplate.items := Some [item "i1" "Unlock lockers" 1; item "i2" "Start servers" 2] |}.

Definition world : World Backend ChecklistState :=
  {| db := {| checklist_instances := []; checklist_instance_items := []; serial := 0 |};
     replies := [];
     now := 1744700000000;
     console := [];
     ui := {| instances := []; submitting := false; error := ""; success := "" |} |}.

(** The first item of an instance of the template, as stored. *)
Definition lockers (id : string) : ChecklistInstanceItem.t :=
  {| ChecklistInstanceItem.id := id;
     ChecklistInstanceItem.instance_id := "n1";
     ChecklistInstanceItem.template_item_id := Some "i1";
     ChecklistInstanceItem.title := "Unlock lockers";
     ChecklistInstanceItem.description := None;
     ChecklistInstanceItem.priority := high;
     ChecklistInstanceItem.estimated_time_minutes := 5;
     ChecklistInstanceItem.responsible_role := "tca";
     ChecklistInstanceItem.notes := None;
     ChecklistInstanceItem.is_completed := false;
     ChecklistInstanceItem.completed_by := None;
     ChecklistInstanceItem.completed_at := None;
     ChecklistInstanceItem.sort_order := 1;
     ChecklistInstanceItem.created_at := 7 |}.

(** The tables hold that item and another one. *)
Definition ticking : World Backend ChecklistState :=
  {| db := {| checklist_instances := [];
              checklist_instance_items := [lockers "7"; lockers "8"];
              serial := 9 |};
     replies := [];
     now := 1744700000000;
     console := [];
     ui := {| instances := []; submitting := false; error := ""; success := "" |} |}.

End ChecklistScenario.

(** A file of six candidates, uploaded while one candidate (Di) is already
    loaded: one line lacks the name, one has a date that cannot be read, one
    repeats Di's email, and the data service refuses one insertion. *)
Module UploadScenario.

Import Remote CandidateTracker.

Definition newline : string := String "010" "".

Definition csv : string :=
  "FullName, Email ,Phone,Exam Date" ++ newline
  ++ "Ann,ann@x.org,1,2025-01-01" ++ newline
  ++ ",bob@x.org,2," ++ newline
  ++ newline
  ++ "Cy,cy@x.org,3,soon" ++ newline
  ++ "Di,di@x.org,," ++ newline
  ++ "Ed,ed@x.org,," ++ newline
  ++ "Flo,flo@x.org,," ++ newline.

Definition roster : File.t := {| File.name := "roster.csv"; File.text := csv |}.

Definition di : Candidate.t :=
  {| Candidate.id := "c1"; Candidate.fullName := "Di"; Candidate.email := "di@x.org";
     Candidate.phone := None; Candidate.examDate := None; Candidate.examName := "Exam Session";
     Candidate.status := "registered"; Candidate.confirmationNumber := "EXAM2025-001";
     Candidate.checkInTime := None; Candidate.notes := None; Candidate.createdAt := None |}.

Definition state : TrackerState :=
  {| candidates := [di];
     uploadFile := Some roster;
     uploadProgress := 0;
     uploadStatus := idle;
     uploadResults := {| UploadResults.success := 0; UploadResults.errors := [] |};
     loading := false |}.

Definition parseDate (text : string) : option JsDate.Instant :=
  if (text =? "2025-01-01")%string then Some 1735689600000 else None.

Definition duplicateKey : JsError :=
  {| instanceofError := false; message := "duplicate key"; code := "23505" |}.

(** The upload record and Ann are stored, Ed is refused, Flo is stored. *)
Definition world : World Backend TrackerState :=
  {| db := {| candidates_table := []; candidate_roster_uploads := []; serial := 0 |};
     replies := [Resolved; Resolved; Failed duplicateKey];
     now := 1744700000000;
     console := [];
     ui := state |}.

(** A file whose header row spells the required columns with an underscore. *)
Definition spelled : File.t :=
  {| File.name := "spelled.csv";
     File.text := "full_name,email" ++ newline ++ "Ann,ann@x.org" ++ newline |}.

Definition spelledState : TrackerState :=
  {| candidates := [];
     uploadFile := Some spelled;
     uploadProgress := 0;
     uploadStatus := idle;
     uploadResults := {| UploadResults.success := 0; UploadResults.errors := [] |};
     loading := false |}.

End UploadScenario.

(** The session calendar of April 2025: two sessions on 10 April, one on
    11 April; the form asks for 45 candidates. *)
Module CalendarScenario.

Import Remote FetsCalendar.

Definition session (id : Z) (client date : string) (count : Z) : Session.t :=
  {| Session.id := Some id; Session.client_name := client; Session.exam_name := "Exam";
     Session.date := date; Session.candidate_count := count;
     Session.start_time := "09:00"; Session.end_time := "17:00"; Session.user_id := "u1";
     Session.created_at := None; Session.updated_at := None |}.

Definition booked : list Session.t :=
  [session 1 "Pearson VUE" "2025-04-10" 12; session 2 "ETS" "2025-04-10" 8;
   session 3 "Pearson VUE" "2025-04-10" 5; session 4 "PSI" "2025-04-11" 40].

Definition form (count : Z) : FormData.t :=
  {| FormData.client_name := "ETS"; FormData.exam_name := "TOEFL";
     FormData.date := "2025-04-12"; FormData.candidate_count := count;
     FormData.start_time := "09:00"; FormData.end_time := "13:00" |}.

Definition page (count : Z) : CalendarState :=
  {| currentDate := JsDate.newDate 330 2025 3 15 + 3600000;
     sessions := booked;
     loading := false;
     showModal := true;
     showDetailsModal := false;
     selectedDate := None;
     editingSession := None;
     notification := None;
     formData := form count |}.

Definition render (count : Z) : Render :=
  {| user := Some {| User.id := "u1" |}; tz := 330; state := page count |}.

Definition world (count : Z) : World Backend CalendarState :=
  {| db := {| sessions_table := booked; serial := 4 |};
     replies := [];
     now := 1744700000000;
     console := [];
     ui := page count |}.

(** The calendar showing the instant [t]. *)
Definition renderAt (t : JsDate.Instant) : Render :=
  {| user := Some {| User.id := "u1" |}; tz := 330; state := setCurrentDate t (page 1) |}.

End CalendarScenario.

(** * Properties *)

(** ** Strings and numbers *)

Section JsFacts.

Import Js.

Lemma append_assoc (a b c : string) : ((a ++ b) ++ c = a ++ (b ++ c))%string.
Proof. induction a as [|ch a IH]; simpl; [reflexivity | now rewrite IH]. Qed.



Lemma digitVal_range c d : digitVal c = Some d -> 48 <= Z.of_nat (nat_of_ascii c) <= 57.
Proof.
  unfold digitVal. destruct (48 <=? _) eqn:Hlo; destruct (_ <=? 57) eqn:Hhi;
    simpl; try discriminate. intros _. lia.
Qed.

Lemma digitVal_digitChar d : 0 <= d < 10 -> digitVal (digitChar d) = Some d.
Proof.
  intros H.
  assert (Hd : d = 0 \/ d = 1 \/ d = 2 \/ d = 3 \/ d = 4 \/ d = 5 \/ d = 6 \/ d = 7
               \/ d = 8 \/ d = 9) by lia.
  repeat (destruct Hd as [-> | Hd]; [reflexivity |]). subst. reflexivity.
Qed.

Lemma allDigits_app a b : allDigits a -> allDigits b -> allDigits (a ++ b).
Proof. induction a as [|ch a IH]; simpl; [tauto | intros [? ?] ?; auto]. Qed.

Lemma parseDigits_app a b acc :
  allDigits a -> parseDigits (a ++ b) acc = parseDigits b (parseDigits a acc).
Proof.
  revert acc. induction a as [|ch a IH]; simpl; intros acc H; [reflexivity |].
  destruct H as [[d Hd] Ha]. rewrite Hd. now apply IH.
Qed.

Lemma decimal_aux_app fuel : forall n acc,
  decimal_aux fuel n acc = (decimal_aux fuel n "" ++ acc)%string.
Proof.
  induction fuel as [|fuel IH]; intros n acc; simpl; [reflexivity |].
  destruct (n / 10 =? 0); [reflexivity |].
  rewrite (IH _ (String _ acc)), (IH _ (String _ "")), append_assoc. reflexivity.
Qed.

Lemma decimal_aux_digits fuel : forall n, allDigits (decimal_aux fuel n "").
Proof.
  induction fuel as [|fuel IH]; intros n; simpl; [exact I |].
  assert (Hc : allDigits (String (digitChar (n mod 10)) "")).
  { simpl. split; [| exact I]. exists (n mod 10). apply digitVal_digitChar.
    apply Z.mod_pos_bound. lia. }
  destruct (n / 10 =? 0); [exact Hc |].
  rewrite decimal_aux_app. apply allDigits_app; [apply IH | exact Hc].
Qed.

Lemma decimal_aux_nonempty fuel n : decimal_aux (S fuel) n "" <> ""%string.
Proof.
  simpl. destruct (n / 10 =? 0); [discriminate |].
  rewrite decimal_aux_app. destruct (decimal_aux fuel (n / 10) ""); discriminate.
Qed.

(** Reading back the digits written for [n], given fuel for all of them. *)
Lemma parseDigits_decimal_aux fuel : forall n,
  0 <= n < 10 ^ Z.of_nat fuel -> parseDigits (decimal_aux fuel n "") 0 = n.
Proof.
  induction fuel as [|fuel IH]; intros n Hn.
  - simpl in *. lia.
  - assert (Hm : 0 <= n mod 10 < 10) by (apply Z.mod_pos_bound; lia).
    assert (Hq : n = 10 * (n / 10) + n mod 10) by (apply Z.div_mod; lia).
    cbn [decimal_aux].
    destruct (n / 10 =? 0) eqn:E.
    + apply Z.eqb_eq in E. cbn [parseDigits]. rewrite digitVal_digitChar by exact Hm. lia.
    + rewrite decimal_aux_app, parseDigits_app by apply decimal_aux_digits.
      rewrite IH.
      * cbn [parseDigits]. rewrite digitVal_digitChar by exact Hm. lia.
      * rewrite Nat2Z.inj_succ, Z.pow_succ_r in Hn by lia.
        split; [apply Z.div_pos; lia | apply Z.div_lt_upper_bound; lia].
Qed.

Lemma decimal_fuel n : 0 <= n -> n < 10 ^ Z.of_nat (S (Z.to_nat (Z.log2 n))).
Proof.
  intros Hn. rewrite Nat2Z.inj_succ, Z2Nat.id by apply Z.log2_nonneg.
  destruct (Z.eq_dec n 0) as [-> | Hz]; [reflexivity |].
  assert (H2 : n < 2 ^ Z.succ (Z.log2 n)) by (apply Z.log2_spec; lia).
  assert (H10 : 2 ^ Z.succ (Z.log2 n) <= 10 ^ Z.succ (Z.log2 n)).
  { apply Z.pow_le_mono_l. lia. }
  lia.
Qed.

Lemma parseDigits_decimal n : 0 <= n -> parseDigits (decimal n) 0 = n.
Proof.
  intros Hn. unfold decimal. apply parseDigits_decimal_aux.
  split; [exact Hn | now apply decimal_fuel].
Qed.

Lemma toString_nonneg n : 0 <= n -> toString n = decimal n.
Proof. intros H. unfold toString. destruct (Z.ltb_spec n 0); [lia | reflexivity]. Qed.

Lemma parseDigits_repeat_zero k s : parseDigits (repeatChar "0" k ++ s) 0 = parseDigits s 0.
Proof. induction k as [|k IH]; simpl; [reflexivity | exact IH]. Qed.

Lemma allDigits_repeat_zero k : allDigits (repeatChar "0" k).
Proof. induction k as [|k IH]; simpl; [exact I | split; [now exists 0 | exact IH]]. Qed.

Lemma digit_not_sign c d :
  digitVal c = Some d -> isWhite c = false /\ Ascii.eqb c "-" = false /\ Ascii.eqb c "+" = false.
Proof.
  intros H. apply digitVal_range in H.
  repeat split.
  - unfold isWhite. cbv zeta. remember (nat_of_ascii c) as k.
    destruct (Nat.eqb_spec k 32); [lia |].
    destruct (Nat.leb_spec 9 k); destruct (Nat.leb_spec k 13); simpl; try reflexivity; lia.
  - apply Ascii.eqb_neq. intros ->. simpl in H. lia.
  - apply Ascii.eqb_neq. intros ->. simpl in H. lia.
Qed.

(** [parseInt] reads a non-empty string of digits as its value. *)
Lemma parseInt_digits s :
  allDigits s -> s <> ""%string -> parseInt s = Some (parseDigits s 0).
Proof.
  destruct s as [|c rest]; [congruence |]. intros [[d Hd] _] _.
  destruct (digit_not_sign _ _ Hd) as (Hw & Hm & Hp).
  unfold parseInt. cbn [trimStart]. rewrite Hw, Hm, Hp, Hd. reflexivity.
Qed.

(** Printing a non-negative number with two-digit padding and reading it
    back gives the number. *)
Lemma parseInt_padStart_toString n :
  0 <= n -> parseInt (padStart 2 "0" (toString n)) = Some n.
Proof.
  intros Hn. rewrite toString_nonneg by exact Hn. unfold padStart.
  rewrite parseInt_digits.
  - now rewrite parseDigits_repeat_zero, parseDigits_decimal.
  - apply allDigits_app; [apply allDigits_repeat_zero | apply decimal_aux_digits].
  - intros E. apply (decimal_aux_nonempty (Z.to_nat (Z.log2 n)) n).
    fold (decimal n). destruct (repeatChar "0" (2 - String.length (decimal n))); [exact E | discriminate].
Qed.

End JsFacts.

(** ** Session capacity *)

(** C1. [validateSessionCapacity c] is valid exactly when [c <= 40] and
    carries a warning exactly when [30 <= c <= 40]; 35 candidates give the
    "approaching capacity (35/40 candidates)" warning and 41 candidates the
    "exceeds maximum capacity of 40 candidates" error. *)
Theorem validateSessionCapacity_spec (c : Z) :
  (SessionUtils.isValid (SessionUtils.validateSessionCapacity c) = true <-> c <= 40)
  /\ (SessionUtils.warning (SessionUtils.validateSessionCapacity c) <> None <-> 30 <= c <= 40)
  /\ SessionUtils.validateSessionCapacity 35
     = {| SessionUtils.isValid := true;
          SessionUtils.warning := Some "Session approaching capacity (35/40 candidates)";
          SessionUtils.error := None |}
  /\ SessionUtils.validateSessionCapacity 41
     = {| SessionUtils.isValid := false;
          SessionUtils.warning := None;
          SessionUtils.error := Some "Session exceeds maximum capacity of 40 candidates" |}.
Proof.
  unfold SessionUtils.validateSessionCapacity, SessionUtils.MAX_CAPACITY,
    SessionUtils.WARNING_THRESHOLD.
  split; [| split; [| split; reflexivity]].
  - destruct (Z.gtb_spec c 40); [| destruct (Z.geb_spec c 30)]; simpl;
      split; intros; try lia; congruence.
  - destruct (Z.gtb_spec c 40); [| destruct (Z.geb_spec c 30)]; simpl;
      split; intros; try lia; congruence.
Qed.

(** ** The date formatter *)

(** C9. Two instants that fall on the same calendar day of the fixed time
    zone are formatted to the same string, whatever the time zone offsets of
    the two callers. *)
Theorem formatDateForIST_same_day (tz1 tz2 : Z) (d1 d2 : JsDate.Instant) :
  DateUtils.istDay d1 = DateUtils.istDay d2 ->
  DateUtils.formatDateForIST tz1 d1 = DateUtils.formatDateForIST tz2 d2.
Proof. intros H. unfold DateUtils.formatDateForIST. now rewrite H. Qed.

(** The first and the last millisecond of 10 March 2025 in the fixed time
    zone, formatted on a machine at UTC and on one at UTC-05:00. *)
Lemma formatDateForIST_same_day_witness :
  DateUtils.istDay 1741545000000 = DateUtils.istDay 1741631399999
  /\ DateUtils.formatDateForIST 0 1741545000000 = "2025-03-10"
  /\ DateUtils.formatDateForIST 0 1741545000000
     = DateUtils.formatDateForIST (-300) 1741631399999.
Proof.
  split; [reflexivity |]. split; [reflexivity |].
  apply (formatDateForIST_same_day 0 (-300) 1741545000000 1741631399999). reflexivity.
Defined.

(** ** The version ledger: numbering *)

Section VersionNumbers.

Import Roster.




End VersionNumbers.

Section VersionWidth.

Import Roster.




End VersionWidth.




(** ** Handlers: what never throws, what only reads *)

Section AsyncFacts.

Import Remote.
Context {B U : Type}.

Lemma bind_normal {A C} (m : Async B U A) (k : A -> Async B U C) w a w' :
  m w = (Normal A a, w') -> bind m k w = k a w'.
Proof. intros H. unfold bind. now rewrite H. Qed.

Lemma bind_thrown {A C} (m : Async B U A) (k : A -> Async B U C) w e w' :
  m w = (Thrown A e, w') -> bind m k w = (Thrown C e, w').
Proof. intros H. unfold bind. now rewrite H. Qed.

Lemma total_ret {A} (a : A) : total (@ret B U A a).
Proof. intros w. now exists a, w. Qed.

Lemma total_setState (f : U -> U) : total (@setState B U f).
Proof. intros w. eexists _, _. reflexivity. Qed.

Lemma total_consoleError (line : string) : total (@consoleError B U line).
Proof. intros w. eexists _, _. reflexivity. Qed.

Lemma total_bind {A C} (m : Async B U A) (k : A -> Async B U C) :
  total m -> (forall a, total (k a)) -> total (bind m k).
Proof.
  intros Hm Hk w. destruct (Hm w) as (a & w1 & E).
  rewrite (bind_normal _ _ _ _ _ E). apply Hk.
Qed.

Lemma total_tryCatch {A} (body : Async B U A) (handler : JsError -> Async B U A) :
  (forall e, total (handler e)) -> total (tryCatch body handler).
Proof.
  intros Hh w. unfold tryCatch. destruct (body w) as [[a | e] w1].
  - now exists a, w1.
  - apply Hh.
Qed.

Lemma total_tryFinally {A} (body : Async B U A) (cleanup : World B U -> World B U) :
  total body -> total (tryFinally body cleanup).
Proof.
  intros Hb w. unfold tryFinally. destruct (Hb w) as (a & w1 & E). rewrite E.
  now exists a, (cleanup w1).
Qed.

Lemma preserves_ret {X A} (part : B -> X) (a : A) : preserves part (@ret B U A a).
Proof. intros w. reflexivity. Qed.

Lemma preserves_throw {X A} (part : B -> X) (e : JsError) : preserves part (@throw B U A e).
Proof. intros w. reflexivity. Qed.

Lemma preserves_setState {X} (part : B -> X) (f : U -> U) : preserves part (@setState B U f).
Proof. intros w. reflexivity. Qed.

Lemma preserves_consoleError {X} (part : B -> X) (line : string) :
  preserves part (@consoleError B U line).
Proof. intros w. reflexivity. Qed.

Lemma preserves_newDateNow {X} (part : B -> X) : preserves part (@newDateNow B U).
Proof. intros w. reflexivity. Qed.

Lemma preserves_orThrow {X R} (part : B -> X) (res : R + JsError) :
  preserves part (@orThrow B U R res).
Proof. intros w. destruct res; reflexivity. Qed.

Lemma preserves_request {X R} (part : B -> X) (op : B -> (R + JsError) * B) :
  (forall b, part (snd (op b)) = part b) -> preserves part (request (U := U) op).
Proof.
  intros Hop w. unfold request.
  destruct (replies w) as [|[| e | e] rs]; try reflexivity;
    specialize (Hop (db w)); destruct (op (db w)) as [res b']; simpl in *; congruence.
Qed.

Lemma preserves_bind {X A C} (part : B -> X) (m : Async B U A) (k : A -> Async B U C) :
  preserves part m -> (forall a, preserves part (k a)) -> preserves part (bind m k).
Proof.
  intros Hm Hk w. unfold bind. specialize (Hm w).
  destruct (m w) as [[a | e] w1]; simpl in *.
  - now rewrite Hk.
  - exact Hm.
Qed.

Lemma preserves_tryCatch {X A} (part : B -> X) (body : Async B U A)
  (handler : JsError -> Async B U A) :
  preserves part body -> (forall e, preserves part (handler e)) ->
  preserves part (tryCatch body handler).
Proof.
  intros Hb Hh w. unfold tryCatch. specialize (Hb w).
  destruct (body w) as [[a | e] w1]; simpl in *.
  - exact Hb.
  - now rewrite Hh.
Qed.

Lemma preserves_tryFinally {X A} (part : B -> X) (body : Async B U A)
  (cleanup : World B U -> World B U) :
  preserves part body -> (forall w, db (cleanup w) = db w) ->
  preserves part (tryFinally body cleanup).
Proof.
  intros Hb Hc w. unfold tryFinally. specialize (Hb w).
  destruct (body w) as [c w1]; simpl in *. now rewrite Hc.
Qed.

Lemma readOnly_preserves {X A} (part : B -> X) (m : Async B U A) :
  readOnly m -> preserves part m.
Proof. intros H w. now rewrite (H w). Qed.

Lemma keeps_ret {X A} (part : U -> X) (a : A) : keeps part (@ret B U A a).
Proof. intros w. reflexivity. Qed.

Lemma keeps_throw {X A} (part : U -> X) (e : JsError) : keeps part (@throw B U A e).
Proof. intros w. reflexivity. Qed.

Lemma keeps_setState {X} (part : U -> X) (f : U -> U) :
  (forall s, part (f s) = part s) -> keeps part (@setState B U f).
Proof. intros Hf w. simpl. apply Hf. Qed.

Lemma keeps_consoleError {X} (part : U -> X) (line : string) :
  keeps part (@consoleError B U line).
Proof. intros w. reflexivity. Qed.

Lemma keeps_newDateNow {X} (part : U -> X) : keeps part (@newDateNow B U).
Proof. intros w. reflexivity. Qed.

Lemma keeps_orThrow {X R} (part : U -> X) (res : R + JsError) :
  keeps part (@orThrow B U R res).
Proof. intros w. destruct res; reflexivity. Qed.

Lemma keeps_request {X R} (part : U -> X) (op : B -> (R + JsError) * B) :
  keeps part (request (U := U) op).
Proof.
  intros w. unfold request.
  destruct (replies w) as [|[| e | e] rs]; try reflexivity;
    destruct (op (db w)) as [res b']; reflexivity.
Qed.

Lemma keeps_bind {X A C} (part : U -> X) (m : Async B U A) (k : A -> Async B U C) :
  keeps part m -> (forall a, keeps part (k a)) -> keeps part (bind m k).
Proof.
  intros Hm Hk w. unfold bind. specialize (Hm w).
  destruct (m w) as [[a | e] w1]; simpl in *.
  - now rewrite Hk.
  - exact Hm.
Qed.

Lemma keeps_tryCatch {X A} (part : U -> X) (body : Async B U A)
  (handler : JsError -> Async B U A) :
  keeps part body -> (forall e, keeps part (handler e)) -> keeps part (tryCatch body handler).
Proof.
  intros Hb Hh w. unfold tryCatch. specialize (Hb w).
  destruct (body w) as [[a | e] w1]; simpl in *.
  - exact Hb.
  - now rewrite Hh.
Qed.

Lemma keeps_tryFinally {X A} (part : U -> X) (body : Async B U A)
  (cleanup : World B U -> World B U) :
  keeps part body -> (forall w, part (ui (cleanup w)) = part (ui w)) ->
  keeps part (tryFinally body cleanup).
Proof.
  intros Hb Hc w. unfold tryFinally. specialize (Hb w).
  destruct (body w) as [c w1]; simpl in *. now rewrite Hc.
Qed.

Lemma carriedOut_hd n (w : World B U) :
  carriedOut (S n) w -> hd Resolved (replies w) = Resolved.
Proof.
  unfold carriedOut. destruct (replies w) as [|rep rs]; simpl; [reflexivity |].
  intros H. now inversion H.
Qed.

Lemma carriedOut_tl n (w : World B U) : carriedOut (S n) w -> carriedOut n (popReply w).
Proof.
  unfold carriedOut. simpl. destruct (replies w) as [|rep rs]; simpl.
  - intros _. destruct n; constructor.
  - intros H. now inversion H.
Qed.

Lemma answers_carriedOut n (w : World B U) : answers w -> carriedOut n w.
Proof.
  unfold answers, carriedOut. intros H. revert n.
  induction H as [|rep rs Hrep _ IH]; intros [|n]; simpl; constructor; auto.
Qed.

(** A round trip that is carried out: the operation runs on the tables. *)
Lemma request_resolved {R} (op : B -> (R + JsError) * B) (w : World B U) :
  hd Resolved (replies w) = Resolved ->
  request op w = (Normal _ (fst (op (db w))), setDb (fun _ => snd (op (db w))) (popReply w)).
Proof.
  intros H. unfold request.
  destruct (replies w) as [|rep rs]; simpl in H; [| subst rep];
    destruct (op (db w)); reflexivity.
Qed.

Lemma request_resolved_ex {R} (op : B -> (R + JsError) * B) (w : World B U) :
  hd Resolved (replies w) = Resolved ->
  exists w', request op w = (Normal _ (fst (op (db w))), w')
             /\ db w' = snd (op (db w)) /\ replies w' = tl (replies w) /\ ui w' = ui w.
Proof. intros H. rewrite (request_resolved op w H). eexists. repeat split. Qed.

(** A round trip whose promise is not rejected: it is carried out, or it is
    refused and the tables are as they were. *)
Lemma request_settles {R} (op : B -> (R + JsError) * B) (w : World B U) :
  settles w ->
  exists res w',
    request op w = (Normal _ res, w')
    /\ replies w' = tl (replies w) /\ ui w' = ui w /\ console w' = console w
    /\ now w' = now w
    /\ ((res = fst (op (db w)) /\ db w' = snd (op (db w)))
        \/ ((exists e, res = inr e) /\ db w' = db w)).
Proof.
  unfold settles, request. intros H.
  destruct (replies w) as [|[| e | e] rs] eqn:E.
  - destruct (op (db w)) as [res b']. eexists _, _. split; [reflexivity |].
    simpl. rewrite E. repeat split. left. split; reflexivity.
  - destruct (op (db w)) as [res b']. eexists _, _. split; [reflexivity |].
    simpl. rewrite E. repeat split. left. split; reflexivity.
  - eexists _, _. split; [reflexivity |]. simpl. rewrite E. repeat split.
    right. split; [now exists e | reflexivity].
  - inversion H as [|? ? Hrej]; subst. destruct Hrej.
Qed.

(** A round trip that is refused: the tables are as they were. *)
Lemma request_failed {R} (op : B -> (R + JsError) * B) (w : World B U) e rs :
  replies w = Failed e :: rs -> request op w = (Normal _ (inr e), popReply w).
Proof. intros H. unfold request. now rewrite H. Qed.

Lemma request_rejected {R} (op : B -> (R + JsError) * B) (w : World B U) e rs :
  replies w = Rejected e :: rs -> request op w = (Thrown _ e, popReply w).
Proof. intros H. unfold request. now rewrite H. Qed.

(** A round trip that is carried out. *)
Lemma request_answers {R} (op : B -> (R + JsError) * B) (w : World B U) :
  answers w ->
  exists w', request op w = (Normal _ (fst (op (db w))), w')
             /\ db w' = snd (op (db w)) /\ ui w' = ui w /\ console w' = console w
             /\ now w' = now w /\ answers w'.
Proof.
  intros Ha. unfold request, answers in *.
  destruct (replies w) as [|rep rs] eqn:E.
  - destruct (op (db w)) as [res b']. eexists. split; [reflexivity |].
    simpl. rewrite E. repeat split. constructor.
  - inversion Ha as [|? ? Hrep Hrs]; subst.
    destruct (op (db w)) as [res b']. eexists. split; [reflexivity |].
    simpl. rewrite E. repeat split. exact Hrs.
Qed.

End AsyncFacts.

Create HintDb total.
Create HintDb readonly.
Create HintDb keeps.

#[local] Hint Resolve keeps_ret keeps_throw keeps_consoleError keeps_newDateNow
  keeps_orThrow keeps_request keeps_bind keeps_tryCatch keeps_tryFinally : keeps.

#[local] Hint Resolve total_ret total_setState total_consoleError total_bind
  total_tryCatch total_tryFinally : total.
#[local] Hint Resolve preserves_ret preserves_throw preserves_setState
  preserves_consoleError preserves_newDateNow preserves_orThrow preserves_bind
  preserves_tryCatch preserves_tryFinally : readonly.

Section RosterHandlers.

Import Remote Roster.

Lemma showNotification_total type message : total (showNotification type message).
Proof. apply total_setState. Qed.

Lemma loadData_total r : total (loadData r).
Proof.
  unfold loadData. apply total_tryFinally, total_tryCatch. intros e.
  repeat (apply total_bind; [| intros ?]);
    auto using total_consoleError, total_setState, showNotification_total.
Qed.

Lemma createNewVersion_total r editLog : total (createNewVersion r editLog).
Proof. unfold createNewVersion. apply total_tryCatch. intros e. apply total_consoleError. Qed.

Lemma preserves_orThrowLogged {X R} (part : Backend -> X) line (res : R + JsError) :
  preserves part (orThrowLogged line res).
Proof. destruct res; simpl; auto with readonly. Qed.

Lemma loadData_readOnly r : readOnly (loadData r).
Proof.
  unfold readOnly, loadData, showNotification.
  apply preserves_tryFinally; [| reflexivity].
  apply preserves_tryCatch.
  - repeat first
      [ apply preserves_bind; [| intros ?]
      | apply preserves_request; reflexivity
      | apply preserves_orThrowLogged
      | match goal with
        | |- preserves _ (match ?x with _ => _ end) => destruct x
        | |- preserves _ (if ?x then _ else _) => destruct x
        end
      | solve [auto with readonly] ].
  - intros e. repeat (apply preserves_bind; [| intros ?]); auto with readonly.
Qed.

(** A record-edit writes to the ledger only. *)
Lemma createNewVersion_keeps_schedules r editLog :
  preserves roster_schedules (createNewVersion r editLog).
Proof.
  unfold createNewVersion. apply preserves_tryCatch.
  - repeat first
      [ apply preserves_bind; [| intros ?]
      | apply preserves_request; reflexivity
      | match goal with
        | |- preserves _ (match ?x with _ => _ end) => destruct x
        end
      | solve [auto with readonly] ].
  - intros e. auto with readonly.
Qed.

End RosterHandlers.

(** ** The version ledger never makes an edit fail *)

Section VersionFailures.

Import Remote Roster.

Ltac run := unfold tryCatch, bind, newDateNow; cbn beta iota.
Ltac go :=
  cbn [orThrowLogged orThrow fst snd ret setState
       updateScheduleById insertSchedules updateRequestById].

(** Runs the awaited ledger write and reload, which cannot throw. *)
Ltac skip_total :=
  match goal with
  | |- context [createNewVersion ?r ?l ?w] =>
      destruct (createNewVersion_total r l w) as ([] & ? & ->)
  | |- context [loadData ?r ?w] =>
      destruct (loadData_total r w) as ([] & ? & ->)
  end.

Lemma saveShift_reports_success r w shiftCode overtimeHours sel u :
  selectedEdit (state r) = Some sel -> user r = Some u -> isAdmin r = true ->
  carriedOut 1 w ->
  notification (ui (snd (saveShift r shiftCode overtimeHours w)))
  = Some {| Notification.type := success;
            Notification.message := "Shift updated successfully!" |}.
Proof.
  intros Hsel Hu Hadmin Hw. apply carriedOut_hd in Hw.
  unfold saveShift. rewrite Hsel, Hu, Hadmin.
  destruct (findSchedule _ _ _); run; rewrite request_resolved by exact Hw; go;
    skip_total; go; skip_total; reflexivity.
Qed.

Lemma quickAddMonth_reports_success r w :
  isAdmin r = true ->
  quickAddRows (schedules (state r)) (JsDate.toISOString (now w))
               (staffProfiles (state r)) (getDaysInMonth r) <> [] ->
  carriedOut 1 w ->
  exists count,
    notification (ui (snd (quickAddMonth r w)))
    = Some {| Notification.type := success;
              Notification.message := "Generated " ++ count ++ " roster entries successfully!" |}.
Proof.
  intros Hadmin Hrows Hw. apply carriedOut_hd in Hw.
  unfold quickAddMonth. rewrite Hadmin. cbn [negb]. run.
  destruct (quickAddRows _ _ _ _) as [|row rows]; [congruence |].
  cbn [List.length Nat.ltb Nat.leb]. rewrite request_resolved by exact Hw; go.
  skip_total; go; skip_total. eexists. reflexivity.
Qed.

Lemma applyApprovedRequest_returns r w q :
  carriedOut 1 w -> exists w', applyApprovedRequest r q w = (Normal unit tt, w').
Proof.
  intros Hw. apply carriedOut_hd in Hw. unfold applyApprovedRequest.
  destruct (findSchedule _ _ _); run; rewrite request_resolved by exact Hw; go;
    skip_total; eexists; reflexivity.
Qed.

Lemma approveRequest_reports_success r w requestId q :
  isSuperAdmin r = true -> selectedRequest (state r) = Some q ->
  carriedOut 2 w ->
  notification (ui (snd (approveRequest r requestId true w)))
  = Some {| Notification.type := success;
            Notification.message := "Request approved successfully" |}.
Proof.
  intros Hadmin Hsel Hw.
  pose proof (carriedOut_hd _ _ Hw) as Hw1. apply carriedOut_tl in Hw.
  unfold approveRequest. rewrite Hadmin, Hsel. cbn [negb]. run.
  rewrite request_resolved by exact Hw1; go.
  match goal with
  | |- context [applyApprovedRequest ?r ?q ?w] =>
      destruct (applyApprovedRequest_returns r w q) as (? & ->); [exact Hw |]
  end.
  go. skip_total. reflexivity.
Qed.

(** A ledger write that is not carried out leaves the ledger without a new
    row. *)
Lemma createNewVersion_refused r editLog w :
  (2 <= List.length (replies w))%nat ->
  (forall rep, In rep (firstn 2 (replies w)) -> rep <> Resolved) ->
  db (snd (createNewVersion r editLog w)) = db w.
Proof.
  intros Hlen Hrep. unfold createNewVersion.
  destruct (replies w) as [|rep1 [|rep2 rs]] eqn:E; simpl in Hlen; try lia.
  assert (H1 : rep1 <> Resolved) by (apply Hrep; simpl; auto).
  assert (H2 : rep2 <> Resolved) by (apply Hrep; simpl; auto).
  assert (E' : replies (popReply w) = rep2 :: rs) by (simpl; now rewrite E).
  run. destruct (currentVersion (state r)) as [cv |].
  - destruct rep1 as [| e1 | e1]; [congruence | |].
    + rewrite (request_failed _ w e1 _ E). go.
      destruct rep2 as [| e2 | e2]; [congruence | |].
      * rewrite (request_failed _ _ e2 _ E'). reflexivity.
      * rewrite (request_rejected _ _ e2 _ E'). reflexivity.
    + rewrite (request_rejected _ w e1 _ E). reflexivity.
  - go. destruct rep1 as [| e1 | e1]; [congruence | |].
    + rewrite (request_failed _ w e1 _ E). reflexivity.
    + rewrite (request_rejected _ w e1 _ E). reflexivity.
Qed.

Lemma saveShift_without_version r w shiftCode overtimeHours sel u rep1 rep2 rs :
  selectedEdit (state r) = Some sel -> user r = Some u -> isAdmin r = true ->
  replies w = Resolved :: rep1 :: rep2 :: rs -> rep1 <> Resolved -> rep2 <> Resolved ->
  roster_versions (db (snd (saveShift r shiftCode overtimeHours w)))
  = roster_versions (db w).
Proof.
  intros Hsel Hu Hadmin E H1 H2.
  assert (Hw : hd Resolved (replies w) = Resolved) by now rewrite E.
  unfold saveShift. rewrite Hsel, Hu, Hadmin.
  destruct (findSchedule _ _ _); run;
    match goal with
    | |- context [request ?op ?w0] =>
        destruct (request_resolved_ex op w0 Hw) as (w1 & -> & Hdb1 & Hrep1 & _)
    end;
    go;
    match goal with
    | |- context [createNewVersion ?r ?l ?w'] =>
        pose proof (createNewVersion_refused r l w') as Hdb;
        destruct (createNewVersion_total r l w') as ([] & w2 & Ev);
        rewrite Ev in Hdb |- *
    end;
    go;
    match goal with
    | |- context [loadData ?r ?w3] =>
        pose proof (loadData_readOnly r w3) as Hload;
        destruct (loadData_total r w3) as ([] & w4 & El);
        rewrite El in Hload |- *
    end;
    cbn [snd fst db showNotification setState] in Hload, Hdb |- *;
    rewrite Hload, Hdb, Hdb1;
    try reflexivity; rewrite Hrep1, E; simpl; try lia;
    intros rep [<- | [<- | []]]; assumption.
Qed.

End VersionFailures.

(** C10. [createNewVersion] never throws, whatever the data service
    replies; a ledger write that is not carried out records no version; and
    the callers whose own writes are carried out end by reporting success:
    [saveShift] (also when both ledger writes are refused, in which case the
    ledger is as it was), [quickAddMonth] and [approveRequest] with
    [applyApprovedRequest]. *)
Theorem createNewVersion_never_propagates (r : Roster.Render) (w : Roster.W) :
  (forall editLog,
     exists w', Roster.createNewVersion r editLog w = (Remote.Normal unit tt, w'))
  /\ (forall editLog,
        (2 <= List.length (Remote.replies w))%nat ->
        (forall rep, In rep (firstn 2 (Remote.replies w)) -> rep <> Remote.Resolved) ->
        Remote.db (snd (Roster.createNewVersion r editLog w)) = Remote.db w)
  /\ (forall shiftCode overtimeHours sel u,
        Roster.selectedEdit (Roster.state r) = Some sel -> Roster.user r = Some u ->
        Roster.isAdmin r = true -> Remote.carriedOut 1 w ->
        Roster.notification (Remote.ui (snd (Roster.saveShift r shiftCode overtimeHours w)))
        = Some {| Roster.Notification.type := Roster.success;
                  Roster.Notification.message := "Shift updated successfully!" |})
  /\ (forall shiftCode overtimeHours sel u rep1 rep2 rs,
        Roster.selectedEdit (Roster.state r) = Some sel -> Roster.user r = Some u ->
        Roster.isAdmin r = true ->
        Remote.replies w = Remote.Resolved :: rep1 :: rep2 :: rs ->
        rep1 <> Remote.Resolved -> rep2 <> Remote.Resolved ->
        Roster.roster_versions (Remote.db (snd (Roster.saveShift r shiftCode overtimeHours w)))
        = Roster.roster_versions (Remote.db w))
  /\ (Roster.isAdmin r = true ->
      Roster.quickAddRows (Roster.schedules (Roster.state r))
        (JsDate.toISOString (Remote.now w)) (Roster.staffProfiles (Roster.state r))
        (Roster.getDaysInMonth r) <> [] ->
      Remote.carriedOut 1 w ->
      exists count,
        Roster.notification (Remote.ui (snd (Roster.quickAddMonth r w)))
        = Some {| Roster.Notification.type := Roster.success;
                  Roster.Notification.message :=
                    "Generated " ++ count ++ " roster entries successfully!" |})
  /\ (forall requestId q,
        Roster.isSuperAdmin r = true ->
        Roster.selectedRequest (Roster.state r) = Some q ->
        Remote.carriedOut 2 w ->
        Roster.notification (Remote.ui (snd (Roster.approveRequest r requestId true w)))
        = Some {| Roster.Notification.type := Roster.success;
                  Roster.Notification.message := "Request approved successfully" |}).
Proof.
  split; [| split; [| split; [| split; [| split]]]].
  - intros editLog. destruct (createNewVersion_total r editLog w) as ([] & w' & E).
    now exists w'.
  - intros editLog. apply createNewVersion_refused.
  - intros. eapply saveShift_reports_success; eauto.
  - intros. eapply saveShift_without_version; eauto.
  - apply quickAddMonth_reports_success.
  - intros. eapply approveRequest_reports_success; eauto.
Qed.


(** ** The version ledger: one active version *)

Section OneActive.

Import Remote Roster.

Ltac run := unfold tryCatch, bind, newDateNow; cbn beta iota.
Ltac go :=
  cbn [orThrowLogged orThrow fst snd ret setState
       updateScheduleById insertSchedules updateRequestById
       deactivateVersionById insertVersion].

Lemma answers_hd (w : W) : answers w -> hd Resolved (replies w) = Resolved.
Proof. intros H. apply (carriedOut_hd 0), answers_carriedOut, H. Qed.

Lemma answers_next (w : W) f : answers w -> answers (setDb f (popReply w)).
Proof.
  unfold answers. simpl. intros H. destruct (replies w); simpl; [constructor |].
  now inversion H.
Qed.

(** The ledger after a record-edit whose round trips are carried out. *)
Lemma createNewVersion_answers r editLog (w : W) :
  answers w ->
  roster_versions (db (snd (createNewVersion r editLog w)))
  = (deactivateCurrent (currentVersion (state r)) (roster_versions (db w))
     ++ [stampVersion (serial (db w)) (versionData r editLog)])%list.
Proof.
  intros Hw. unfold createNewVersion, deactivateCurrent.
  destruct (currentVersion (state r)) as [cv |]; run.
  - rewrite request_resolved by now apply answers_hd. go.
    rewrite request_resolved by now apply answers_hd, answers_next. reflexivity.
  - go. rewrite request_resolved by now apply answers_hd. reflexivity.
Qed.

Lemma optEqb_true a b : optEqb a b = true -> a = b.
Proof.
  destruct a, b; simpl; try discriminate. intros H. apply String.eqb_eq in H. now subst.
Qed.

Lemma optEqb_refl a : a <> None -> optEqb a a = true.
Proof. destruct a; [intros _; apply String.eqb_refl | congruence]. Qed.

Lemma inScope_deactivate m y v : inScope m y (deactivate v) = inScope m y v.
Proof. reflexivity. Qed.

Lemma inScope_unique m y m' y' v :
  inScope m y v = true -> inScope m' y' v = true -> m' = m /\ y' = y.
Proof. unfold inScope. lia. Qed.

(** Rows with the same key are the same row. *)
Lemma keyed_injective (vs : list RosterVersion.t) x v :
  NoDup (map RosterVersion.id vs) -> In x vs -> In v vs ->
  RosterVersion.id x = RosterVersion.id v -> x = v.
Proof.
  induction vs as [|a vs IH]; simpl; [tauto |].
  intros Hnd Hx Hv E. inversion Hnd as [|? ? Hnotin Hnd']; subst.
  destruct Hx as [-> | Hx], Hv as [-> | Hv]; auto.
  - exfalso. apply Hnotin. rewrite E. now apply in_map.
  - exfalso. apply Hnotin. rewrite <- E. now apply in_map.
Qed.

(** Flipping the flag of an active version of (m, y) that is the only one
    leaves (m, y) without an active version. *)
Lemma activeIn_deactivated m y vs :
  Forall (fun v => RosterVersion.id v <> None) vs ->
  (List.length (activeIn m y vs) <= 1)%nat ->
  activeIn m y (deactivateCurrent
                  (match maybeSingle (activeIn m y vs) with
                   | inl data => data
                   | inr _ => None
                   end) vs) = [].
Proof.
  intros Hid Hlen.
  destruct (activeIn m y vs) as [|cv [|? ?]] eqn:E; simpl in Hlen; try lia; simpl.
  - exact E.
  - assert (Hall : forall x, In x vs ->
              inScope m y x && RosterVersion.is_active x = true -> x = cv).
    { intros x Hx Hp.
      assert (Hin : In x (activeIn m y vs)) by (apply filter_In; auto).
      rewrite E in Hin. destruct Hin as [Hin | []]. now subst. }
    clear E. unfold activeIn. induction vs as [|a vs IH]; simpl; [reflexivity |].
    inversion Hid as [|? ? Ha Hid']; subst.
    destruct (optEqb (RosterVersion.id a) (RosterVersion.id cv)) eqn:Ek.
    + simpl. rewrite andb_false_r. apply IH; auto. intros; apply Hall; simpl; auto.
    + destruct (inScope m y a && RosterVersion.is_active a) eqn:Ep.
      * exfalso. rewrite (Hall a) in Ek by (simpl; auto).
        rewrite optEqb_refl in Ek; [discriminate |].
        rewrite <- (Hall a) by (simpl; auto). exact Ha.
      * apply IH; auto. intros; apply Hall; simpl; auto.
Qed.

(** Flipping the flag of a version touches the active versions of its own
    (month, year) only. *)
Lemma activeIn_other_scope m y m' y' vs cv :
  NoDup (map RosterVersion.id vs) ->
  match cv with Some v => In v vs /\ inScope m y v = true | None => True end ->
  m' <> m \/ y' <> y ->
  activeIn m' y' (deactivateCurrent cv vs) = activeIn m' y' vs.
Proof.
  intros Hnd Hcv Hne. destruct cv as [cv |]; [| reflexivity]. destruct Hcv as [Hin Hscope].
  unfold deactivateCurrent, activeIn.
  assert (Hkey : forall x, In x vs ->
            optEqb (RosterVersion.id x) (RosterVersion.id cv) = true -> x = cv).
  { intros x Hx Hk. apply (keyed_injective vs); auto. now apply optEqb_true. }
  clear Hnd Hin. induction vs as [|a vs IH]; simpl; [reflexivity |].
  rewrite IH by (intros; apply Hkey; simpl; auto).
  destruct (optEqb (RosterVersion.id a) (RosterVersion.id cv)) eqn:Ek; [| reflexivity].
  rewrite (Hkey a) by (simpl; auto).
  assert (Hout : inScope m' y' cv = false).
  { destruct (inScope m' y' cv) eqn:Es; [| reflexivity].
    destruct (inScope_unique _ _ _ _ _ Hscope Es). lia. }
  simpl. rewrite inScope_deactivate, Hout. reflexivity.
Qed.

Lemma loadedCurrentVersion_in r b cv :
  loadedCurrentVersion r b = Some cv ->
  In cv (roster_versions b) /\ inScope (scopeMonth r) (scopeYear r) cv = true.
Proof.
  unfold loadedCurrentVersion, queryCurrentVersion. cbn [fst].
  destruct (activeIn _ _ _) as [|x [|? ?]] eqn:E; simpl; try discriminate.
  intros [= ->]. assert (Hin : In cv (activeIn (scopeMonth r) (scopeYear r) (roster_versions b)))
    by (rewrite E; simpl; auto).
  apply filter_In in Hin. destruct Hin as [Hin Hp]. apply andb_true_iff in Hp. tauto.
Qed.

(** The signed-in administrator is the staff profile found for them. *)
Lemma acting_user r u :
  user r = Some u -> isAdmin r = true ->
  exists p, currentStaffProfile r = Some p /\ StaffProfile.user_id p = Some (User.id u).
Proof.
  unfold isAdmin, currentStaffProfile, getCurrentUserStaffProfile. intros ->.
  destruct (find _ _) as [p |] eqn:E; [| discriminate]. intros _.
  exists p. split; [reflexivity |]. apply find_some in E. now apply optEqb_true.
Qed.

End OneActive.

(** C5. A record-edit whose round trips are all carried out first flips the
    active flag of the current version of the displayed month (if any) and
    then appends exactly one version row, which is active and carries the
    next version number, the description of the edit and the acting user.
    When the displayed month had at most one active version, it has exactly
    one afterwards, the new one; the active versions of every other
    (month, year) are as they were. *)
Theorem createNewVersion_one_active (r : Roster.Render) (w : Roster.W) (editLog : string)
  (u : Roster.User.t) :
  Remote.answers w ->
  Roster.keyedVersions (Roster.roster_versions (Remote.db w)) ->
  Roster.currentVersion (Roster.state r) = Roster.loadedCurrentVersion r (Remote.db w) ->
  (List.length (Roster.activeIn (Roster.scopeMonth r) (Roster.scopeYear r)
                  (Roster.roster_versions (Remote.db w))) <= 1)%nat ->
  Roster.user r = Some u -> Roster.isAdmin r = true ->
  let ledger := Roster.roster_versions (Remote.db w) in
  let ledger' := Roster.roster_versions (Remote.db (snd (Roster.createNewVersion r editLog w))) in
  exists new,
    ledger' = (Roster.deactivateCurrent (Roster.currentVersion (Roster.state r)) ledger
               ++ [new])%list
    /\ Roster.RosterVersion.is_active new = true
    /\ Roster.RosterVersion.month new = Roster.scopeMonth r
    /\ Roster.RosterVersion.year new = Roster.scopeYear r
    /\ Roster.RosterVersion.version_number new = Roster.getNextVersionNumber r
    /\ Roster.RosterVersion.edit_log new = Some editLog
    /\ Roster.RosterVersion.created_by new = Some (Roster.User.id u)
    /\ Roster.activeIn (Roster.scopeMonth r) (Roster.scopeYear r) ledger' = [new]
    /\ (forall m' y', m' <> Roster.scopeMonth r \/ y' <> Roster.scopeYear r ->
          Roster.activeIn m' y' ledger' = Roster.activeIn m' y' ledger).
Proof.
  intros Hw [Hnd Hid] Hsync Hlen Hu Hadmin ledger ledger'.
  destruct (acting_user r u Hu Hadmin) as (p & Hp & Hpu).
  exists (Roster.stampVersion (Roster.serial (Remote.db w)) (Roster.versionData r editLog)).
  assert (E : ledger' = (Roster.deactivateCurrent (Roster.currentVersion (Roster.state r)) ledger
                 ++ [Roster.stampVersion (Roster.serial (Remote.db w))
                       (Roster.versionData r editLog)])%list)
    by now apply createNewVersion_answers.
  split; [exact E |]. repeat (split; [reflexivity |]).
  split; [simpl; now rewrite Hp |].
  rewrite E. unfold Roster.activeIn at 1 3. setoid_rewrite filter_app. split.
  - fold (Roster.activeIn (Roster.scopeMonth r) (Roster.scopeYear r)
            (Roster.deactivateCurrent (Roster.currentVersion (Roster.state r)) ledger)).
    rewrite Hsync. unfold Roster.loadedCurrentVersion, Roster.queryCurrentVersion. cbn [fst].
    rewrite activeIn_deactivated by assumption.
    simpl. unfold Roster.inScope. simpl. now rewrite !Z.eqb_refl.
  - intros m' y' Hne.
    fold (Roster.activeIn m' y'
            (Roster.deactivateCurrent (Roster.currentVersion (Roster.state r)) ledger)).
    rewrite (activeIn_other_scope (Roster.scopeMonth r) (Roster.scopeYear r)); auto.
    + simpl. unfold Roster.inScope. simpl.
      replace ((Roster.scopeMonth r =? m') && (Roster.scopeYear r =? y')) with false.
      * simpl. now rewrite app_nil_r.
      * symmetry. apply andb_false_iff.
        destruct Hne; [left | right]; apply Z.eqb_neq; congruence.
    + rewrite Hsync. destruct (Roster.loadedCurrentVersion r (Remote.db w)) eqn:El; [| exact I].
      now apply loadedCurrentVersion_in.
Qed.

Section LoadData.

Import Remote Roster.

(** Runs the next round trip, which is carried out, naming the world after it. *)
Ltac round Hw :=
  match goal with
  | |- context [request ?op ?w] =>
      let w' := fresh "w" in
      let E := fresh "E" in
      let Hdb := fresh "Hdb" in
      let Hui := fresh "Hui" in
      let Hw' := fresh "Hw" in
      destruct (request_answers op w Hw) as (w' & E & Hdb & Hui & _ & _ & Hw');
      rewrite E; clear E;
      cbn [select queryCurrentVersion fst snd db ui] in Hdb, Hui;
      cbn [select queryCurrentVersion fst snd orThrow orThrowLogged ret setState db];
      repeat match goal with
             | H : db ?v = _ |- context [db ?v] => rewrite H
             end
  end.

(** What a reload whose round trips are carried out leaves in the state:
    the rows of the displayed month, its active version and its history. *)
Lemma loadData_answers r (w : W) :
  answers w ->
  schedules (ui (snd (loadData r w))) = querySchedules r (db w)
  /\ currentVersion (ui (snd (loadData r w))) = loadedCurrentVersion r (db w)
  /\ versions (ui (snd (loadData r w))) = queryAllVersions r (db w).
Proof.
  intros Hw. unfold loadData, loadedCurrentVersion.
  unfold tryFinally, tryCatch, bind. cbn [setState].
  match goal with
  | |- context [request ?op ?w0] =>
      assert (Hw0 : answers w0) by exact Hw
  end.
  round Hw0. round Hw1. round Hw2. round Hw3.
  assert (Hcode : forall e, maybeSingle (activeIn (scopeMonth r) (scopeYear r)
                                           (roster_versions (db w))) = inr e ->
                            negb (code e =? "PGRST116")%string = false).
  { unfold maybeSingle. intros e.
    destruct (activeIn _ _ _) as [|? [|? ?]]; try discriminate; now intros [= <-]. }
  destruct (maybeSingle _) as [data | e] eqn:Em; [| rewrite (Hcode e eq_refl)];
    cbn [ret setState];
    round Hw4; round Hw5;
    (destruct (isSuperAdmin r);
     [ round Hw6
     | destruct (user r) as [usr |];
       [ match goal with
         | |- context [find ?f ?l] => destruct (find f l) as [usp |]; [round Hw6 |]
         end
       |] ]);
    cbn [fst snd ret ui schedules currentVersion versions setState
         setLoading setRequests setOvertimeData setVersionsState setCurrentVersion
         setSchedules setStaffProfiles];
    repeat match goal with
           | H : ui _ = _ |- _ => rewrite H; clear H
           end;
    cbn [ui schedules currentVersion versions
         setLoading setRequests setOvertimeData setVersionsState setCurrentVersion
         setSchedules setStaffProfiles];
    repeat match goal with
           | H : db _ = _ |- _ => rewrite H; clear H
           end;
    repeat split; reflexivity.
Qed.

End LoadData.

(** ** Quick add month *)

Section QuickAdd.

Import Remote Roster.

Variables (schedules : list RosterSchedule.t) (created : string).

(** The rows of one staff member: those already pushed, and one for each
    day without a row, at the counter of that day. *)
Lemma quickAddDays_In staff row : forall days k acc,
  In row (quickAddDays schedules created staff days k acc) <->
  In row acc \/
  exists i day, nth_error days i = Some day
                /\ findSchedule schedules (StaffProfile.id staff) (JsDate.toISODate day) = None
                /\ row = quickAddRow created staff day (k + Z.of_nat i).
Proof.
  induction days as [|day rest IH]; intros k acc; cbn [quickAddDays].
  - split; [auto | intros [H | (i & d & H & _)]; [exact H | destruct i; discriminate]].
  - rewrite IH. clear IH. split.
    + intros [Hacc | (i & d & Hn & Hf & ->)].
      * destruct (findSchedule _ _ _) eqn:Ef; [left; exact Hacc |].
        unfold Js.push in Hacc. apply in_app_or in Hacc. destruct Hacc as [H | [<- | []]].
        -- left; exact H.
        -- right. exists 0%nat, day. rewrite Z.add_0_r. auto.
      * right. exists (S i), d. repeat split; auto. f_equal. lia.
    + intros [Hacc | (i & d & Hn & Hf & ->)].
      * left. destruct (findSchedule _ _ _); [exact Hacc |].
        unfold Js.push. apply in_or_app. auto.
      * destruct i as [|i]; simpl in Hn.
        -- injection Hn as ->. rewrite Hf. left. unfold Js.push.
           apply in_or_app. right. rewrite Z.add_0_r. simpl. auto.
        -- right. exists i, d. repeat split; auto. f_equal. lia.
Qed.

Lemma quickAddStaff_In days row : forall profiles acc,
  In row (fold_left (fun schedulesToCreate staff =>
                       quickAddDays schedules created staff days 0 schedulesToCreate)
                    profiles acc) <->
  In row acc \/
  exists staff i day, In staff profiles /\ nth_error days i = Some day
    /\ findSchedule schedules (StaffProfile.id staff) (JsDate.toISODate day) = None
    /\ row = quickAddRow created staff day (Z.of_nat i).
Proof.
  induction profiles as [|staff rest IH]; intros acc; cbn [fold_left].
  - split; [auto | intros [H | (s & _ & _ & [] & _)]; exact H].
  - rewrite IH, quickAddDays_In. clear IH. split.
    + intros [[H | (i & d & Hn & Hf & ->)] | (s & i & d & Hs & H)].
      * auto.
      * right. exists staff, i, d. simpl. auto.
      * right. exists s, i, d. simpl. tauto.
    + intros [H | (s & i & d & [<- | Hs] & Hn & Hf & ->)].
      * auto.
      * left. right. exists i, d. auto.
      * right. exists s, i, d. auto.
Qed.

(** Every pair (staff member, day of the month) without a row gets the row
    of its day index, and nothing else is created. *)
Lemma quickAddRows_In profiles days row :
  In row (quickAddRows schedules created profiles days) <->
  exists staff i day, In staff profiles /\ nth_error days i = Some day
    /\ findSchedule schedules (StaffProfile.id staff) (JsDate.toISODate day) = None
    /\ row = quickAddRow created staff day (Z.of_nat i).
Proof.
  unfold quickAddRows. rewrite quickAddStaff_In. simpl. tauto.
Qed.

End QuickAdd.

Section QuickAddEmpty.

Import Remote Roster.

Variable created : string.






End QuickAddEmpty.

Section QuickAddStore.

Import Remote Roster.

Ltac run := unfold tryCatch, bind, newDateNow; cbn beta iota.
Ltac go :=
  cbn [orThrowLogged orThrow fst snd ret setState
       updateScheduleById insertSchedules updateRequestById].

(** Quick add touches the schedule store by one insertion at most: the rows
    it computed, appended after the rows that were there. *)
Lemma quickAddMonth_store r (w : W) :
  roster_schedules (db (snd (quickAddMonth r w)))
  = (roster_schedules (db w)
     ++ (if isAdmin r
         then match hd Resolved (replies w) with
              | Resolved => stampSchedules (serial (db w)) (rowsToCreate r w)
              | _ => []
              end
         else []))%list.
Proof.
  unfold quickAddMonth, rowsToCreate.
  destruct (isAdmin r); cbn [negb]; [| simpl; now rewrite app_nil_r].
  run.
  destruct (quickAddRows _ _ _ _) as [|row rows] eqn:Erows.
  - cbn. destruct (hd Resolved (replies w)); now rewrite app_nil_r.
  - cbn [List.length Nat.ltb Nat.leb].
    destruct (replies w) as [|[| e | e] rs] eqn:E; cbn [hd].
    1,2: rewrite request_resolved by now rewrite E.
    1,2: go;
      match goal with
      | |- context [createNewVersion ?r ?l ?w1] =>
          pose proof (createNewVersion_keeps_schedules r l w1) as Hk;
          destruct (createNewVersion_total r l w1) as ([] & w2 & Ev);
          rewrite Ev in Hk |- *
      end;
      match goal with
      | |- context [loadData ?r ?w3] =>
          pose proof (loadData_readOnly r w3) as Hload;
          destruct (loadData_total r w3) as ([] & w4 & El);
          rewrite El in Hload |- *
      end;
      cbn in Hload, Hk |- *; rewrite Hload, Hk; reflexivity.
    + rewrite (request_failed _ w e rs E). cbn. now rewrite app_nil_r.
    + rewrite (request_rejected _ w e rs E). cbn. now rewrite app_nil_r.
Qed.




(** A stored row is the row that was sent, with an identifier. *)
Lemma stampSchedules_In a rows : forall n,
  In a (stampSchedules n rows) ->
  exists row, In row rows /\ sameKey a row
              /\ RosterSchedule.shift_code a = RosterSchedule.shift_code row.
Proof.
  induction rows as [|s rest IH]; intros n; simpl; [tauto |].
  intros [<- | H].
  - exists s. unfold sameKey. simpl. auto.
  - destruct (IH _ H) as (row & Hin & Hk). exists row. auto.
Qed.

Lemma findSchedule_none l profileId date s :
  findSchedule l profileId date = None -> In s l ->
  ~ (RosterSchedule.profile_id s = profileId /\ RosterSchedule.date s = date).
Proof.
  unfold findSchedule. intros Hf Hin [Hp Hd].
  pose proof (find_none _ _ Hf s Hin) as Hn. cbv beta in Hn.
  rewrite Hp, Hd, !String.eqb_refl in Hn. discriminate.
Qed.

End QuickAddStore.



(** C3. Quick add leaves every row of the schedule store as it is: the
    store afterwards is the store before followed by the rows added (none,
    when the insertion fails).  When the render holds every stored row of the
    displayed days, as a reload leaves it, no added row has the (staff, date)
    pair of a row that was in the store. *)
Theorem quickAddMonth_keeps_rows (r : Roster.Render) (w : Roster.W) :
  (forall s, In s (Roster.roster_schedules (Remote.db w)) ->
             In (Roster.RosterSchedule.date s)
                (map JsDate.toISODate (Roster.getDaysInMonth r)) ->
             In s (Roster.schedules (Roster.state r))) ->
  exists added,
    Roster.roster_schedules (Remote.db (snd (Roster.quickAddMonth r w)))
    = (Roster.roster_schedules (Remote.db w) ++ added)%list
    /\ forall a s, In a added -> In s (Roster.roster_schedules (Remote.db w)) ->
                   ~ Roster.sameKey s a.
Proof.
  intros Hsync. eexists. split; [apply quickAddMonth_store |].
  intros a s Ha Hs Hkey.
  destruct (Roster.isAdmin r); [| destruct Ha].
  destruct (hd Remote.Resolved (Remote.replies w)); try destruct Ha.
  destruct (stampSchedules_In _ _ _ Ha) as (row & Hrow & Harow & _).
  apply quickAddRows_In in Hrow. destruct Hrow as (staff & i & day & _ & Hday & Hnone & ->).
  unfold Roster.sameKey, Roster.quickAddRow in Harow.
  cbn [Roster.RosterSchedule.profile_id Roster.RosterSchedule.date] in Harow.
  destruct Hkey as [Hp Hd], Harow as [Hp' Hd'].
  apply (findSchedule_none _ _ _ s Hnone).
  - apply Hsync; [exact Hs |]. rewrite Hd, Hd'. apply in_map.
    eapply nth_error_In; eauto.
  - split; congruence.
Qed.

(** April 2025 with one stored leave day for Bob, held by the render: the
    row is still first in the store after quick add, followed by 89 rows. *)
Lemma quickAddMonth_keeps_rows_witness :
  let leave := Scenario.shift "7" "s2" "2025-04-10" "L" in
  let r := Scenario.render (Scenario.april [leave] [] None) in
  let w := Scenario.world (Scenario.tables [leave] []) [] (Scenario.april [leave] [] None) in
  exists added,
    Roster.roster_schedules (Remote.db (snd (Roster.quickAddMonth r w))) = leave :: added
    /\ forall a, In a added -> ~ Roster.sameKey leave a.
Proof.
  intros leave r w.
  destruct (quickAddMonth_keeps_rows r w) as (added & Hstore & Hfresh).
  - intros s [<- | []] _. left. reflexivity.
  - exists added. split; [exact Hstore |].
    intros a Ha. apply (Hfresh a leave Ha). left. reflexivity.
Defined.

(** The hypothesis of C3 is what a reload establishes when the dates of the
    displayed days lie in the range it queries. *)
Section Reload.

Import Remote Roster.

Lemma insertSorted_In {A} (le : A -> A -> bool) x y : forall l,
  In y (insertSorted le x l) <-> y = x \/ In y l.
Proof.
  induction l as [|a l IH]; simpl; [intuition |].
  destruct (le x a); simpl; [intuition |]. rewrite IH. intuition.
Qed.

Lemma orderBy_In {A} (le : A -> A -> bool) y : forall l, In y (orderBy le l) <-> In y l.
Proof.
  induction l as [|a l IH]; simpl; [tauto |].
  unfold orderBy. cbn [fold_right]. fold (orderBy le l).
  rewrite insertSorted_In, IH. intuition.
Qed.

Lemma querySchedules_holds r b :
  Forall (fun day => dateBetween (JsDate.toISODate (startOfMonth r))
                                 (JsDate.toISODate (endOfMonth r))
                                 (JsDate.toISODate day) = true)
         (getDaysInMonth r) ->
  forall s, In s (roster_schedules b) ->
            In (RosterSchedule.date s) (map JsDate.toISODate (getDaysInMonth r)) ->
            In s (querySchedules r b).
Proof.
  intros Hrange s Hs Hdate. unfold querySchedules. apply orderBy_In, filter_In.
  split; [exact Hs |].
  apply in_map_iff in Hdate. destruct Hdate as (day & <- & Hday).
  exact (proj1 (Forall_forall _ _) Hrange day Hday).
Qed.

(** On a machine east of UTC the displayed days are keyed by the UTC date
    of their local midnight: April 2025 in India runs from "2025-03-31" to
    "2025-04-29", and the reload queries exactly that range. *)
Example april_in_India :
  let r := Scenario.render (Scenario.april [] [] None) in
  map JsDate.toISODate (firstn 1 (getDaysInMonth r)) = ["2025-03-31"]
  /\ JsDate.toISODate (startOfMonth r) = "2025-03-31"
  /\ JsDate.toISODate (endOfMonth r) = "2025-04-29"
  /\ forallb (fun day => dateBetween (JsDate.toISODate (startOfMonth r))
                                      (JsDate.toISODate (endOfMonth r))
                                      (JsDate.toISODate day))
             (getDaysInMonth r) = true.
Proof. vm_compute. repeat split. Qed.

End Reload.

(** April 2025 has the active version v.01; an edit is recorded and every
    round trip is carried out: the month has one active version again. *)
Lemma createNewVersion_one_active_witness :
  let v1 := Scenario.version "a" "v.01" 1 true in
  let st := Scenario.april [] [v1] (Some v1) in
  let w := Scenario.world (Scenario.tables [] [v1]) [] st in
  map Roster.RosterVersion.version_number
      (Roster.activeIn 4 2025
         (Roster.roster_versions
            (Remote.db (snd (Roster.createNewVersion (Scenario.render st) "Quick add" w)))))
  = ["v.02"].
Proof.
  intros v1 st w.
  destruct (createNewVersion_one_active (Scenario.render st) w "Quick add"
              {| Roster.User.id := "u1" |})
    as (new & _ & _ & _ & _ & Hnumber & _ & _ & Hactive & _).
  - constructor.
  - split; [repeat constructor; simpl; tauto | repeat constructor; discriminate].
  - vm_compute. reflexivity.
  - vm_compute. lia.
  - reflexivity.
  - vm_compute. reflexivity.
  - change 4 with (Roster.scopeMonth (Scenario.render st)).
    change 2025 with (Roster.scopeYear (Scenario.render st)).
    rewrite Hactive. cbn [map]. rewrite Hnumber. vm_compute. reflexivity.
Defined.

(** Ann saves a shift for Bob; the store takes the row, both ledger round
    trips are refused: success is reported and the ledger is as it was. *)
Lemma createNewVersion_never_propagates_witness :
  let v1 := Scenario.version "a" "v.01" 1 true in
  let st := Roster.setSelectedEdit
              (Some {| Roster.SelectedEdit.profileId := "s2";
                       Roster.SelectedEdit.date := "2025-04-10" |})
              (Scenario.april [] [v1] (Some v1)) in
  let r := Scenario.render st in
  let w := Scenario.world (Scenario.tables [] [v1])
             [Remote.Resolved; Remote.Failed Scenario.refused; Remote.Rejected Scenario.refused]
             st in
  Roster.notification (Remote.ui (snd (Roster.saveShift r "D" 0 w)))
  = Some {| Roster.Notification.type := Roster.success;
            Roster.Notification.message := "Shift updated successfully!" |}
  /\ Roster.roster_versions (Remote.db (snd (Roster.saveShift r "D" 0 w))) = [v1].
Proof.
  intros v1 st r w.
  destruct (createNewVersion_never_propagates r w) as (_ & _ & Hsuccess & Hledger & _).
  split.
  - apply (Hsuccess "D" 0 {| Roster.SelectedEdit.profileId := "s2";
                             Roster.SelectedEdit.date := "2025-04-10" |}
                    {| Roster.User.id := "u1" |}).
    + reflexivity.
    + reflexivity.
    + vm_compute. reflexivity.
    + repeat constructor.
  - apply (Hledger "D" 0 {| Roster.SelectedEdit.profileId := "s2";
                            Roster.SelectedEdit.date := "2025-04-10" |}
                   {| Roster.User.id := "u1" |}
                   (Remote.Failed Scenario.refused) (Remote.Rejected Scenario.refused) []).
    + reflexivity.
    + reflexivity.
    + vm_compute. reflexivity.
    + reflexivity.
    + discriminate.
    + discriminate.
Defined.

(** ** Approved requests *)

Section Approval.

Import Remote Roster.

Ltac run := unfold tryCatch, bind, newDateNow; cbn beta iota.
Ltac go :=
  cbn [orThrowLogged orThrow fst snd ret setState
       updateScheduleById insertSchedules updateRequestById].

(** The schedule store after an approved request has been applied, the
    write being carried out: the row the render holds for the (staff, date)
    pair is overwritten by its identifier; when the render holds none, a row
    is appended. *)
Lemma applyApprovedRequest_store r (w : W) q :
  carriedOut 1 w ->
  exists stamp,
    roster_schedules (db (snd (applyApprovedRequest r q w)))
    = match findSchedule (schedules (state r)) (LeaveRequest.user_id q)
                         (LeaveRequest.requested_date q) with
      | Some existing =>
          map (fun s =>
                 if optEqb (RosterSchedule.id s) (RosterSchedule.id existing)
                 then {| RosterSchedule.id := RosterSchedule.id s;
                         RosterSchedule.profile_id := LeaveRequest.user_id q;
                         RosterSchedule.date := LeaveRequest.requested_date q;
                         RosterSchedule.shift_code := approvedCode q;
                         RosterSchedule.overtime_hours := RosterSchedule.overtime_hours s;
                         RosterSchedule.status := "confirmed";
                         RosterSchedule.created_at := RosterSchedule.created_at s;
                         RosterSchedule.updated_at := Some stamp |}
                 else s)
              (roster_schedules (db w))
      | None =>
          (roster_schedules (db w)
           ++ [ {| RosterSchedule.id := Some (rowId (serial (db w)));
                   RosterSchedule.profile_id := LeaveRequest.user_id q;
                   RosterSchedule.date := LeaveRequest.requested_date q;
                   RosterSchedule.shift_code := approvedCode q;
                   RosterSchedule.overtime_hours := None;
                   RosterSchedule.status := "confirmed";
                   RosterSchedule.created_at := Some stamp;
                   RosterSchedule.updated_at := Some stamp |} ])%list
      end.
Proof.
  intros Hw. apply carriedOut_hd in Hw. exists (JsDate.toISOString (now w)).
  unfold applyApprovedRequest, approvedCode.
  destruct (findSchedule _ _ _); run; rewrite request_resolved by exact Hw; go;
    match goal with
    | |- context [createNewVersion ?r ?l ?w1] =>
        pose proof (createNewVersion_keeps_schedules r l w1) as Hk;
        destruct (createNewVersion_total r l w1) as ([] & w2 & Ev);
        rewrite Ev in Hk |- *
    end;
    cbn [fst snd db setDb roster_schedules stampSchedules] in Hk |- *; rewrite Hk;
    reflexivity.
Qed.

End Approval.

(** C6 on a request for a day outside the displayed month.  The store holds
    a day shift for Bob on 10 May 2025; the roster shows April 2025, so the
    reload holds no row of May; Ann approves Bob's half-day request for
    10 May.  The day shift is not overwritten: the store ends with two rows
    for (Bob, 10 May), "D" and "HD". *)
Theorem applyApprovedRequest_outside_displayed_month :
  let day := Scenario.shift "7" "s2" "2025-05-10" "D" in
  let b := Scenario.withRequests [Scenario.halfDay] (Scenario.tables [day] []) in
  let st0 := Scenario.april [] [] None in
  let loaded := Remote.ui (snd (Roster.loadData (Scenario.render st0)
                                                (Scenario.world b [] st0))) in
  let st := Roster.setSelectedRequest (Some Scenario.halfDay) loaded in
  let w' := snd (Roster.approveRequest (Scenario.render st) "q1" true
                                       (Scenario.world b [] st)) in
  Roster.schedules loaded = []
  /\ Roster.requests loaded = [Scenario.halfDay]
  /\ map (fun s => (Roster.RosterSchedule.profile_id s, Roster.RosterSchedule.date s,
                    Roster.RosterSchedule.shift_code s))
         (Roster.roster_schedules (Remote.db w'))
     = [("s2", "2025-05-10", "D"); ("s2", "2025-05-10", "HD")]
  /\ Roster.notification (Remote.ui w')
     = Some {| Roster.Notification.type := Roster.success;
               Roster.Notification.message := "Request approved successfully" |}.
Proof. vm_compute. repeat split. Qed.

(** ** Checklist instantiation *)

Section Instantiation.

Import Remote Checklist.

Lemma loadInstances_detached_total : total (detached loadInstances).
Proof. unfold detached. apply total_tryCatch. intros e. apply total_ret. Qed.

Lemma loadInstances_detached_readOnly : readOnly (detached loadInstances).
Proof.
  unfold readOnly, detached, loadInstances.
  apply preserves_tryCatch; [| intros e; apply preserves_ret].
  apply preserves_bind; [apply preserves_request; reflexivity | intros res].
  apply preserves_bind; [apply preserves_orThrow | intros data].
  apply preserves_setState.
Qed.

Lemma storeItems_length vs : forall n, List.length (storeItems n vs) = List.length vs.
Proof. induction vs as [|v rest IH]; intros n; simpl; [reflexivity | now rewrite IH]. Qed.

(** Every stored item is the copy of the template item at its position. *)
Lemma storeItems_copies instanceId items : forall n,
  Forall2 (copyOf instanceId) items (storeItems n (map (copyItem instanceId) items)).
Proof.
  induction items as [|item rest IH]; intros n; simpl; constructor.
  - unfold copyOf. simpl. repeat split; reflexivity.
  - apply IH.
Qed.

(** The tables after an instantiation whose writes are carried out. *)
Lemma handleCreateInstance_tables u template (w : World Backend ChecklistState) :
  carriedOut 2 w ->
  let b := db w in
  let b' := db (snd (handleCreateInstance (Some u) template w)) in
  let instance :=
    storeInstance (serial b)
      {| NewInstance.template_id := ChecklistTemplate.id template;
         NewInstance.name := ChecklistTemplate.name template ++ " - " ++ JsDate.toISODate (now w);
         NewInstance.category := ChecklistTemplate.category template;
         NewInstance.exam_date := JsDate.toISODate (now w);
         NewInstance.created_by := User.id u |} in
  checklist_instances b' = (checklist_instances b ++ [instance])%list
  /\ checklist_instance_items b'
     = (checklist_instance_items b
        ++ storeItems (S (serial b))
             (map (copyItem (ChecklistInstance.id instance)) (templateItems template)))%list.
Proof.
  intros Hw b b' instance.
  pose proof (carriedOut_hd _ _ Hw) as Hw1. apply carriedOut_tl in Hw.
  pose proof (carriedOut_hd _ _ Hw) as Hw2. clear Hw.
  unfold b', handleCreateInstance, templateItems.
  unfold tryFinally, tryCatch, bind, newDateNow. cbn [setState]. cbn beta iota.
  rewrite request_resolved by exact Hw1.
  cbn [insertInstance single fst snd orThrow ret].
  destruct (ChecklistTemplate.items template) as [[|item items] |].
  1,3: cbn [ret setState];
    match goal with
    | |- context [detached loadInstances ?w1] =>
        pose proof (loadInstances_detached_readOnly w1) as Hro;
        destruct (loadInstances_detached_total w1) as ([] & w2 & El);
        rewrite El in Hro |- *
    end;
    cbn [fst snd db setDb popReply setState checklist_instances checklist_instance_items
         storeItems map] in Hro |- *;
    rewrite Hro; cbn [checklist_instances checklist_instance_items];
    rewrite ?app_nil_r; split; reflexivity.
  rewrite request_resolved by exact Hw2.
  cbn [insertItems fst snd orThrow ret setState].
  match goal with
  | |- context [detached loadInstances ?w1] =>
      pose proof (loadInstances_detached_readOnly w1) as Hro;
      destruct (loadInstances_detached_total w1) as ([] & w2 & El);
      rewrite El in Hro |- *
  end.
  cbn [fst snd db setDb popReply setState checklist_instances checklist_instance_items
       serial] in Hro |- *.
  rewrite Hro. cbn [checklist_instances checklist_instance_items now]. split; reflexivity.
Qed.

End Instantiation.

(** C7. An instantiation by a signed-in user whose two writes are carried
    out adds exactly one instance row, named "{template name} - {today}"
    and dated today, and exactly one instance-item row per template item, in
    the order of the template: each copies the title, description,
    priority, estimated time, responsible role and sort order of its
    template item, refers to that item and to the new instance, and starts
    not completed, with no completer and no completion time. *)
Theorem handleCreateInstance_copies (u : Checklist.User.t)
  (template : Checklist.ChecklistTemplate.t)
  (w : Remote.World Checklist.Backend Checklist.ChecklistState) :
  Remote.carriedOut 2 w ->
  let b := Remote.db w in
  let b' := Remote.db (snd (Checklist.handleCreateInstance (Some u) template w)) in
  exists instance copies,
    Checklist.checklist_instances b' = (Checklist.checklist_instances b ++ [instance])%list
    /\ Checklist.ChecklistInstance.name instance
       = Checklist.ChecklistTemplate.name template ++ " - " ++ JsDate.toISODate (Remote.now w)
    /\ Checklist.ChecklistInstance.exam_date instance = JsDate.toISODate (Remote.now w)
    /\ Checklist.ChecklistInstance.template_id instance = Checklist.ChecklistTemplate.id template
    /\ Checklist.ChecklistInstance.created_by instance = Checklist.User.id u
    /\ Checklist.checklist_instance_items b'
       = (Checklist.checklist_instance_items b ++ copies)%list
    /\ List.length copies = List.length (Checklist.templateItems template)
    /\ Forall2 (Checklist.copyOf (Checklist.ChecklistInstance.id instance))
               (Checklist.templateItems template) copies.
Proof.
  intros Hw b b'.
  destruct (handleCreateInstance_tables u template w Hw) as [Hinst Hitems].
  eexists _, _. split; [exact Hinst |]. repeat (split; [reflexivity |]).
  split; [exact Hitems |]. split.
  - now rewrite storeItems_length, length_map.
  - apply storeItems_copies.
Qed.

(** The two-item template gives one instance, named after the day, and two
    items that are not completed. *)
Lemma handleCreateInstance_copies_witness :
  let b' := Remote.db (snd (Checklist.handleCreateInstance
                              (Some {| Checklist.User.id := "u1" |})
                              ChecklistScenario.opening ChecklistScenario.world)) in
  map Checklist.ChecklistInstance.name (Checklist.checklist_instances b')
  = ["Opening - 2025-04-15"]
  /\ map Checklist.ChecklistInstanceItem.is_completed (Checklist.checklist_instance_items b')
     = [false; false].
Proof.
  intros b'.
  destruct (handleCreateInstance_copies {| Checklist.User.id := "u1" |}
              ChecklistScenario.opening ChecklistScenario.world)
    as (instance & copies & Hinst & Hname & _ & _ & _ & Hitems & Hlen & Hcopies).
  - constructor.
  - unfold b'. rewrite Hinst, Hitems. cbn [app map ChecklistScenario.world Remote.db
      Checklist.checklist_instances Checklist.checklist_instance_items].
    rewrite Hname. split; [vm_compute; reflexivity |].
    inversion Hcopies as [| i1 c1 ? ? H1 Hrest]; subst.
    inversion Hrest as [| i2 c2 ? ? H2 Hnil]; subst.
    inversion Hnil; subst. cbn [map app].
    destruct H1 as (_ & _ & _ & _ & _ & _ & _ & _ & -> & _).
    destruct H2 as (_ & _ & _ & _ & _ & _ & _ & _ & -> & _).
    reflexivity.
Defined.

(** ** Bulk upload *)

Section BulkUpload.

Import Remote CandidateTracker.

Variables (tz : Z) (parseDate : string -> option JsDate.Instant) (random1000 : nat -> Z).

Lemma generateConfirmationNumber_run row (w : World Backend TrackerState) :
  exists c, generateConfirmationNumber tz random1000 row w = (Normal _ c, w).
Proof. eexists. reflexivity. Qed.

Lemma toCandidates_run rows : forall row (w : World Backend TrackerState),
  exists cs, toCandidates tz parseDate random1000 row rows w = (Normal _ cs, w).
Proof.
  induction rows as [|candidate rest IH]; intros row w; cbn [toCandidates].
  - eexists. reflexivity.
  - unfold bind at 1. unfold toCandidate.
    assert (Hc : exists c,
      (if Js.truthy (CandidateRow.confirmation_number candidate)
       then ret (CandidateRow.confirmation_number candidate)
       else generateConfirmationNumber tz random1000 row) w = (Normal _ c, w)).
    { destruct (Js.truthy _); eexists; reflexivity. }
    destruct Hc as (c & Hc). unfold bind at 1. rewrite Hc. cbn [ret].
    unfold bind at 1. destruct (IH (S row) w) as (cs & ->). eexists. reflexivity.
Qed.

(** A reload of the candidates touches neither the tables nor the upload
    results, and never throws. *)
Lemma loadCandidates_run (w : World Backend TrackerState) :
  exists w', loadCandidates tz parseDate random1000 w = (Normal unit tt, w')
             /\ db w' = db w
             /\ uploadResults (ui w') = uploadResults (ui w)
             /\ uploadStatus (ui w') = uploadStatus (ui w).
Proof.
  unfold loadCandidates, tryFinally, tryCatch, bind. cbn [setState].
  unfold request. cbn [replies db].
  destruct (replies w) as [|[| e | e] rs]; cbn [fst snd];
    try (match goal with
         | |- context [toCandidates ?a ?b ?c ?d ?l ?w1] =>
             destruct (toCandidates_run l d w1) as (cs & ->)
         end);
    eexists; repeat split.
Qed.

Ltac run := unfold tryCatch, bind, newDateNow; cbn beta iota.

(** One turn of the row loop never throws; it either stores the row and
    counts it, or pushes one message and stores nothing; a line that is
    refused locally gets its own message. *)
Lemma processRow_spec state u headers total i line errors n
  (w : World Backend TrackerState) :
  exists errors' n' w',
    processRow tz parseDate random1000 state u headers total i line errors n w
    = (Normal _ (errors', n'), w')
    /\ ((n' = n + 1 /\ errors' = errors
         /\ List.length (candidates_table (db w')) = S (List.length (candidates_table (db w)))
         /\ forall m, ~ refusedLocally parseDate state headers i line m)
        \/ (n' = n /\ candidates_table (db w') = candidates_table (db w)
            /\ exists msg, errors' = Js.push errors msg
                           /\ forall m, refusedLocally parseDate state headers i line m -> m = msg))
    /\ candidate_roster_uploads (db w') = candidate_roster_uploads (db w)
    /\ (replies w' = replies w \/ replies w' = tl (replies w))
    /\ uploadResults (ui w') = uploadResults (ui w)
    /\ uploadStatus (ui w') = uploadStatus (ui w).
Proof.
  unfold CandidateTracker.processRow, CandidateTracker.refusedLocally. run.
  destruct (readColumns parseDate (cells line) headers 0 CandidateData.empty)
    as [candidateData | e]; cbn [orThrow ret throw].
  2: { eexists _, _, _. split; [reflexivity |]. split; [right |].
       - repeat split. eexists. split; [reflexivity | auto].
       - repeat split. left. reflexivity. }
  destruct (blank (CandidateData.full_name candidateData)
            || blank (CandidateData.email candidateData)); cbn [ret].
  { eexists _, _, _. split; [reflexivity |]. split; [right |].
    - repeat split. eexists. split; [reflexivity | auto].
    - repeat split. left. reflexivity. }
  destruct (find _ (candidates state)) as [existing |]; cbn [ret].
  { eexists _, _, _. split; [reflexivity |]. split; [right |].
    - repeat split. eexists. split; [reflexivity | auto].
    - repeat split. left. reflexivity. }
  unfold generateConfirmationNumber, request. run. cbn [ret].
  destruct (replies w) as [|[| e | e] rs] eqn:E; cbn [insertCandidate fst snd setState ret].
  1,2: eexists _, _, _; (split; [reflexivity |]); split;
    [ left; cbn [db setDb popReply candidates_table]; rewrite length_app, Nat.add_comm;
      repeat split; auto
    | cbn [db setDb popReply candidate_roster_uploads replies ui uploadResults uploadStatus
           setUploadProgress];
      rewrite ?E; repeat split; auto ].
  all: eexists _, _, _; (split; [reflexivity |]); split;
    [ right; repeat split; eexists; split; [reflexivity | intros m []]
    | cbn [db popReply replies ui uploadResults uploadStatus setUploadProgress];
      rewrite ?E; repeat split; auto ].
Qed.

Lemma settles_tl (w w' : World Backend TrackerState) :
  replies w' = replies w \/ replies w' = tl (replies w) -> settles w -> settles w'.
Proof.
  unfold settles. intros [-> | ->] H; [exact H |].
  destruct H; simpl; [constructor | assumption].
Qed.

(** The row loop from row [i] on: it never throws, every line ends either
    counted or with one message, the messages pushed before stay, and every
    line refused locally has its message in the list. *)
Lemma processRows_spec state u headers total : forall dataLines i errors n
  (w : World Backend TrackerState),
  exists errors' n' w',
    processRows tz parseDate random1000 state u headers total i dataLines errors n w
    = (Normal _ (errors', n'), w')
    /\ n' + Z.of_nat (List.length errors')
       = n + Z.of_nat (List.length errors) + Z.of_nat (List.length dataLines)
    /\ Z.of_nat (List.length (candidates_table (db w')))
       = Z.of_nat (List.length (candidates_table (db w))) + (n' - n)
    /\ n <= n'
    /\ (exists pushed, errors' = (errors ++ pushed)%list)
    /\ (forall j line m, nth_error dataLines j = Some line ->
          refusedLocally parseDate state headers (i + j) line m -> In m errors')
    /\ candidate_roster_uploads (db w') = candidate_roster_uploads (db w)
    /\ (settles w -> settles w')
    /\ uploadResults (ui w') = uploadResults (ui w)
    /\ uploadStatus (ui w') = uploadStatus (ui w).
Proof.
  induction dataLines as [|line rest IH]; intros i errors n w; cbn [CandidateTracker.processRows].
  - eexists _, _, _. split; [reflexivity |].
    repeat match goal with |- _ /\ _ => split end; cbn [List.length]; try lia; auto.
    + exists []. now rewrite app_nil_r.
    + intros j line m Hj. destruct j; discriminate.
  - destruct (processRow_spec state u headers total i line errors n w)
      as (e1 & n1 & w1 & Hrow & Hcase & Hup1 & Hrep1 & Hres1 & Hst1).
    unfold bind. rewrite Hrow. cbn [fst snd].
    destruct (IH (S i) e1 n1 w1)
      as (e2 & n2 & w2 & Hrows & Hcount & Htable & Hle & (pushed & Hpushed) & Hlocal
          & Hup2 & Hset2 & Hres2 & Hst2).
    rewrite Hrows. exists e2, n2, w2. split; [reflexivity |].
    assert (Hone : n1 + Z.of_nat (List.length e1) = n + Z.of_nat (List.length errors) + 1
                   /\ Z.of_nat (List.length (candidates_table (db w1)))
                      = Z.of_nat (List.length (candidates_table (db w))) + (n1 - n)
                   /\ n <= n1
                   /\ (exists p, e1 = (errors ++ p)%list)
                   /\ (forall m, refusedLocally parseDate state headers i line m -> In m e1)).
    { destruct Hcase as [(-> & -> & Hlen & Hnone) | (-> & Htab & msg & -> & Hmsg)].
      - rewrite Hlen. repeat match goal with |- _ /\ _ => split end; cbn [List.length]; try lia.
        + exists []. now rewrite app_nil_r.
        + intros m Hm. now destruct (Hnone m).
      - rewrite Htab. unfold Js.push. rewrite length_app. cbn [List.length].
        repeat match goal with |- _ /\ _ => split end; cbn [List.length]; try lia.
        + now exists [msg].
        + intros m Hm. rewrite (Hmsg m Hm). apply in_or_app. right. now left. }
    destruct Hone as (Hc1 & Ht1 & Hle1 & (p1 & Hp1) & Hl1).
    cbn [List.length]. repeat match goal with |- _ /\ _ => split end; cbn [List.length]; try lia.
    + exists (p1 ++ pushed)%list. now rewrite Hpushed, Hp1, app_assoc.
    + intros j ln m Hj Hm. destruct j as [|j]; cbn [nth_error] in Hj.
      * injection Hj as <-. rewrite Nat.add_0_r in Hm. rewrite Hpushed.
        apply in_or_app. left. now apply Hl1.
      * apply (Hlocal j ln m Hj). now replace (S i + j)%nat with (i + S j)%nat by lia.
    + congruence.
    + intros Hs. apply Hset2. eapply settles_tl; eauto.
    + congruence.
    + congruence.
Qed.

End BulkUpload.

(** C8. A bulk upload of a file with a header line naming the required
    columns and at least one data line, over a data service that reports
    what goes wrong as [{ error }]: every data line is processed, each ends
    either stored and counted or with one message in the error list, so that
    the success count and the number of messages add up to the number of
    data lines; the table grows by the success count; a line with a missing
    name or email, with an email that a loaded candidate already has, or
    with a date that cannot be read has its own message in the list; and the
    count and the list are reported together when the batch is over. *)
Theorem processBulkUpload_accumulates (tz : Z) (parseDate : string -> option JsDate.Instant)
  (random1000 : nat -> Z) (state : CandidateTracker.TrackerState)
  (u : CandidateTracker.User.t) (file : CandidateTracker.File.t)
  (w : Remote.World CandidateTracker.Backend CandidateTracker.TrackerState) :
  CandidateTracker.uploadFile state = Some file ->
  Remote.settles w ->
  (2 <= List.length (CandidateTracker.nonBlankLines (CandidateTracker.File.text file)))%nat ->
  CandidateTracker.missingHeaders (CandidateTracker.headersOf file) = [] ->
  let w' := snd (CandidateTracker.processBulkUpload tz parseDate random1000 state (Some u) w) in
  let results := CandidateTracker.uploadResults (Remote.ui w') in
  let dataLines := CandidateTracker.dataLinesOf file in
  CandidateTracker.UploadResults.success results
  + Z.of_nat (List.length (CandidateTracker.UploadResults.errors results))
  = Z.of_nat (List.length dataLines)
  /\ 0 <= CandidateTracker.UploadResults.success results
  /\ Z.of_nat (List.length (CandidateTracker.candidates_table (Remote.db w')))
     = Z.of_nat (List.length (CandidateTracker.candidates_table (Remote.db w)))
       + CandidateTracker.UploadResults.success results
  /\ (forall j line m,
        nth_error dataLines j = Some line ->
        CandidateTracker.refusedLocally parseDate state (CandidateTracker.headersOf file)
          j line m ->
        In m (CandidateTracker.UploadResults.errors results))
  /\ CandidateTracker.uploadStatus (Remote.ui w')
     = (if (List.length (CandidateTracker.UploadResults.errors results)
            =? List.length dataLines)%nat
        then CandidateTracker.error else CandidateTracker.success).
Proof.
  intros Hfile Hsettles Hlines Hheaders w' results dataLines.
  unfold results, w', dataLines, CandidateTracker.processBulkUpload,
    CandidateTracker.headersOf, CandidateTracker.dataLinesOf in *.
  rewrite Hfile. unfold Remote.tryCatch, Remote.bind, Remote.newDateNow.
  cbn [Remote.setState]. cbn beta iota.
  match goal with
  | |- context [Remote.request ?op ?w0] =>
      destruct (request_settles op w0 Hsettles)
        as (res0 & w1 & -> & Hrep1 & Hui1 & _ & _ & Hdb1)
  end.
  assert (Hs1 : Remote.settles w1).
  { eapply settles_tl; [right; exact Hrep1 | exact Hsettles]. }
  assert (Htab1 : CandidateTracker.candidates_table (Remote.db w1)
                  = CandidateTracker.candidates_table (Remote.db w)).
  { destruct Hdb1 as [[_ ->] | [_ ->]]; reflexivity. }
  assert (Hrecord : exists uploadRecord w1',
    (match res0 with
     | inl record => Remote.ret (Some record)
     | inr uploadError =>
         Remote.bind
           (Remote.consoleError ("Error creating upload record: " ++ Remote.message uploadError))
           (fun _ => Remote.ret None)
     end) w1 = (Remote.Normal _ uploadRecord, w1')
    /\ Remote.db w1' = Remote.db w1 /\ Remote.replies w1' = Remote.replies w1
    /\ Remote.ui w1' = Remote.ui w1).
  { destruct res0; eexists _, _; (split; [reflexivity |]); repeat split. }
  destruct Hrecord as (uploadRecord & w1' & Hrec & Hdb1' & Hrep1' & Hui1').
  unfold Remote.bind in Hrec. rewrite Hrec. clear Hrec.
  assert (Hs1' : Remote.settles w1') by (unfold Remote.settles; now rewrite Hrep1').
  destruct (Nat.ltb_spec (List.length (CandidateTracker.nonBlankLines
                                         (CandidateTracker.File.text file))) 2);
    [lia |].
  rewrite Hheaders. cbn [List.length Nat.ltb Nat.leb].
  match goal with
  | |- context [CandidateTracker.processRows ?a ?b ?c ?st ?usr ?hs ?tot ?i ?ls ?es ?n ?w0] =>
      destruct (processRows_spec a b c st usr hs tot ls i es n w0)
        as (errs & cnt & w2 & -> & Hcount & Htable & Hle & _ & Hlocal & _ & Hset2 & _ & _)
  end.
  cbn [fst snd List.length] in *.
  assert (Hs2 : Remote.settles w2) by auto.
  assert (Hgoal : forall w4 : Remote.World CandidateTracker.Backend
                                 CandidateTracker.TrackerState,
    CandidateTracker.candidates_table (Remote.db w4)
    = CandidateTracker.candidates_table (Remote.db w2) ->
    CandidateTracker.uploadResults (Remote.ui w4)
    = {| CandidateTracker.UploadResults.success := cnt;
         CandidateTracker.UploadResults.errors := errs |} ->
    CandidateTracker.uploadStatus (Remote.ui w4)
    = (if (List.length errs
           =? List.length (tl (CandidateTracker.nonBlankLines
                                 (CandidateTracker.File.text file))))%nat
       then CandidateTracker.error else CandidateTracker.success) ->
    CandidateTracker.UploadResults.success (CandidateTracker.uploadResults (Remote.ui w4))
    + Z.of_nat (List.length (CandidateTracker.UploadResults.errors
                               (CandidateTracker.uploadResults (Remote.ui w4))))
    = Z.of_nat (List.length (tl (CandidateTracker.nonBlankLines
                                   (CandidateTracker.File.text file))))
    /\ 0 <= CandidateTracker.UploadResults.success
               (CandidateTracker.uploadResults (Remote.ui w4))
    /\ Z.of_nat (List.length (CandidateTracker.candidates_table (Remote.db w4)))
       = Z.of_nat (List.length (CandidateTracker.candidates_table (Remote.db w)))
         + CandidateTracker.UploadResults.success
             (CandidateTracker.uploadResults (Remote.ui w4))
    /\ (forall j line m,
          nth_error (tl (CandidateTracker.nonBlankLines
                           (CandidateTracker.File.text file))) j = Some line ->
          CandidateTracker.refusedLocally parseDate state
            (map (fun h => Js.toLowerCase (Js.trim h))
                 (Js.split "," (hd "" (CandidateTracker.nonBlankLines
                                         (CandidateTracker.File.text file)))))
            j line m ->
          In m (CandidateTracker.UploadResults.errors
                  (CandidateTracker.uploadResults (Remote.ui w4))))
    /\ CandidateTracker.uploadStatus (Remote.ui w4)
       = (if (List.length (CandidateTracker.UploadResults.errors
                             (CandidateTracker.uploadResults (Remote.ui w4)))
              =? List.length (tl (CandidateTracker.nonBlankLines
                                    (CandidateTracker.File.text file))))%nat
          then CandidateTracker.error else CandidateTracker.success)).
  { intros w4 Htab4 Hres4 Hst4. rewrite Hres4, Htab4, Hst4.
    cbn [CandidateTracker.UploadResults.success CandidateTracker.UploadResults.errors].
    rewrite Hdb1', Htab1 in Htable.
    repeat match goal with |- _ /\ _ => split end; try lia; auto. }
  destruct uploadRecord as [record |].
  - match goal with
    | |- context [Remote.request ?op ?w0] =>
        destruct (request_settles op w0 Hs2) as (res & w3 & -> & _ & _ & _ & _ & Hdb3)
    end.
    cbn [Remote.ret Remote.setState fst snd].
    assert (Htab3 : CandidateTracker.candidates_table (Remote.db w3)
                    = CandidateTracker.candidates_table (Remote.db w2))
      by (destruct Hdb3 as [[_ ->] | [_ ->]]; reflexivity).
    destruct (0 <? cnt).
    + match goal with
      | |- context [CandidateTracker.loadCandidates _ _ _ ?wx] =>
          destruct (loadCandidates_run tz parseDate random1000 wx)
            as (w4 & -> & Hdb4 & Hres4 & Hst4)
      end.
      cbn [snd]. apply Hgoal; [rewrite Hdb4; exact Htab3 | rewrite Hres4; reflexivity
                   | rewrite Hst4; reflexivity].
    + apply Hgoal; [exact Htab3 | reflexivity | reflexivity].
  - cbn [Remote.ret Remote.setState fst snd].
    destruct (0 <? cnt).
    + match goal with
      | |- context [CandidateTracker.loadCandidates _ _ _ ?wx] =>
          destruct (loadCandidates_run tz parseDate random1000 wx)
            as (w4 & -> & Hdb4 & Hres4 & Hst4)
      end.
      cbn [snd]. apply Hgoal; [rewrite Hdb4; reflexivity | rewrite Hres4; reflexivity
                   | rewrite Hst4; reflexivity].
    + apply Hgoal; reflexivity.
Qed.



(** Six data lines: two are stored, four end with a message, and the line
    without a name has its own. *)
Lemma processBulkUpload_accumulates_witness :
  let w' := snd (CandidateTracker.processBulkUpload 330 UploadScenario.parseDate (fun _ => 7)
                   UploadScenario.state (Some {| CandidateTracker.User.id := "u1" |})
                   UploadScenario.world) in
  let results := CandidateTracker.uploadResults (Remote.ui w') in
  CandidateTracker.UploadResults.success results
  + Z.of_nat (List.length (CandidateTracker.UploadResults.errors results)) = 6
  /\ In "Row 3: Missing name or email" (CandidateTracker.UploadResults.errors results).
Proof.
  intros w' results.
  destruct (processBulkUpload_accumulates 330 UploadScenario.parseDate (fun _ => 7)
              UploadScenario.state {| CandidateTracker.User.id := "u1" |}
              UploadScenario.roster UploadScenario.world)
    as (Hcount & _ & _ & Hlocal & _).
  - reflexivity.
  - repeat constructor.
  - vm_compute. lia.
  - vm_compute. reflexivity.
  - split.
    + transitivity (Z.of_nat (List.length (CandidateTracker.dataLinesOf UploadScenario.roster)));
        [exact Hcount | vm_compute; reflexivity].
    + apply (Hlocal 1%nat ",bob@x.org,2,").
      * vm_compute. reflexivity.
      * vm_compute. reflexivity.
Defined.

(** ** Handlers: how the tables evolve *)

Section Evolution.

Import Remote.
Context {B U : Type}.

Variable R : B -> B -> Prop.
Hypothesis R_refl : forall b, R b b.
Hypothesis R_trans : forall a b c, R a b -> R b c -> R a c.

Lemma evolves_readOnly {A} (m : Async B U A) : readOnly m -> evolves R m.
Proof. intros Hm w. rewrite (Hm w). apply R_refl. Qed.

Lemma evolves_ret {A} (a : A) : evolves R (@ret B U A a).
Proof. intros w. apply R_refl. Qed.

Lemma evolves_throw {A} (e : JsError) : evolves R (@throw B U A e).
Proof. intros w. apply R_refl. Qed.

Lemma evolves_setState (f : U -> U) : evolves R (@setState B U f).
Proof. intros w. apply R_refl. Qed.

Lemma evolves_consoleError (line : string) : evolves R (@consoleError B U line).
Proof. intros w. apply R_refl. Qed.

Lemma evolves_newDateNow : evolves R (@newDateNow B U).
Proof. intros w. apply R_refl. Qed.

Lemma evolves_orThrow {X} (res : X + JsError) : evolves R (@orThrow B U X res).
Proof. intros w. destruct res; apply R_refl. Qed.

Lemma evolves_request {X} (op : B -> (X + JsError) * B) :
  (forall b, R b (snd (op b))) -> evolves R (request (U := U) op).
Proof.
  intros Hop w. unfold request.
  destruct (replies w) as [|[| e | e] rs]; try apply R_refl;
    specialize (Hop (db w)); destruct (op (db w)) as [res b']; exact Hop.
Qed.

Lemma evolves_bind {A C} (m : Async B U A) (k : A -> Async B U C) :
  evolves R m -> (forall a, evolves R (k a)) -> evolves R (bind m k).
Proof.
  intros Hm Hk w. unfold bind. specialize (Hm w).
  destruct (m w) as [[a | e] w1]; simpl in *.
  - eapply R_trans; [exact Hm | apply Hk].
  - exact Hm.
Qed.

Lemma evolves_tryCatch {A} (body : Async B U A) (handler : JsError -> Async B U A) :
  evolves R body -> (forall e, evolves R (handler e)) -> evolves R (tryCatch body handler).
Proof.
  intros Hb Hh w. unfold tryCatch. specialize (Hb w).
  destruct (body w) as [[a | e] w1]; simpl in *.
  - exact Hb.
  - eapply R_trans; [exact Hb | apply Hh].
Qed.

Lemma evolves_tryFinally {A} (body : Async B U A) (cleanup : World B U -> World B U) :
  evolves R body -> (forall w, db (cleanup w) = db w) -> evolves R (tryFinally body cleanup).
Proof.
  intros Hb Hc w. unfold tryFinally. specialize (Hb w).
  destruct (body w) as [c w1]; simpl in *. now rewrite Hc.
Qed.

End Evolution.

(** ** Lists: filters, sorted insertion and maps that keep the keys *)

Section ListFacts.

Import Remote.

Lemma filter_twice {A} (f : A -> bool) (l : list A) : filter f (filter f l) = filter f l.
Proof.
  induction l as [|a l IH]; simpl; [reflexivity |].
  destruct (f a) eqn:E; simpl; rewrite ?E, IH; reflexivity.
Qed.

Lemma insertSorted_map {A} (le : A -> A -> bool) (f : A -> A) x : forall l,
  (forall y, In y l -> le (f x) (f y) = le x y) ->
  insertSorted le (f x) (map f l) = map f (insertSorted le x l).
Proof.
  induction l as [|y l IH]; intros H; simpl; [reflexivity |].
  rewrite H by (simpl; auto). destruct (le x y); simpl; [reflexivity |].
  now rewrite IH by (intros; apply H; simpl; auto).
Qed.

Lemma orderBy_map {A} (le : A -> A -> bool) (f : A -> A) : forall l,
  (forall x y, In x l -> In y l -> le (f x) (f y) = le x y) ->
  orderBy le (map f l) = map f (orderBy le l).
Proof.
  induction l as [|x l IH]; intros H; simpl; [reflexivity |].
  unfold orderBy in *. rewrite IH by (intros; apply H; simpl; auto).
  apply insertSorted_map. intros y Hy. apply H; simpl; auto.
  right. now apply (orderBy_In le y l).
Qed.

Lemma filter_map_same {A} (p : A -> bool) (f : A -> A) : forall l,
  (forall x, In x l -> p (f x) = p x) -> filter p (map f l) = map f (filter p l).
Proof.
  induction l as [|x l IH]; intros H; simpl; [reflexivity |].
  rewrite H by (simpl; auto). rewrite IH by (intros; apply H; simpl; auto).
  now destruct (p x).
Qed.

Lemma find_map_same {A} (p : A -> bool) (f : A -> A) : forall l,
  (forall x, In x l -> p (f x) = p x) -> find p (map f l) = option_map f (find p l).
Proof.
  induction l as [|x l IH]; intros H; simpl; [reflexivity |].
  rewrite H by (simpl; auto). destruct (p x); [reflexivity |].
  apply IH. intros; apply H; simpl; auto.
Qed.

End ListFacts.

(** ** The capacity badge *)

(** X1. The colour of the capacity badge against the validator: a session
    that fails validation is always shown in red; a green badge means that
    the validator has neither a warning nor an error; an orange badge means
    that the validator warns; and a session of exactly 40 candidates is
    valid and yet shown in red. *)
Theorem getCapacityStatusColor_against_validation (c : Z) :
  (SessionUtils.isValid (SessionUtils.validateSessionCapacity c) = false ->
   SessionUtils.getCapacityStatusColor c = "text-red-600 bg-red-100")
  /\ (SessionUtils.getCapacityStatusColor c = "text-green-600 bg-green-100" <->
      SessionUtils.warning (SessionUtils.validateSessionCapacity c) = None
      /\ SessionUtils.error (SessionUtils.validateSessionCapacity c) = None)
  /\ (SessionUtils.getCapacityStatusColor c = "text-orange-600 bg-orange-100" <->
      30 <= c < 40)
  /\ (SessionUtils.getCapacityStatusColor c = "text-red-600 bg-red-100"
      /\ SessionUtils.isValid (SessionUtils.validateSessionCapacity c) = true <-> c = 40).
Proof.
  unfold SessionUtils.getCapacityStatusColor, SessionUtils.validateSessionCapacity,
    SessionUtils.MAX_CAPACITY, SessionUtils.WARNING_THRESHOLD.
  destruct (Z.gtb_spec c 40); destruct (Z.geb_spec c 40); destruct (Z.geb_spec c 30);
    try lia; cbn [SessionUtils.isValid SessionUtils.warning SessionUtils.error];
    repeat split; intros; try discriminate; try lia; try reflexivity;
    try (match goal with H : _ /\ _ |- _ => destruct H end; (discriminate || lia)).
Qed.

(** ** The roster: who may write *)

Section RosterGate.

Import Remote Roster.

Lemma isSuperAdmin_isAdmin r : isSuperAdmin r = true -> isAdmin r = true.
Proof.
  unfold isAdmin. intros H. rewrite H.
  unfold isSuperAdmin in H. destruct (currentStaffProfile r); [| discriminate].
  apply orb_true_r.
Qed.

Lemma not_isAdmin_not_isSuperAdmin r : isAdmin r = false -> isSuperAdmin r = false.
Proof.
  intros H. destruct (isSuperAdmin r) eqn:E; [| reflexivity].
  apply isSuperAdmin_isAdmin in E. congruence.
Qed.

End RosterGate.

(** X2. A signed-in user who is not an administrator cannot write to the
    roster: saving a shift, quick add, saving overtime, deciding a request
    and deleting the month make no round trip and leave the remote tables
    as they are, and opening a cell for editing selects nothing. *)
Theorem roster_writes_need_admin (formatDateForIST : JsDate.Instant -> string)
  (r : Roster.Render) (w : Roster.W) :
  Roster.isAdmin r = false ->
  (forall shiftCode overtimeHours,
     Remote.db (snd (Roster.saveShift r shiftCode overtimeHours w)) = Remote.db w
     /\ Remote.replies (snd (Roster.saveShift r shiftCode overtimeHours w)) = Remote.replies w)
  /\ (Remote.db (snd (Roster.quickAddMonth r w)) = Remote.db w
      /\ Remote.replies (snd (Roster.quickAddMonth r w)) = Remote.replies w)
  /\ (forall profileId date hours description,
        Remote.db (snd (Roster.saveOvertime r profileId date hours description w)) = Remote.db w
        /\ Remote.replies (snd (Roster.saveOvertime r profileId date hours description w))
           = Remote.replies w)
  /\ (forall requestId approved,
        Remote.db (snd (Roster.approveRequest r requestId approved w)) = Remote.db w
        /\ Remote.replies (snd (Roster.approveRequest r requestId approved w)) = Remote.replies w)
  /\ (forall confirmed,
        Remote.db (snd (Roster.deleteRoster formatDateForIST r confirmed w)) = Remote.db w
        /\ Remote.replies (snd (Roster.deleteRoster formatDateForIST r confirmed w))
           = Remote.replies w)
  /\ (forall profileId date,
        Roster.selectedEdit (Remote.ui (snd (Roster.handleEditShift formatDateForIST r
                                                                    profileId date w)))
        = Roster.selectedEdit (Remote.ui w)).
Proof.
  intros Hadmin. pose proof (not_isAdmin_not_isSuperAdmin r Hadmin) as Hsuper.
  repeat match goal with |- _ /\ _ => split end; intros.
  all: unfold Roster.saveShift, Roster.quickAddMonth, Roster.saveOvertime,
         Roster.approveRequest, Roster.deleteRoster, Roster.handleEditShift;
       rewrite ?Hadmin, ?Hsuper; cbn [negb];
       try (destruct (Roster.selectedEdit (Roster.state r)), (Roster.user r));
       try split; reflexivity.
Qed.

(** Bob, a staff member, is signed in: nothing he does writes to the roster
    of April 2025. *)
Lemma roster_writes_need_admin_witness :
  let st := Scenario.april [] [] None in
  let r := Scenario.renderAs "u2" st in
  let w := Scenario.world (Scenario.tables [Scenario.shift "7" "s2" "2025-04-10" "D"] []) [] st in
  Roster.isAdmin r = false
  /\ Roster.roster_schedules (Remote.db (snd (Roster.deleteRoster Scenario.localDate r true w)))
     = [Scenario.shift "7" "s2" "2025-04-10" "D"].
Proof.
  intros st r w. split; [vm_compute; reflexivity |].
  destruct (roster_writes_need_admin Scenario.localDate r w) as (_ & _ & _ & _ & Hdelete & _).
  - vm_compute. reflexivity.
  - destruct (Hdelete true) as [-> _]. reflexivity.
Defined.

(** ** Deciding a request *)

Section Decisions.

Import Remote Roster.

Ltac run := unfold tryCatch, bind, newDateNow; cbn beta iota.
Ltac go :=
  cbn [orThrowLogged orThrow fst snd ret setState
       updateScheduleById insertSchedules updateRequestById].

(** The statuses of the requests after the request [requestId] has been
    given the status [status]. *)
Lemma statuses_updated requestId status patch (l : list LeaveRequest.t) :
  (forall q, LeaveRequest.status (patch q) = status) ->
  map LeaveRequest.status
      (map (fun q => if optEqb (LeaveRequest.id q) (Some requestId) then patch q else q) l)
  = map (fun q => if optEqb (LeaveRequest.id q) (Some requestId)
                  then status else LeaveRequest.status q) l.
Proof.
  intros Hpatch. rewrite map_map. apply map_ext. intros q.
  destruct (optEqb _ _); [apply Hpatch | reflexivity].
Qed.

(** A rejection writes to the requests only. *)
Lemma approveRequest_rejection_frame {X} (part : Backend -> X) r requestId :
  (forall id patch b, part (snd (updateRequestById id patch b)) = part b) ->
  preserves part (approveRequest r requestId false).
Proof.
  intros Hpart. unfold approveRequest, showNotification.
  destruct (negb (isSuperAdmin r)); [auto with readonly |].
  apply preserves_tryCatch.
  - repeat first
      [ apply preserves_bind; [| intros ?]
      | apply preserves_request; intros b; apply Hpart
      | apply (readOnly_preserves part), loadData_readOnly
      | solve [auto with readonly] ].
  - intros e. repeat (apply preserves_bind; [| intros ?]); auto with readonly.
Qed.

Lemma approveRequest_rejection_statuses r requestId (w : W) :
  isSuperAdmin r = true -> carriedOut 1 w ->
  map LeaveRequest.status (leave_requests (db (snd (approveRequest r requestId false w))))
  = map (fun q => if optEqb (LeaveRequest.id q) (Some requestId)
                  then "rejected" else LeaveRequest.status q)
        (leave_requests (db w)).
Proof.
  intros Hadmin Hw. apply carriedOut_hd in Hw.
  unfold approveRequest. rewrite Hadmin. cbn [negb]. run.
  rewrite request_resolved by exact Hw. go.
  match goal with
  | |- context [loadData ?r ?w3] =>
      pose proof (loadData_readOnly r w3) as Hload;
      destruct (loadData_total r w3) as ([] & w4 & El);
      rewrite El in Hload |- *
  end.
  cbn [fst snd db showNotification setState setDb leave_requests] in Hload |- *.
  rewrite Hload. cbn [leave_requests]. now apply statuses_updated.
Qed.

(** The tables after an approval whose schedule write is not carried out. *)
Lemma applyApprovedRequest_refused r q (w : W) rep rs :
  replies w = rep :: rs -> rep <> Resolved ->
  exists e w', applyApprovedRequest r q w = (Thrown unit e, w') /\ db w' = db w.
Proof.
  intros E Hrep. unfold applyApprovedRequest.
  destruct rep as [| e | e]; [congruence | |];
    destruct (findSchedule _ _ _); run.
  1,2: rewrite (request_failed _ w e rs E); go; eexists _, _; split; reflexivity.
  1,2: rewrite (request_rejected _ w e rs E); go; eexists _, _; split; reflexivity.
Qed.

Lemma approveRequest_half_done r requestId q (w : W) rep rs :
  isSuperAdmin r = true -> selectedRequest (state r) = Some q ->
  replies w = Resolved :: rep :: rs -> rep <> Resolved ->
  map LeaveRequest.status (leave_requests (db (snd (approveRequest r requestId true w))))
  = map (fun x => if optEqb (LeaveRequest.id x) (Some requestId)
                  then "approved" else LeaveRequest.status x)
        (leave_requests (db w))
  /\ roster_schedules (db (snd (approveRequest r requestId true w))) = roster_schedules (db w)
  /\ roster_versions (db (snd (approveRequest r requestId true w))) = roster_versions (db w)
  /\ notification (ui (snd (approveRequest r requestId true w)))
     = Some {| Notification.type := Roster.error;
               Notification.message := "Failed to process request" |}.
Proof.
  intros Hadmin Hsel E Hrep.
  assert (Hw : hd Resolved (replies w) = Resolved) by now rewrite E.
  unfold approveRequest. rewrite Hadmin, Hsel. cbn [negb]. run.
  match goal with
  | |- context [request ?op ?w0] =>
      destruct (request_resolved_ex op w0 Hw) as (w1 & -> & Hdb1 & Hrep1 & _)
  end.
  go. rewrite E in Hrep1. cbn [tl] in Hrep1.
  destruct (applyApprovedRequest_refused r q w1 rep rs Hrep1 Hrep) as (e & w2 & -> & Hdb2).
  cbn [fst snd db ui consoleError showNotification setState notification setNotification].
  rewrite Hdb2, Hdb1. cbn [updateRequestById snd leave_requests roster_schedules roster_versions].
  repeat split. now apply statuses_updated.
Qed.

End Decisions.

(** X3. A rejection touches the requests only: whatever the data service
    replies, the schedule store and the version ledger are as they were; and
    when the write is carried out for a super administrator, the request
    with that identifier becomes "rejected" and every other request keeps
    its status. *)
Theorem approveRequest_rejection (r : Roster.Render) (requestId : string) (w : Roster.W) :
  Roster.roster_schedules (Remote.db (snd (Roster.approveRequest r requestId false w)))
  = Roster.roster_schedules (Remote.db w)
  /\ Roster.roster_versions (Remote.db (snd (Roster.approveRequest r requestId false w)))
     = Roster.roster_versions (Remote.db w)
  /\ (Roster.isSuperAdmin r = true -> Remote.carriedOut 1 w ->
      map Roster.LeaveRequest.status
          (Roster.leave_requests (Remote.db (snd (Roster.approveRequest r requestId false w))))
      = map (fun q => if Roster.optEqb (Roster.LeaveRequest.id q) (Some requestId)
                      then "rejected" else Roster.LeaveRequest.status q)
            (Roster.leave_requests (Remote.db w))).
Proof.
  split; [| split].
  - apply (approveRequest_rejection_frame Roster.roster_schedules). reflexivity.
  - apply (approveRequest_rejection_frame Roster.roster_versions). reflexivity.
  - apply approveRequest_rejection_statuses.
Qed.

(** Ann rejects Bob's half-day request. *)
Lemma approveRequest_rejection_witness :
  let st := Scenario.april [] [] None in
  let b := Scenario.withRequests [Scenario.halfDay] (Scenario.tables [] []) in
  let w := Scenario.world b [] st in
  map Roster.LeaveRequest.status
      (Roster.leave_requests
         (Remote.db (snd (Roster.approveRequest (Scenario.render st) "q1" false w))))
  = ["rejected"].
Proof.
  intros st b w.
  destruct (approveRequest_rejection (Scenario.render st) "q1" w) as (_ & _ & Hstatus).
  rewrite Hstatus.
  - reflexivity.
  - vm_compute. reflexivity.
  - constructor.
Defined.

(** X4. An approval is not undone when its schedule write fails: if the
    request is updated and the write to the schedule store is then refused
    or rejected, the request stays "approved", the schedule store and the
    ledger are as they were, and the handler reports "Failed to process
    request". *)
Theorem approveRequest_not_atomic (r : Roster.Render) (requestId : string)
  (q : Roster.LeaveRequest.t) (w : Roster.W) (rep : Remote.Reply) (rs : list Remote.Reply) :
  Roster.isSuperAdmin r = true ->
  Roster.selectedRequest (Roster.state r) = Some q ->
  Remote.replies w = Remote.Resolved :: rep :: rs ->
  rep <> Remote.Resolved ->
  map Roster.LeaveRequest.status
      (Roster.leave_requests (Remote.db (snd (Roster.approveRequest r requestId true w))))
  = map (fun x => if Roster.optEqb (Roster.LeaveRequest.id x) (Some requestId)
                  then "approved" else Roster.LeaveRequest.status x)
        (Roster.leave_requests (Remote.db w))
  /\ Roster.roster_schedules (Remote.db (snd (Roster.approveRequest r requestId true w)))
     = Roster.roster_schedules (Remote.db w)
  /\ Roster.roster_versions (Remote.db (snd (Roster.approveRequest r requestId true w)))
     = Roster.roster_versions (Remote.db w)
  /\ Roster.notification (Remote.ui (snd (Roster.approveRequest r requestId true w)))
     = Some {| Roster.Notification.type := Roster.error;
               Roster.Notification.message := "Failed to process request" |}.
Proof. apply approveRequest_half_done. Qed.

(** Ann approves Bob's half-day request and the schedule write is refused. *)
Lemma approveRequest_not_atomic_witness :
  let st := Roster.setSelectedRequest (Some Scenario.halfDay) (Scenario.april [] [] None) in
  let b := Scenario.withRequests [Scenario.halfDay] (Scenario.tables [] []) in
  let w := Scenario.world b [Remote.Resolved; Remote.Failed Scenario.refused] st in
  map Roster.LeaveRequest.status
      (Roster.leave_requests
         (Remote.db (snd (Roster.approveRequest (Scenario.render st) "q1" true w))))
  = ["approved"]
  /\ Roster.roster_schedules
       (Remote.db (snd (Roster.approveRequest (Scenario.render st) "q1" true w))) = [].
Proof.
  intros st b w.
  destruct (approveRequest_not_atomic (Scenario.render st) "q1" Scenario.halfDay w
              (Remote.Failed Scenario.refused) [])
    as (Hstatus & Hschedules & _).
  - vm_compute. reflexivity.
  - reflexivity.
  - reflexivity.
  - discriminate.
  - split; [rewrite Hstatus; reflexivity | rewrite Hschedules; reflexivity].
Defined.

(** ** Filing a request, overtime, deleting a month *)

Section Within.

Import Remote.
Context {B U V : Type}.

Lemma within_total {A} (m : Async B U A) : total m -> total (within (V := V) m).
Proof.
  intros Hm w. unfold within.
  match goal with |- context [m ?w0] => destruct (Hm w0) as (a & w1 & ->) end.
  eexists _, _. reflexivity.
Qed.

Lemma within_preserves {X A} (part : B -> X) (m : Async B U A) :
  preserves part m -> preserves part (within (V := V) m).
Proof.
  intros Hm w. unfold within.
  match goal with |- context [m ?w0] => specialize (Hm w0); destruct (m w0) as [c w1] end.
  exact Hm.
Qed.

End Within.

Section RosterWrites.

Import Remote Roster.

Ltac run := unfold tryCatch, bind, newDateNow; cbn beta iota.
Ltac go :=
  cbn [orThrowLogged orThrow fst snd ret setState
       insertRequest updateOvertime insertOvertime deleteSchedulesBetween deactivateScope].

Ltac frame Hpart :=
  repeat first
    [ apply preserves_bind; [| intros ?]
    | apply preserves_request; intros ?; apply Hpart
    | apply within_preserves
    | apply readOnly_preserves, loadData_readOnly
    | match goal with
      | |- preserves _ (match ?x with _ => _ end) => destruct x
      end
    | solve [unfold showNotification; auto with readonly] ].

(** Filing a request writes to the requests only. *)
Lemma submitRequest_frame {X} (part : Backend -> X) r form :
  (forall q b, part (snd (insertRequest q b)) = part b) ->
  preserves part (submitRequest r form).
Proof.
  intros Hpart. unfold submitRequest.
  destruct (user r); [| auto with readonly].
  destruct (currentStaffProfile r); [| auto with readonly].
  apply preserves_tryCatch; [| intros e]; frame Hpart.
Qed.

Lemma submitRequest_carried_out r form u p (w : World Backend (RosterState * RequestModal)) :
  user r = Some u -> currentStaffProfile r = Some p -> carriedOut 1 w ->
  exists q,
    leave_requests (db (snd (submitRequest r form w))) = (leave_requests (db w) ++ [q])%list
    /\ LeaveRequest.id q = Some (rowId (serial (db w)))
    /\ LeaveRequest.user_id q = StaffProfile.id p
    /\ LeaveRequest.status q = "pending"
    /\ LeaveRequest.request_type q = RequestForm.type form
    /\ LeaveRequest.requested_date q = RequestForm.date form.
Proof.
  intros Hu Hp Hw. apply carriedOut_hd in Hw.
  unfold submitRequest. rewrite Hu, Hp. run.
  rewrite request_resolved by exact Hw. go.
  match goal with
  | |- context [within (loadData ?r) ?w3] =>
      pose proof (within_preserves (V := RequestModal) (fun b => b) (loadData r)
                    (loadData_readOnly r) w3) as Hload;
      destruct (within_total (V := RequestModal) (loadData r) (loadData_total r) w3)
        as ([] & w4 & El);
      rewrite El in Hload |- *
  end.
  cbn [fst snd db setDb insertRequest] in Hload.
  match goal with
  | |- context [within ?m w4] =>
      pose proof (within_preserves (V := RequestModal) (fun b => b) m
                    (preserves_setState _ _) w4) as Hshow;
      destruct (within_total (V := RequestModal) m (showNotification_total _ _) w4)
        as ([] & w5 & Es);
      rewrite Es in Hshow |- *
  end.
  cbn [fst snd] in Hshow |- *.
  rewrite Hshow, Hload. cbn [leave_requests].
  eexists. split; [reflexivity |]. repeat split.
Qed.

Lemma submitRequest_without_profile r form (w : World Backend (RosterState * RequestModal)) :
  currentStaffProfile r = None -> snd (submitRequest r form w) = w.
Proof. intros Hp. unfold submitRequest. rewrite Hp. now destruct (user r). Qed.

End RosterWrites.

(** X5. A request is filed in the name of the signed-in user's own staff
    profile and starts as "pending": when the insertion is carried out the
    requests grow by exactly that row; a user without a staff profile files
    nothing; and whatever the data service replies, the schedule store, the
    ledger and the overtime records are as they were. *)
Theorem submitRequest_files_pending (r : Roster.Render) (form : Roster.RequestForm.t)
  (w : Remote.World Roster.Backend (Roster.RosterState * Roster.RequestModal)) :
  (forall u p,
     Roster.user r = Some u -> Roster.currentStaffProfile r = Some p ->
     Remote.carriedOut 1 w ->
     exists q,
       Roster.leave_requests (Remote.db (snd (Roster.submitRequest r form w)))
       = (Roster.leave_requests (Remote.db w) ++ [q])%list
       /\ Roster.LeaveRequest.id q = Some (Remote.rowId (Roster.serial (Remote.db w)))
       /\ Roster.LeaveRequest.user_id q = Roster.StaffProfile.id p
       /\ Roster.LeaveRequest.status q = "pending"
       /\ Roster.LeaveRequest.request_type q = Roster.RequestForm.type form
       /\ Roster.LeaveRequest.requested_date q = Roster.RequestForm.date form)
  /\ (Roster.currentStaffProfile r = None -> snd (Roster.submitRequest r form w) = w)
  /\ Roster.roster_schedules (Remote.db (snd (Roster.submitRequest r form w)))
     = Roster.roster_schedules (Remote.db w)
  /\ Roster.roster_versions (Remote.db (snd (Roster.submitRequest r form w)))
     = Roster.roster_versions (Remote.db w)
  /\ Roster.overtime_tracking (Remote.db (snd (Roster.submitRequest r form w)))
     = Roster.overtime_tracking (Remote.db w).
Proof.
  split; [| split; [| split; [| split]]].
  - intros u p. apply submitRequest_carried_out.
  - apply submitRequest_without_profile.
  - apply (submitRequest_frame Roster.roster_schedules). reflexivity.
  - apply (submitRequest_frame Roster.roster_versions). reflexivity.
  - apply (submitRequest_frame Roster.overtime_tracking). reflexivity.
Qed.

(** Bob asks for leave on 22 April 2025. *)
Lemma submitRequest_files_pending_witness :
  let st := Scenario.april [] [] None in
  let form := {| Roster.RequestForm.type := "leave"; Roster.RequestForm.date := "2025-04-22";
                 Roster.RequestForm.reason := "family"; Roster.RequestForm.swapPartner := "";
                 Roster.RequestForm.swapDate := "" |} in
  let w := {| Remote.db := Scenario.tables [] []; Remote.replies := [];
              Remote.now := 1744700000000; Remote.console := [];
              Remote.ui := (st, {| Roster.showRequestModal := true;
                                   Roster.requestForm := form |}) |} in
  map (fun q => (Roster.LeaveRequest.user_id q, Roster.LeaveRequest.status q))
      (Roster.leave_requests
         (Remote.db (snd (Roster.submitRequest (Scenario.renderAs "u2" st) form w))))
  = [("s2", "pending")].
Proof.
  intros st form w.
  destruct (submitRequest_files_pending (Scenario.renderAs "u2" st) form w) as (Hfiled & _).
  destruct (Hfiled {| Roster.User.id := "u2" |} Scenario.bob)
    as (q & Hq & _ & Hname & Hstatus & _).
  - reflexivity.
  - vm_compute. reflexivity.
  - constructor.
  - rewrite Hq. unfold w.
    cbn [Remote.db Scenario.tables Roster.leave_requests app map].
    rewrite Hname, Hstatus. reflexivity.
Defined.

Section OvertimeAndDeletion.

Import Remote Roster.

Ltac run := unfold tryCatch, bind, newDateNow; cbn beta iota.
Ltac go :=
  cbn [orThrowLogged orThrow fst snd ret setState
       insertRequest updateOvertime insertOvertime deleteSchedulesBetween deactivateScope].

Ltac frame Hpart :=
  repeat first
    [ apply preserves_bind; [| intros ?]
    | apply preserves_request; intros ?; apply Hpart
    | apply readOnly_preserves, loadData_readOnly
    | match goal with
      | |- preserves _ (match ?x with _ => _ end) => destruct x
      end
    | solve [unfold showNotification; auto with readonly] ].

(** Runs the reload, which never throws and only reads. *)
Ltac reload Hload :=
  match goal with
  | |- context [loadData ?r ?w3] =>
      pose proof (loadData_readOnly r w3) as Hload;
      let w4 := fresh "w" in
      let El := fresh "El" in
      destruct (loadData_total r w3) as ([] & w4 & El);
      rewrite El in Hload |- *
  end.






End OvertimeAndDeletion.



Section Deletion.

Import Remote Roster.

Variable formatDateForIST : JsDate.Instant -> string.

Ltac run := unfold tryCatch, bind, newDateNow; cbn beta iota.
Ltac go :=
  cbn [orThrowLogged orThrow fst snd ret setState
       insertRequest updateOvertime insertOvertime deleteSchedulesBetween deactivateScope].

Ltac frame Hpart :=
  repeat first
    [ apply preserves_bind; [| intros ?]
    | apply preserves_request; intros ?; apply Hpart
    | apply readOnly_preserves, loadData_readOnly
    | match goal with
      | |- preserves _ (match ?x with _ => _ end) => destruct x
      end
    | solve [unfold showNotification; auto with readonly] ].

Ltac reload Hload :=
  match goal with
  | |- context [loadData ?r ?w3] =>
      pose proof (loadData_readOnly r w3) as Hload;
      let w4 := fresh "w" in
      let El := fresh "El" in
      destruct (loadData_total r w3) as ([] & w4 & El);
      rewrite El in Hload |- *
  end.

(** A part of the tables that neither write of the deletion changes is as
    it was after the handler. *)
Lemma deleteRoster_frame {X} (part : Backend -> X) r confirmed :
  (forall lo hi b, part (snd (deleteSchedulesBetween lo hi b)) = part b) ->
  (forall m y b, part (snd (deactivateScope m y b)) = part b) ->
  preserves part (deleteRoster formatDateForIST r confirmed).
Proof.
  intros Hdelete Hflip. unfold deleteRoster.
  destruct (negb (isSuperAdmin r)); [unfold showNotification; auto with readonly |].
  destruct (negb confirmed); [auto with readonly |].
  apply preserves_tryCatch; [| intros e; frame Hdelete].
  apply preserves_bind; [apply preserves_request; intros ?; apply Hdelete | intros ?].
  apply preserves_bind; [auto with readonly | intros ?].
  apply preserves_bind; [| intros ?; frame Hdelete].
  destruct (currentVersion (state r)); frame Hflip.
Qed.

Lemma deactivate_idempotent v : deactivate (deactivate v) = deactivate v.
Proof. reflexivity. Qed.

Lemma deactivateScope_history m y b :
  map deactivate (roster_versions (snd (deactivateScope m y b)))
  = map deactivate (roster_versions b).
Proof.
  cbn [deactivateScope snd setVersions roster_versions]. rewrite map_map.
  apply map_ext. intros v. now destruct (inScope m y v).
Qed.

Lemma deleteRoster_outside r confirmed (w : W) :
  let lo := formatDateForIST (startOfMonth r) in
  let hi := formatDateForIST (endOfMonth r) in
  filter (fun s => negb (dateBetween lo hi (RosterSchedule.date s)))
         (roster_schedules (db (snd (deleteRoster formatDateForIST r confirmed w))))
  = filter (fun s => negb (dateBetween lo hi (RosterSchedule.date s)))
           (roster_schedules (db w)).
Proof.
  intros lo hi. unfold deleteRoster.
  destruct (negb (isSuperAdmin r)); [reflexivity |].
  destruct (negb confirmed); [reflexivity |].
  fold lo hi.
  match goal with
  | |- context [tryCatch ?body ?handler w] =>
      apply (preserves_tryCatch
               (fun b => filter (fun s => negb (dateBetween lo hi (RosterSchedule.date s)))
                                (roster_schedules b)) body handler)
  end.
  - apply preserves_bind;
      [apply preserves_request; intros b; cbn [deleteSchedulesBetween snd roster_schedules];
       apply filter_twice | intros ?].
    apply preserves_bind; [auto with readonly | intros ?].
    apply preserves_bind; [| intros ?].
    + destruct (currentVersion (state r)); [| auto with readonly].
      apply preserves_bind; [| intros ?; auto with readonly].
      apply preserves_request. reflexivity.
    + apply preserves_bind; [| intros ?; unfold showNotification; auto with readonly].
      apply (readOnly_preserves
               (fun b => filter (fun s => negb (dateBetween lo hi (RosterSchedule.date s)))
                                (roster_schedules b))), loadData_readOnly.
  - intros e. apply preserves_bind; [| intros ?]; unfold showNotification; auto with readonly.
Qed.

Lemma deleteRoster_no_new_rows r confirmed (w : W) s :
  In s (roster_schedules (db (snd (deleteRoster formatDateForIST r confirmed w)))) ->
  In s (roster_schedules (db w)).
Proof.
  set (R := fun b b' : Backend => incl (roster_schedules b') (roster_schedules b)).
  assert (R_refl : forall b, R b b) by (intros b; apply incl_refl).
  assert (R_trans : forall a b c, R a b -> R b c -> R a c)
    by (intros a b c Hab Hbc; exact (incl_tran Hbc Hab)).
  revert s. change (R (db w) (db (snd (deleteRoster formatDateForIST r confirmed w)))).
  revert w. change (evolves R (deleteRoster formatDateForIST r confirmed)).
  unfold deleteRoster, showNotification.
  destruct (negb (isSuperAdmin r)); [now apply evolves_setState |].
  destruct (negb confirmed); [now apply evolves_ret |].
  apply evolves_tryCatch; auto.
  - repeat first
      [ apply evolves_bind; [assumption | | intros ?]
      | apply evolves_request;
        [assumption
        | intros b; first [apply incl_filter | apply incl_refl]]
      | apply evolves_readOnly; [assumption | apply loadData_readOnly]
      | apply evolves_orThrow; assumption
      | apply evolves_ret; assumption
      | apply evolves_setState; assumption
      | match goal with
        | |- evolves _ (match ?x with _ => _ end) => destruct x
        end ].
  - intros e. apply evolves_bind; auto; [now apply evolves_consoleError |].
    intros ?. now apply evolves_setState.
Qed.

Ltac carried Hw :=
  match goal with
  | |- context [request ?op ?w0] =>
      let w1 := fresh "w" in
      let Hdb := fresh "Hdb" in
      let Hrep := fresh "Hrep" in
      let Hui := fresh "Hui" in
      destruct (request_resolved_ex op w0 Hw) as (w1 & -> & Hdb & Hrep & Hui)
  end.

Lemma deleteRoster_carried_out r (w : W) :
  isSuperAdmin r = true -> carriedOut 2 w ->
  roster_schedules (db (snd (deleteRoster formatDateForIST r true w)))
  = filter (fun s => negb (dateBetween (formatDateForIST (startOfMonth r))
                                       (formatDateForIST (endOfMonth r))
                                       (RosterSchedule.date s)))
           (roster_schedules (db w))
  /\ roster_versions (db (snd (deleteRoster formatDateForIST r true w)))
     = match currentVersion (state r) with
       | Some _ => map (fun v => if inScope (scopeMonth r) (scopeYear r) v
                                 then deactivate v else v)
                       (roster_versions (db w))
       | None => roster_versions (db w)
       end
  /\ notification (ui (snd (deleteRoster formatDateForIST r true w)))
     = Some {| Notification.type := success;
               Notification.message := "Roster deleted successfully" |}.
Proof.
  intros Hadmin Hw.
  pose proof (carriedOut_hd _ _ Hw) as Hw1. apply carriedOut_tl, carriedOut_hd in Hw.
  unfold deleteRoster. rewrite Hadmin. cbn [negb]. run.
  carried Hw1. go.
  destruct (currentVersion (state r)) as [cv |].
  - assert (Hw2 : hd Resolved (replies w0) = Resolved) by (rewrite Hrep; exact Hw).
    carried Hw2. go. reload Hload.
    cbn [fst snd db ui showNotification setState notification setNotification] in Hload |- *.
    rewrite Hload, Hdb0, Hdb. repeat split.
  - go. reload Hload.
    cbn [fst snd db ui showNotification setState notification setNotification] in Hload |- *.
    rewrite Hload, Hdb. repeat split.
Qed.

Lemma activeIn_deactivated_scope m y vs :
  activeIn m y (map (fun v => if inScope m y v then deactivate v else v) vs) = [].
Proof.
  unfold activeIn. induction vs as [|v vs IH]; [reflexivity |]. cbn [map filter].
  destruct (inScope m y v) eqn:E.
  - rewrite inScope_deactivate, E. cbn. exact IH.
  - rewrite E. cbn. exact IH.
Qed.

(** The ledger update of the deletion is not checked: when the schedules
    are deleted and the update is then refused or rejected, the ledger is
    as it was. *)
Lemma deleteRoster_half_done r cv (w : W) rep rs :
  isSuperAdmin r = true -> currentVersion (state r) = Some cv ->
  replies w = Resolved :: rep :: rs -> rep <> Resolved ->
  roster_schedules (db (snd (deleteRoster formatDateForIST r true w)))
  = filter (fun s => negb (dateBetween (formatDateForIST (startOfMonth r))
                                       (formatDateForIST (endOfMonth r))
                                       (RosterSchedule.date s)))
           (roster_schedules (db w))
  /\ roster_versions (db (snd (deleteRoster formatDateForIST r true w)))
     = roster_versions (db w)
  /\ Notification.type
       (match notification (ui (snd (deleteRoster formatDateForIST r true w))) with
        | Some n => n
        | None => {| Notification.type := warning; Notification.message := "" |}
        end)
     = match rep with Rejected _ => Roster.error | _ => success end.
Proof.
  intros Hadmin Hcv E Hne.
  assert (Hw1 : hd Resolved (replies w) = Resolved) by now rewrite E.
  unfold deleteRoster. rewrite Hadmin, Hcv. cbn [negb]. run.
  carried Hw1. go. rewrite E in Hrep. cbn [tl] in Hrep.
  destruct rep as [| e | e]; [congruence | |].
  - rewrite (request_failed _ w0 e rs Hrep). go. reload Hload.
    cbn [fst snd db ui showNotification setState notification setNotification popReply]
      in Hload |- *.
    rewrite Hload, Hdb. repeat split.
  - rewrite (request_rejected _ w0 e rs Hrep). go.
    cbn [fst snd db ui showNotification setState consoleError notification setNotification
         popReply].
    rewrite Hdb. repeat split.
Qed.

End Deletion.

(** X7. Deleting a month never removes a version from the ledger and never
    adds or changes a schedule row, whatever the data service replies and
    whoever asks: the ledger after it is the ledger before it up to the
    active flags, every schedule row after it was there before, the rows
    outside the formatted bounds of the month are all still there, and the
    requests and the overtime records are as they were. *)
Theorem deleteRoster_keeps_history (formatDateForIST : JsDate.Instant -> string)
  (r : Roster.Render) (confirmed : bool) (w : Roster.W) :
  let w' := snd (Roster.deleteRoster formatDateForIST r confirmed w) in
  let outside (s : Roster.RosterSchedule.t) :=
    negb (Roster.dateBetween (formatDateForIST (Roster.startOfMonth r))
                             (formatDateForIST (Roster.endOfMonth r))
                             (Roster.RosterSchedule.date s)) in
  map Roster.deactivate (Roster.roster_versions (Remote.db w'))
  = map Roster.deactivate (Roster.roster_versions (Remote.db w))
  /\ (forall s, In s (Roster.roster_schedules (Remote.db w')) ->
                In s (Roster.roster_schedules (Remote.db w)))
  /\ filter outside (Roster.roster_schedules (Remote.db w'))
     = filter outside (Roster.roster_schedules (Remote.db w))
  /\ Roster.leave_requests (Remote.db w') = Roster.leave_requests (Remote.db w)
  /\ Roster.overtime_tracking (Remote.db w') = Roster.overtime_tracking (Remote.db w).
Proof.
  intros w' outside. subst w'. split; [| split; [| split; [| split]]].
  - apply (deleteRoster_frame formatDateForIST
             (fun b => map Roster.deactivate (Roster.roster_versions b))).
    + reflexivity.
    + apply deactivateScope_history.
  - apply deleteRoster_no_new_rows.
  - apply deleteRoster_outside.
  - apply (deleteRoster_frame formatDateForIST Roster.leave_requests); reflexivity.
  - apply (deleteRoster_frame formatDateForIST Roster.overtime_tracking); reflexivity.
Qed.

(** X8. A deletion that a super administrator confirms and whose two round
    trips are carried out removes exactly the schedule rows dated within
    the formatted bounds of the displayed month, leaves that month without
    an active version when the render holds a current version (and leaves
    the ledger untouched when it holds none), and reports success. *)
Theorem deleteRoster_carried_out_effect (formatDateForIST : JsDate.Instant -> string)
  (r : Roster.Render) (w : Roster.W) :
  Roster.isSuperAdmin r = true -> Remote.carriedOut 2 w ->
  let w' := snd (Roster.deleteRoster formatDateForIST r true w) in
  Roster.roster_schedules (Remote.db w')
  = filter (fun s => negb (Roster.dateBetween (formatDateForIST (Roster.startOfMonth r))
                                              (formatDateForIST (Roster.endOfMonth r))
                                              (Roster.RosterSchedule.date s)))
           (Roster.roster_schedules (Remote.db w))
  /\ (Roster.currentVersion (Roster.state r) <> None ->
      Roster.activeIn (Roster.scopeMonth r) (Roster.scopeYear r)
                      (Roster.roster_versions (Remote.db w')) = [])
  /\ (Roster.currentVersion (Roster.state r) = None ->
      Roster.roster_versions (Remote.db w') = Roster.roster_versions (Remote.db w))
  /\ Roster.notification (Remote.ui w')
     = Some {| Roster.Notification.type := Roster.success;
               Roster.Notification.message := "Roster deleted successfully" |}.
Proof.
  intros Hadmin Hw w'. subst w'.
  destruct (deleteRoster_carried_out formatDateForIST r w Hadmin Hw) as (Hs & Hv & Hn).
  split; [exact Hs |]. split; [| split; [| exact Hn]].
  - intros Hcv. rewrite Hv. destruct (Roster.currentVersion (Roster.state r)); [| congruence].
    apply activeIn_deactivated_scope.
  - intros Hcv. rewrite Hv, Hcv. reflexivity.
Qed.

(** Ann deletes April 2025, which has two shifts and the active version
    v.02; the shift of 2 May stays, the versions stay and none is active. *)
Lemma deleteRoster_carried_out_effect_witness :
  let v1 := Scenario.version "a" "v.01" 1 false in
  let v2 := Scenario.version "b" "v.02" 2 true in
  let rows := [Scenario.shift "7" "s2" "2025-04-10" "D";
               Scenario.shift "8" "s3" "2025-04-30" "RD";
               Scenario.shift "9" "s2" "2025-05-02" "D"] in
  let st := Scenario.april rows [v2; v1] (Some v2) in
  let w := Scenario.world (Scenario.tables rows [v1; v2]) [] st in
  let w' := snd (Roster.deleteRoster Scenario.localDate (Scenario.render st) true w) in
  map Roster.RosterSchedule.date (Roster.roster_schedules (Remote.db w')) = ["2025-05-02"]
  /\ Roster.activeIn 4 2025 (Roster.roster_versions (Remote.db w')) = [].
Proof.
  intros v1 v2 rows st w w'.
  destruct (deleteRoster_carried_out_effect Scenario.localDate (Scenario.render st) w)
    as (Hrows & Hnone & _).
  - vm_compute. reflexivity.
  - constructor.
  - split.
    + subst w'. rewrite Hrows. vm_compute. reflexivity.
    + change 4 with (Roster.scopeMonth (Scenario.render st)).
      change 2025 with (Roster.scopeYear (Scenario.render st)).
      apply Hnone. discriminate.
Defined.

(** X9. The two writes of a deletion are separate and the second is not
    checked: when the schedules are deleted and the ledger update is then
    not carried out, the schedule rows are gone and the ledger is as it was
    (the month keeps its active version); the handler reports success when
    the update was refused and an error when it was rejected. *)
Theorem deleteRoster_ledger_unchecked (formatDateForIST : JsDate.Instant -> string)
  (r : Roster.Render) (cv : Roster.RosterVersion.t) (w : Roster.W)
  (rep : Remote.Reply) (rs : list Remote.Reply) :
  Roster.isSuperAdmin r = true ->
  Roster.currentVersion (Roster.state r) = Some cv ->
  Remote.replies w = Remote.Resolved :: rep :: rs ->
  rep <> Remote.Resolved ->
  let w' := snd (Roster.deleteRoster formatDateForIST r true w) in
  Roster.roster_schedules (Remote.db w')
  = filter (fun s => negb (Roster.dateBetween (formatDateForIST (Roster.startOfMonth r))
                                              (formatDateForIST (Roster.endOfMonth r))
                                              (Roster.RosterSchedule.date s)))
           (Roster.roster_schedules (Remote.db w))
  /\ Roster.roster_versions (Remote.db w') = Roster.roster_versions (Remote.db w)
  /\ exists n,
       Roster.notification (Remote.ui w') = Some n
       /\ Roster.Notification.type n
          = match rep with Remote.Rejected _ => Roster.error | _ => Roster.success end.
Proof.
  intros Hadmin Hcv E Hne w'. subst w'.
  destruct (deleteRoster_half_done formatDateForIST r cv w rep rs Hadmin Hcv E Hne)
    as (Hs & Hv & Hn).
  split; [exact Hs |]. split; [exact Hv |].
  destruct (Roster.notification _) as [n |] eqn:En.
  - exists n. split; [reflexivity | exact Hn].
  - cbn in Hn. destruct rep; discriminate.
Qed.

(** Ann deletes April 2025 and the ledger update is refused. *)
Lemma deleteRoster_ledger_unchecked_witness :
  let v2 := Scenario.version "b" "v.02" 2 true in
  let rows := [Scenario.shift "7" "s2" "2025-04-10" "D"] in
  let st := Scenario.april rows [v2] (Some v2) in
  let w := Scenario.world (Scenario.tables rows [v2])
             [Remote.Resolved; Remote.Failed Scenario.refused] st in
  let w' := snd (Roster.deleteRoster Scenario.localDate (Scenario.render st) true w) in
  Roster.roster_versions (Remote.db w') = [v2].
Proof.
  intros v2 rows st w w'.
  destruct (deleteRoster_ledger_unchecked Scenario.localDate (Scenario.render st) v2 w
              (Remote.Failed Scenario.refused) [])
    as (_ & Hledger & _).
  - vm_compute. reflexivity.
  - reflexivity.
  - reflexivity.
  - discriminate.
  - exact Hledger.
Defined.

(** ** A cell of the grid: edit, save, look up *)

Section Cell.

Import Remote Roster.

Variable formatDateForIST : JsDate.Instant -> string.

Ltac run := unfold tryCatch, bind, newDateNow; cbn beta iota.
Ltac go :=
  cbn [orThrowLogged orThrow fst snd ret setState
       updateScheduleById insertSchedules updateRequestById].

(** The reload of the displayed month commutes with a change of the store
    that keeps the date of every row. *)
Lemma querySchedules_map r b b' (f : RosterSchedule.t -> RosterSchedule.t) :
  roster_schedules b' = map f (roster_schedules b) ->
  (forall s, In s (roster_schedules b) -> RosterSchedule.date (f s) = RosterSchedule.date s) ->
  querySchedules r b' = map f (querySchedules r b).
Proof.
  intros E Hdate. unfold querySchedules. rewrite E.
  rewrite filter_map_same by (intros s Hs; now rewrite Hdate).
  apply orderBy_map. intros x y Hx Hy.
  apply filter_In in Hx, Hy. now rewrite !Hdate by tauto.
Qed.

Lemma keyedSchedules_injective l x y :
  NoDup (map RosterSchedule.id l) -> In x l -> In y l ->
  RosterSchedule.id x = RosterSchedule.id y -> x = y.
Proof.
  induction l as [|a l IH]; simpl; [tauto |].
  intros Hnd Hx Hy E. inversion Hnd as [|? ? Hnotin Hnd']; subst.
  destruct Hx as [-> | Hx], Hy as [-> | Hy]; auto.
  - exfalso. apply Hnotin. rewrite E. now apply in_map.
  - exfalso. apply Hnotin. rewrite <- E. now apply in_map.
Qed.

Lemma findSchedule_key l profileId date s :
  findSchedule l profileId date = Some s ->
  In s l /\ RosterSchedule.profile_id s = profileId /\ RosterSchedule.date s = date.
Proof.
  unfold findSchedule. intros H. apply find_some in H. destruct H as [Hin Hp].
  apply andb_true_iff in Hp. destruct Hp as [Hp Hd].
  apply String.eqb_eq in Hp, Hd. auto.
Qed.

Lemma querySchedules_In r b s :
  In s (querySchedules r b) <->
  In s (roster_schedules b)
  /\ dateBetween (JsDate.toISODate (startOfMonth r)) (JsDate.toISODate (endOfMonth r))
                 (RosterSchedule.date s) = true.
Proof. unfold querySchedules. rewrite orderBy_In, filter_In. tauto. Qed.

(** Looking up a pair after the row found for it has been overwritten. *)
Lemma lookup_after_update r b b' profileId date existing patch :
  keyedSchedules (roster_schedules b) ->
  findSchedule (querySchedules r b) profileId date = Some existing ->
  (forall s, RosterSchedule.profile_id (patch s) = profileId
             /\ RosterSchedule.date (patch s) = date) ->
  roster_schedules b'
  = map (fun s => if optEqb (RosterSchedule.id s) (RosterSchedule.id existing)
                  then patch s else s) (roster_schedules b) ->
  findSchedule (querySchedules r b') profileId date = Some (patch existing).
Proof.
  intros [Hnd Hid] Hfind Hpatch E.
  destruct (findSchedule_key _ _ _ _ Hfind) as (Hin & Hp & Hd).
  apply querySchedules_In in Hin. destruct Hin as [Hin _].
  set (f := fun s => if optEqb (RosterSchedule.id s) (RosterSchedule.id existing)
                     then patch s else s) in *.
  assert (Hsame : forall s, In s (roster_schedules b) ->
            RosterSchedule.profile_id (f s) = RosterSchedule.profile_id s
            /\ RosterSchedule.date (f s) = RosterSchedule.date s).
  { intros s Hs. unfold f. destruct (optEqb _ _) eqn:Ek; [| auto].
    apply optEqb_true in Ek.
    rewrite (keyedSchedules_injective _ s existing Hnd Hs Hin Ek).
    destruct (Hpatch existing). split; congruence. }
  rewrite (querySchedules_map r b b' f E) by (intros; now apply Hsame).
  unfold findSchedule in *. rewrite find_map_same.
  - rewrite Hfind. cbn [option_map]. unfold f.
    rewrite optEqb_refl; [reflexivity |].
    rewrite Forall_forall in Hid. now apply Hid.
  - intros s Hs. apply querySchedules_In in Hs. destruct Hs as [Hs _].
    destruct (Hsame s Hs) as [-> ->]. reflexivity.
Qed.

(** Looking up a pair after a row has been appended for it, when the
    displayed month held none. *)
Lemma lookup_after_insert r b b' profileId date row :
  findSchedule (querySchedules r b) profileId date = None ->
  dateBetween (JsDate.toISODate (startOfMonth r)) (JsDate.toISODate (endOfMonth r)) date = true ->
  RosterSchedule.profile_id row = profileId -> RosterSchedule.date row = date ->
  roster_schedules b' = (roster_schedules b ++ [row])%list ->
  findSchedule (querySchedules r b') profileId date = Some row.
Proof.
  intros Hnone Hrange Hp Hd E.
  assert (Hrow : In row (querySchedules r b')).
  { apply querySchedules_In. rewrite E, Hd. split; [| exact Hrange].
    apply in_or_app. right. simpl. auto. }
  destruct (findSchedule (querySchedules r b') profileId date) as [y |] eqn:Ey.
  - destruct (findSchedule_key _ _ _ _ Ey) as (Hy & Hyp & Hyd).
    apply querySchedules_In in Hy. destruct Hy as [Hy Hyr]. rewrite E in Hy.
    apply in_app_or in Hy. destruct Hy as [Hy | [-> | []]]; [| reflexivity].
    exfalso. unfold findSchedule in Hnone.
    assert (Hq : In y (querySchedules r b)) by (apply querySchedules_In; auto).
    pose proof (find_none _ _ Hnone y Hq) as H. cbn beta in H.
    now rewrite Hyp, Hyd, !String.eqb_refl in H.
  - exfalso. unfold findSchedule in Ey. pose proof (find_none _ _ Ey row Hrow) as H.
    cbn beta in H. now rewrite Hp, Hd, !String.eqb_refl in H.
Qed.

Lemma createNewVersion_run r editLog (w : W) :
  answers w ->
  exists w', createNewVersion r editLog w = (Normal unit tt, w')
             /\ answers w' /\ roster_schedules (db w') = roster_schedules (db w)
             /\ ui w' = ui w.
Proof.
  intros Hw. unfold createNewVersion. run.
  destruct (currentVersion (state r)) as [cv |].
  - destruct (request_answers (deactivateVersionById (RosterVersion.id cv)) w Hw)
      as (w1 & -> & Hdb1 & Hui1 & _ & _ & Hw1).
    cbn [ret]. 
    match goal with
    | |- context [request ?op w1] =>
        destruct (request_answers op w1 Hw1) as (w2 & -> & Hdb2 & Hui2 & _ & _ & Hw2)
    end.
    cbn [insertVersion fst orThrow ret]. exists w2. repeat split; auto.
    + rewrite Hdb2, Hdb1. reflexivity.
    + congruence.
  - cbn [ret].
    match goal with
    | |- context [request ?op w] =>
        destruct (request_answers op w Hw) as (w2 & -> & Hdb2 & Hui2 & _ & _ & Hw2)
    end.
    cbn [insertVersion fst orThrow ret]. exists w2. repeat split; auto.
    rewrite Hdb2. reflexivity.
Qed.

(** What the render after a saved shift holds: the displayed month of a
    store in which the row the render held for the pair is overwritten, or,
    when it held none, a row is appended. *)
Lemma saveShift_answers r (w : W) shiftCode overtimeHours sel u :
  selectedEdit (state r) = Some sel -> user r = Some u -> isAdmin r = true ->
  answers w ->
  exists b' stamp,
    schedules (ui (snd (saveShift r shiftCode overtimeHours w))) = querySchedules r b'
    /\ roster_schedules b'
       = match findSchedule (schedules (state r)) (SelectedEdit.profileId sel)
                            (SelectedEdit.date sel) with
         | Some existing =>
             map (fun s =>
                    if optEqb (RosterSchedule.id s) (RosterSchedule.id existing)
                    then {| RosterSchedule.id := RosterSchedule.id s;
                            RosterSchedule.profile_id := SelectedEdit.profileId sel;
                            RosterSchedule.date := SelectedEdit.date sel;
                            RosterSchedule.shift_code := shiftCode;
                            RosterSchedule.overtime_hours := Some overtimeHours;
                            RosterSchedule.status := "confirmed";
                            RosterSchedule.created_at := RosterSchedule.created_at s;
                            RosterSchedule.updated_at := Some stamp |}
                    else s)
                 (roster_schedules (db w))
         | None =>
             (roster_schedules (db w)
              ++ [ {| RosterSchedule.id := Some (rowId (serial (db w)));
                      RosterSchedule.profile_id := SelectedEdit.profileId sel;
                      RosterSchedule.date := SelectedEdit.date sel;
                      RosterSchedule.shift_code := shiftCode;
                      RosterSchedule.overtime_hours := Some overtimeHours;
                      RosterSchedule.status := "confirmed";
                      RosterSchedule.created_at := Some stamp;
                      RosterSchedule.updated_at := Some stamp |} ])%list
         end.
Proof.
  intros Hsel Hu Hadmin Hw. unfold saveShift. rewrite Hsel, Hu, Hadmin.
  destruct (findSchedule _ _ _) as [existing |]; run;
    match goal with
    | |- context [request ?op w] =>
        destruct (request_answers op w Hw) as (w1 & -> & Hdb1 & Hui1 & _ & _ & Hw1)
    end;
    go;
    match goal with
    | |- context [createNewVersion ?r ?l ?w'] =>
        destruct (createNewVersion_run r l w' Hw1) as (w2 & -> & Hw2 & Hdb2 & Hui2)
    end;
    go;
    match goal with
    | |- context [loadData r ?w3] =>
        assert (Hw3 : answers w3) by exact Hw2;
        destruct (loadData_answers r w3 Hw3) as (Hs & _ & _);
        destruct (loadData_total r w3) as ([] & w4 & El);
        rewrite El in Hs |- *
    end;
    cbn [fst snd ui db showNotification setState schedules setNotification] in Hs |- *;
    exists (db w2), (JsDate.toISOString (now w));
    (split; [exact Hs |]); rewrite Hdb2, Hdb1; reflexivity.
Qed.

Lemma querySchedules_ext r r' b :
  tz r' = tz r -> currentDate (state r') = currentDate (state r) ->
  querySchedules r' b = querySchedules r b.
Proof.
  intros Htz Hdate. unfold querySchedules, startOfMonth, endOfMonth.
  now rewrite Htz, Hdate.
Qed.

Lemma saved_cell r (w : W) profileId day shiftCode overtimeHours u :
  user r = Some u -> isAdmin r = true -> ui w = state r -> answers w ->
  keyedSchedules (roster_schedules (db w)) ->
  schedules (state r) = querySchedules r (db w) ->
  dateBetween (JsDate.toISODate (startOfMonth r)) (JsDate.toISODate (endOfMonth r))
              (formatDateForIST day) = true ->
  let opened := snd (handleEditShift formatDateForIST r profileId day w) in
  let r1 := {| user := user r; tz := tz r; state := ui opened |} in
  let saved := snd (saveShift r1 shiftCode overtimeHours opened) in
  let r2 := {| user := user r; tz := tz r; state := ui saved |} in
  exists s,
    getScheduleForDate formatDateForIST r2 profileId day = Some s
    /\ RosterSchedule.shift_code s = shiftCode
    /\ RosterSchedule.overtime_hours s = Some overtimeHours
    /\ RosterSchedule.status s = "confirmed".
Proof.
  intros Hu Hadmin Hui Hw Hkey Hsync Hrange opened r1 saved r2.
  assert (Eopened : opened
                    = {| db := db w; replies := replies w; now := now w; console := console w;
                         ui := setShowEditModal true
                                 (setSelectedEdit
                                    (Some {| SelectedEdit.profileId := profileId;
                                             SelectedEdit.date := formatDateForIST day |})
                                    (ui w)) |}).
  { subst opened. unfold handleEditShift. rewrite Hadmin. reflexivity. }
  assert (Hsel1 : selectedEdit (state r1)
                  = Some {| SelectedEdit.profileId := profileId;
                            SelectedEdit.date := formatDateForIST day |}).
  { subst r1. cbn [state]. rewrite Eopened. reflexivity. }
  assert (Hadmin1 : isAdmin r1 = true).
  { rewrite <- Hadmin. subst r1. rewrite Eopened.
    unfold isAdmin, isSuperAdmin, currentStaffProfile, getCurrentUserStaffProfile.
    cbn [user state ui staffProfiles setShowEditModal setSelectedEdit].
    now rewrite Hui. }
  assert (Hw1 : answers opened) by (rewrite Eopened; exact Hw).
  assert (Hq : forall b, querySchedules r1 b = querySchedules r b).
  { intros b. apply querySchedules_ext; [reflexivity |].
    subst r1. rewrite Eopened. cbn [state ui currentDate setShowEditModal setSelectedEdit].
    now rewrite Hui. }
  assert (Hsched1 : schedules (state r1) = querySchedules r (db w)).
  { subst r1. rewrite Eopened. cbn [state ui schedules setShowEditModal setSelectedEdit].
    now rewrite Hui. }
  destruct (saveShift_answers r1 opened shiftCode overtimeHours _ u Hsel1 Hu Hadmin1 Hw1)
    as (b' & stamp & Hloaded & Hstore).
  fold saved in Hloaded. rewrite Hq in Hloaded.
  unfold getScheduleForDate. subst r2. cbn [state]. rewrite Hloaded.
  cbn [SelectedEdit.profileId SelectedEdit.date] in Hstore. rewrite Hsched1 in Hstore.
  assert (Edb : db opened = db w) by (rewrite Eopened; reflexivity).
  rewrite Edb in Hstore.
  destruct (findSchedule (querySchedules r (db w)) profileId (formatDateForIST day))
    as [existing |] eqn:Efind.
  - eexists. split.
    + eapply (lookup_after_update r (db w) b' profileId (formatDateForIST day) existing
                (fun s => {| RosterSchedule.id := RosterSchedule.id s;
                             RosterSchedule.profile_id := profileId;
                             RosterSchedule.date := formatDateForIST day;
                             RosterSchedule.shift_code := shiftCode;
                             RosterSchedule.overtime_hours := Some overtimeHours;
                             RosterSchedule.status := "confirmed";
                             RosterSchedule.created_at := RosterSchedule.created_at s;
                             RosterSchedule.updated_at := Some stamp |}));
        auto.
    + repeat split.
  - eexists. split.
    + eapply (lookup_after_insert r (db w) b' profileId (formatDateForIST day)); eauto;
        reflexivity.
    + repeat split.
Qed.

End Cell.

(** X10. What an administrator saves in a cell of the grid is what the
    cell shows afterwards.  The render holds the displayed month of the
    store, whose rows have distinct identifiers; the administrator opens the
    cell of a staff member and a day whose formatted date lies in the range
    the reload asks for, and saves a shift; every round trip is carried
    out.  Then the next render finds a row for that cell, with the saved
    shift code and overtime hours, whether the cell had a row before or
    not, and for any date formatter. *)
Theorem saveShift_then_lookup (formatDateForIST : JsDate.Instant -> string)
  (r : Roster.Render) (w : Roster.W) (profileId : string) (day : JsDate.Instant)
  (shiftCode : string) (overtimeHours : Z) (u : Roster.User.t) :
  Roster.user r = Some u -> Roster.isAdmin r = true ->
  Remote.ui w = Roster.state r -> Remote.answers w ->
  Roster.keyedSchedules (Roster.roster_schedules (Remote.db w)) ->
  Roster.schedules (Roster.state r) = Roster.querySchedules r (Remote.db w) ->
  Roster.dateBetween (JsDate.toISODate (Roster.startOfMonth r))
                     (JsDate.toISODate (Roster.endOfMonth r))
                     (formatDateForIST day) = true ->
  let opened := snd (Roster.handleEditShift formatDateForIST r profileId day w) in
  let r1 := {| Roster.user := Roster.user r; Roster.tz := Roster.tz r;
               Roster.state := Remote.ui opened |} in
  let saved := snd (Roster.saveShift r1 shiftCode overtimeHours opened) in
  let r2 := {| Roster.user := Roster.user r; Roster.tz := Roster.tz r;
               Roster.state := Remote.ui saved |} in
  exists s,
    Roster.getScheduleForDate formatDateForIST r2 profileId day = Some s
    /\ Roster.RosterSchedule.shift_code s = shiftCode
    /\ Roster.RosterSchedule.overtime_hours s = Some overtimeHours
    /\ Roster.RosterSchedule.status s = "confirmed".
Proof. apply saved_cell. Qed.

(** Ann changes Bob's day shift of 10 April 2025 to a rest day. *)
Lemma saveShift_then_lookup_witness :
  let rows := [Scenario.shift "7" "s2" "2025-04-10" "D";
               Scenario.shift "8" "s3" "2025-04-10" "D"] in
  let st := Scenario.april rows [] None in
  let r := Scenario.render st in
  let w := Scenario.world (Scenario.tables rows []) [] st in
  let day := JsDate.newDate 330 2025 3 10 in
  let opened := snd (Roster.handleEditShift Scenario.localDate r "s2" day w) in
  let r1 := {| Roster.user := Roster.user r; Roster.tz := Roster.tz r;
               Roster.state := Remote.ui opened |} in
  let saved := snd (Roster.saveShift r1 "RD" 0 opened) in
  let r2 := {| Roster.user := Roster.user r; Roster.tz := Roster.tz r;
               Roster.state := Remote.ui saved |} in
  exists s,
    Roster.getScheduleForDate Scenario.localDate r2 "s2" day = Some s
    /\ Roster.RosterSchedule.shift_code s = "RD"
    /\ Roster.RosterSchedule.overtime_hours s = Some 0
    /\ Roster.RosterSchedule.status s = "confirmed".
Proof.
  intros rows st r w day.
  apply (saveShift_then_lookup Scenario.localDate r w "s2" day "RD" 0
           {| Roster.User.id := "u1" |}).
  - reflexivity.
  - vm_compute. reflexivity.
  - reflexivity.
  - constructor.
  - split; [repeat constructor; simpl; intuition discriminate
           | repeat constructor; discriminate].
  - vm_compute. reflexivity.
  - vm_compute. reflexivity.
Defined.

(** ** Version numbers that cannot be read *)

(** X11. When the label of the latest version of the displayed month is
    not empty and has no number after its prefix, the next version number
    is "v.NaN", which has no number either: from then on every record-edit
    of the month is numbered "v.NaN". *)
Theorem getNextVersionNumber_unreadable (r : Roster.Render)
  (latest : Roster.RosterVersion.t) (rest : list Roster.RosterVersion.t) :
  Roster.versions (Roster.state r) = latest :: rest ->
  Roster.RosterVersion.version_number latest <> "" ->
  Roster.versionSuffix (Roster.RosterVersion.version_number latest) = None ->
  Roster.getNextVersionNumber r = "v.NaN"
  /\ Roster.versionSuffix (Roster.getNextVersionNumber r) = None.
Proof.
  intros Hv Hne Hnone.
  assert (E : Roster.getNextVersionNumber r = "v.NaN").
  { unfold Roster.getNextVersionNumber. rewrite Hv.
    unfold Js.orElse, Js.truthy.
    destruct (String.eqb_spec (Roster.RosterVersion.version_number latest) "");
      [contradiction |].
    cbn [negb]. unfold Roster.versionSuffix in Hnone. rewrite Hnone. reflexivity. }
  split; [exact E |]. rewrite E. reflexivity.
Qed.

(** The latest version of April 2025 is labelled "draft". *)
Lemma getNextVersionNumber_unreadable_witness :
  let v := Scenario.version "a" "draft" 1 true in
  Roster.getNextVersionNumber (Scenario.render (Scenario.april [] [v] (Some v))) = "v.NaN".
Proof.
  intros v.
  destruct (getNextVersionNumber_unreadable
              (Scenario.render (Scenario.april [] [v] (Some v))) v [])
    as [E _].
  - reflexivity.
  - discriminate.
  - reflexivity.
  - exact E.
Defined.

(** ** Ticking a checklist item *)

Section Ticking.

Import Remote Checklist.

Ltac run := unfold tryCatch, bind, newDateNow; cbn beta iota.

Lemma loadInstances_detached_answers (w : World Backend ChecklistState) :
  answers w -> answers (snd (detached loadInstances w)).
Proof.
  intros Hw. unfold detached, loadInstances. run.
  match goal with
  | |- context [request ?op w] =>
      destruct (request_answers op w Hw) as (w1 & -> & _ & _ & _ & _ & Hw1)
  end.
  exact Hw1.
Qed.

(** The tables after a toggle whose round trips are carried out. *)
Lemma handleToggleItem_answers u item (w : World Backend ChecklistState) :
  answers w ->
  answers (snd (handleToggleItem (Some u) item w))
  /\ checklist_instance_items (db (snd (handleToggleItem (Some u) item w)))
     = map (fun it =>
              if (ChecklistInstanceItem.id it =? ChecklistInstanceItem.id item)%string
              then updateData (ChecklistInstanceItem.is_completed item) (User.id u)
                              (JsDate.toISOString (now w)) it
              else it)
           (checklist_instance_items (db w)).
Proof.
  intros Hw. unfold handleToggleItem. run.
  match goal with
  | |- context [request ?op w] =>
      destruct (request_answers op w Hw) as (w1 & -> & Hdb1 & _ & _ & _ & Hw1)
  end.
  cbn [updateItemById fst snd orThrow ret].
  pose proof (loadInstances_detached_answers w1 Hw1) as Hw2.
  pose proof (loadInstances_detached_readOnly w1) as Hdb2.
  destruct (loadInstances_detached_total w1) as ([] & w2 & E).
  rewrite E in Hw2, Hdb2 |- *. cbn [snd] in *.
  split; [exact Hw2 |]. rewrite Hdb2, Hdb1. reflexivity.
Qed.

Lemma handleToggleItem_frame user item :
  preserves checklist_instances (handleToggleItem user item).
Proof.
  unfold handleToggleItem. destruct user as [u |]; [| auto with readonly].
  apply preserves_tryCatch.
  - apply preserves_bind; [auto with readonly | intros t].
    apply preserves_bind; [apply preserves_request; reflexivity | intros res].
    apply preserves_bind; [auto with readonly | intros ?].
    apply (readOnly_preserves checklist_instances), loadInstances_detached_readOnly.
  - intros e. auto with readonly.
Qed.

Lemma untick_pending u stamp stamp' id items :
  pending id items ->
  map (fun it => if (ChecklistInstanceItem.id it =? id)%string
                 then updateData true u stamp' it else it)
      (map (fun it => if (ChecklistInstanceItem.id it =? id)%string
                      then updateData false u stamp it else it) items)
  = items.
Proof.
  unfold pending. intros H. rewrite map_map.
  rewrite <- (map_id items) at 2. apply map_ext_in. intros it Hin.
  rewrite Forall_forall in H. specialize (H it Hin).
  destruct (String.eqb_spec (ChecklistInstanceItem.id it) id) as [E | E].
  - cbn [updateData ChecklistInstanceItem.id]. rewrite E, String.eqb_refl.
    destruct (H E) as (Hc & Hb & Ha). destruct it. cbn in *. subst. reflexivity.
  - destruct (String.eqb_spec (ChecklistInstanceItem.id it) id); [contradiction | reflexivity].
Qed.

End Ticking.

(** X12. Ticking an item and ticking it again.  With every round trip
    carried out, ticking an item that the render shows as not completed
    marks the rows with its identifier as completed by the signed-in user
    at the time of the click, and leaves every other row as it was; ticking
    it again, the render now showing it as completed, clears the three
    columns, so that the table is what it was before the first click when
    the rows of the item were not completed.  The instances are never
    touched. *)
Theorem handleToggleItem_twice (u : Checklist.User.t)
  (item : Checklist.ChecklistInstanceItem.t)
  (w : Remote.World Checklist.Backend Checklist.ChecklistState) :
  Remote.answers w ->
  Checklist.ChecklistInstanceItem.is_completed item = false ->
  Checklist.pending (Checklist.ChecklistInstanceItem.id item)
                    (Checklist.checklist_instance_items (Remote.db w)) ->
  let w1 := snd (Checklist.handleToggleItem (Some u) item w) in
  let shown := Checklist.updateData false (Checklist.User.id u)
                 (JsDate.toISOString (Remote.now w)) item in
  let w2 := snd (Checklist.handleToggleItem (Some u) shown w1) in
  Checklist.checklist_instance_items (Remote.db w1)
  = map (fun it =>
           if (Checklist.ChecklistInstanceItem.id it
               =? Checklist.ChecklistInstanceItem.id item)%string
           then Checklist.updateData false (Checklist.User.id u)
                  (JsDate.toISOString (Remote.now w)) it
           else it)
        (Checklist.checklist_instance_items (Remote.db w))
  /\ Checklist.ChecklistInstanceItem.is_completed shown = true
  /\ Checklist.ChecklistInstanceItem.completed_by shown = Some (Checklist.User.id u)
  /\ Checklist.checklist_instance_items (Remote.db w2)
     = Checklist.checklist_instance_items (Remote.db w)
  /\ Checklist.checklist_instances (Remote.db w2) = Checklist.checklist_instances (Remote.db w).
Proof.
  intros Hw Hitem Hpending w1 shown w2.
  destruct (handleToggleItem_answers u item w Hw) as [Hw1 Hdb1]. fold w1 in Hw1, Hdb1.
  destruct (handleToggleItem_answers u shown w1 Hw1) as [_ Hdb2]. fold w2 in Hdb2.
  rewrite Hitem in Hdb1.
  split; [exact Hdb1 |]. split; [reflexivity |]. split; [reflexivity |]. split.
  - rewrite Hdb2, Hdb1. cbn [shown Checklist.updateData Checklist.ChecklistInstanceItem.id
                             Checklist.ChecklistInstanceItem.is_completed negb].
    now apply untick_pending.
  - subst w2 w1. now rewrite !handleToggleItem_frame.
Qed.

(** The first item of an opening checklist is ticked and unticked. *)
Lemma handleToggleItem_twice_witness :
  let u := {| Checklist.User.id := "u1" |} in
  let item := ChecklistScenario.lockers "7" in
  let w1 := snd (Checklist.handleToggleItem (Some u) item ChecklistScenario.ticking) in
  map (fun it => (Checklist.ChecklistInstanceItem.id it,
                  Checklist.ChecklistInstanceItem.is_completed it,
                  Checklist.ChecklistInstanceItem.completed_by it))
      (Checklist.checklist_instance_items (Remote.db w1))
  = [("7", true, Some "u1"); ("8", false, None)].
Proof.
  intros u item w1.
  destruct (handleToggleItem_twice u item ChecklistScenario.ticking) as (Hticked & _).
  - constructor.
  - reflexivity.
  - repeat constructor.
  - subst w1. rewrite Hticked. reflexivity.
Defined.

(** ** Files that the bulk upload refuses *)

Section RefusedFiles.

Import Remote CandidateTracker.

Variable tz : Z.
Variable parseDate : string -> option JsDate.Instant.
Variable random1000 : nat -> Z.

Ltac run := unfold tryCatch, bind, newDateNow; cbn beta iota.

Lemma missingHeaders_nil headers :
  missingHeaders headers = []
  <-> (exists h, In h headers /\ Js.includes h "fullname" = true)
      /\ (exists h, In h headers /\ Js.includes h "email" = true).
Proof.
  unfold missingHeaders, requiredHeaders. cbn [filter].
  change (Js.replace "full_name" "_" "") with "fullname".
  change (Js.replace "email" "_" "") with "email".
  rewrite <- !existsb_exists.
  destruct (existsb (fun header => Js.includes header "fullname") headers);
    destruct (existsb (fun header => Js.includes header "email") headers);
    cbn [negb]; split; intros H; try discriminate; try (destruct H; discriminate); auto.
Qed.

(** What a refused file leaves behind. *)
Lemma processBulkUpload_refused state file u (w : World Backend TrackerState) :
  uploadFile state = Some file ->
  (List.length (nonBlankLines (File.text file)) < 2)%nat
  \/ missingHeaders (headersOf file) <> [] ->
  let w' := snd (processBulkUpload tz parseDate random1000 state (Some u) w) in
  candidates_table (db w') = candidates_table (db w)
  /\ uploadStatus (ui w') = error
  /\ UploadResults.success (uploadResults (ui w')) = 0
  /\ (hd Resolved (replies w) = Resolved ->
      UploadResults.errors (uploadResults (ui w'))
      = [ if (List.length (nonBlankLines (File.text file)) <? 2)%nat
          then "File must contain at least a header row and one data row"
          else "Missing required columns: "
               ++ String.concat ", " (missingHeaders (headersOf file)) ]
      /\ exists record,
           candidate_roster_uploads (db w')
           = (candidate_roster_uploads (db w) ++ [record])%list
           /\ UploadRecord.status record = "processing"
           /\ UploadRecord.processed_date record = None).
Proof.
  intros Hfile Hbad w'. subst w'. unfold processBulkUpload. rewrite Hfile.
  assert (Hthrows :
    (if (List.length (nonBlankLines (File.text file)) <? 2)%nat then true
     else (0 <? List.length (missingHeaders (headersOf file)))%nat) = true).
  { destruct (Nat.ltb_spec (List.length (nonBlankLines (File.text file))) 2);
      [reflexivity |].
    destruct Hbad as [Hbad | Hbad]; [lia |].
    destruct (missingHeaders (headersOf file)); [congruence | reflexivity]. }
  unfold headersOf in *. run. cbn [setState].
  unfold request. cbn [replies db].
  destruct (replies w) as [|[| e | e] rs]; cbn [hd insertUpload single fst snd ret consoleError].
  all: try (destruct (List.length (nonBlankLines (File.text file)) <? 2)%nat;
            [| rewrite Hthrows]);
       cbn [throw setState fst snd db ui uploadStatus uploadResults setUploadStatus
            setUploadResults setUploadProgress UploadResults.success UploadResults.errors
            newError message setDb popReply candidates_table candidate_roster_uploads];
       (split; [reflexivity | split; [reflexivity | split; [reflexivity |]]]);
       intros Hhd; try discriminate Hhd;
       (split; [reflexivity |]); eexists; repeat split.
Qed.

End RefusedFiles.

(** X13. The header check of the bulk upload: no required column is
    reported missing exactly when some header contains "fullname" and some
    header contains "email".  A header row that spells the columns as the
    error message does, "full_name" and "email", is therefore refused. *)
Theorem missingHeaders_spec (headers : list string) :
  (CandidateTracker.missingHeaders headers = []
   <-> (exists h, In h headers /\ Js.includes h "fullname" = true)
       /\ (exists h, In h headers /\ Js.includes h "email" = true))
  /\ CandidateTracker.missingHeaders ["full_name"; "email"] = ["full_name"].
Proof. split; [apply missingHeaders_nil | reflexivity]. Qed.

(** X14. A file that the bulk upload refuses, for having fewer than two
    lines that are not blank or for a missing required column, stores no
    candidate, whatever the data service replies; the upload ends in the
    error status with a success count of 0.  When the upload record was
    created, the only message is the reason of the refusal, and the record
    is left as it was created: in the status "processing", without a
    processing date. *)
Theorem processBulkUpload_refuses_file (tz : Z) (parseDate : string -> option JsDate.Instant)
  (random1000 : nat -> Z) (state : CandidateTracker.TrackerState)
  (file : CandidateTracker.File.t) (u : CandidateTracker.User.t)
  (w : Remote.World CandidateTracker.Backend CandidateTracker.TrackerState) :
  CandidateTracker.uploadFile state = Some file ->
  (List.length (CandidateTracker.nonBlankLines (CandidateTracker.File.text file)) < 2)%nat
  \/ CandidateTracker.missingHeaders (CandidateTracker.headersOf file) <> [] ->
  let w' := snd (CandidateTracker.processBulkUpload tz parseDate random1000 state (Some u) w) in
  CandidateTracker.candidates_table (Remote.db w')
  = CandidateTracker.candidates_table (Remote.db w)
  /\ CandidateTracker.uploadStatus (Remote.ui w') = CandidateTracker.error
  /\ CandidateTracker.UploadResults.success (CandidateTracker.uploadResults (Remote.ui w')) = 0
  /\ (hd Remote.Resolved (Remote.replies w) = Remote.Resolved ->
      CandidateTracker.UploadResults.errors (CandidateTracker.uploadResults (Remote.ui w'))
      = [ if (List.length (CandidateTracker.nonBlankLines (CandidateTracker.File.text file))
              <? 2)%nat
          then "File must contain at least a header row and one data row"
          else "Missing required columns: "
               ++ String.concat ", " (CandidateTracker.missingHeaders
                                        (CandidateTracker.headersOf file)) ]
      /\ exists record,
           CandidateTracker.candidate_roster_uploads (Remote.db w')
           = (CandidateTracker.candidate_roster_uploads (Remote.db w) ++ [record])%list
           /\ CandidateTracker.UploadRecord.status record = "processing"
           /\ CandidateTracker.UploadRecord.processed_date record = None).
Proof. apply processBulkUpload_refused. Qed.

(** A file with the header row "full_name,email" and one candidate. *)
Lemma processBulkUpload_refuses_file_witness :
  let w := {| Remote.db := {| CandidateTracker.candidates_table := [];
                              CandidateTracker.candidate_roster_uploads := [];
                              CandidateTracker.serial := 0 |};
              Remote.replies := []; Remote.now := 1744700000000; Remote.console := [];
              Remote.ui := UploadScenario.spelledState |} in
  let w' := snd (CandidateTracker.processBulkUpload 330 UploadScenario.parseDate (fun _ => 7)
                   UploadScenario.spelledState (Some {| CandidateTracker.User.id := "u1" |})
                   w) in
  CandidateTracker.candidates_table (Remote.db w') = []
  /\ CandidateTracker.UploadResults.errors (CandidateTracker.uploadResults (Remote.ui w'))
     = ["Missing required columns: full_name"].
Proof.
  intros w w'.
  destruct (processBulkUpload_refuses_file 330 UploadScenario.parseDate (fun _ => 7)
              UploadScenario.spelledState UploadScenario.spelled
              {| CandidateTracker.User.id := "u1" |} w)
    as (Htable & _ & _ & Hmessage).
  - reflexivity.
  - right. vm_compute. discriminate.
  - split; [exact Htable |].
    destruct Hmessage as [Hmessage _]; [reflexivity |].
    subst w'. rewrite Hmessage. vm_compute. reflexivity.
Defined.

(** ** The session calendar *)

Section CalendarHandlers.

Import Remote FetsCalendar.

Variable formatDateForIST : JsDate.Instant -> string.

Lemma loadSessions_total r : total (loadSessions formatDateForIST r).
Proof.
  unfold loadSessions, showNotification. apply total_tryFinally, total_tryCatch. intros e.
  auto with total.
Qed.

Lemma loadSessions_readOnly r : readOnly (loadSessions formatDateForIST r).
Proof.
  unfold readOnly, loadSessions, showNotification.
  apply preserves_tryFinally; [| reflexivity].
  apply preserves_tryCatch.
  - repeat first
      [ apply preserves_bind; [| intros ?]
      | apply preserves_request; reflexivity
      | match goal with
        | |- preserves _ (match ?x with _ => _ end) => destruct x
        end
      | solve [auto with readonly] ].
  - intros e. repeat (apply preserves_bind; [| intros ?]); auto with readonly.
Qed.

Lemma closeModal_readOnly : readOnly closeModal.
Proof.
  unfold readOnly, closeModal.
  repeat (apply preserves_bind; [| intros ?]); auto with readonly.
Qed.

Lemma capacityStep_refl b : capacityStep b b.
Proof. unfold capacityStep. auto. Qed.

Lemma capacityStep_trans a b c : capacityStep a b -> capacityStep b c -> capacityStep a c.
Proof. unfold capacityStep. auto. Qed.

Lemma updateSessionById_capacity id form userId stamp b :
  FormData.candidate_count form <= SessionUtils.MAX_CAPACITY ->
  capacityStep b (snd (updateSessionById id (sessionData form userId stamp) b)).
Proof.
  intros Hfits Hb. unfold withinCapacity in *. cbn [updateSessionById snd sessions_table].
  apply Forall_forall. intros s Hs. apply in_map_iff in Hs.
  destruct Hs as (s0 & <- & Hs0). rewrite Forall_forall in Hb.
  destruct (idEqb _ _); [exact Hfits | now apply Hb].
Qed.

Lemma insertSession_capacity row b :
  Session.candidate_count row <= SessionUtils.MAX_CAPACITY ->
  capacityStep b (snd (insertSession row b)).
Proof.
  intros Hfits Hb. unfold withinCapacity in *. cbn [insertSession snd sessions_table].
  apply Forall_app. split; [exact Hb |]. constructor; [exact Hfits | constructor].
Qed.

Lemma handleSubmit_capacity r : evolves capacityStep (handleSubmit formatDateForIST r).
Proof.
  unfold handleSubmit, showNotification.
  destruct (user r) as [u |]; [| apply evolves_ret, capacityStep_refl].
  unfold SessionUtils.validateSessionCapacity.
  destruct (Z.gtb_spec (FormData.candidate_count (formData (state r)))
                       SessionUtils.MAX_CAPACITY) as [Hover | Hfits];
    cbn [SessionUtils.isValid negb]; [apply evolves_setState, capacityStep_refl |].
  destruct (_ >=? _); cbn [SessionUtils.isValid SessionUtils.warning negb].
  all: repeat first
    [ apply evolves_bind; [exact capacityStep_trans | | intros ?]
    | apply evolves_tryCatch; [exact capacityStep_trans | | intros ?]
    | apply evolves_request;
      [ exact capacityStep_refl
      | intros b;
        first [apply updateSessionById_capacity | apply insertSession_capacity];
        exact Hfits ]
    | apply evolves_readOnly;
      [ exact capacityStep_refl
      | first [apply closeModal_readOnly | apply loadSessions_readOnly] ]
    | apply evolves_setState; exact capacityStep_refl
    | apply evolves_ret; exact capacityStep_refl
    | apply evolves_orThrow; exact capacityStep_refl
    | apply evolves_newDateNow; exact capacityStep_refl
    | apply evolves_consoleError; exact capacityStep_refl
    | match goal with
      | |- evolves _ (match ?x with _ => _ end) => destruct x
      end ].
Qed.

Lemma handleSubmit_over_capacity r u (w : World Backend CalendarState) :
  user r = Some u ->
  SessionUtils.MAX_CAPACITY < FormData.candidate_count (formData (state r)) ->
  db (snd (handleSubmit formatDateForIST r w)) = db w
  /\ replies (snd (handleSubmit formatDateForIST r w)) = replies w
  /\ notification (ui (snd (handleSubmit formatDateForIST r w)))
     = Some {| Notification.type := FetsCalendar.error;
               Notification.message := "Session exceeds maximum capacity of 40 candidates" |}.
Proof.
  intros Hu Hover. unfold handleSubmit. rewrite Hu.
  unfold SessionUtils.validateSessionCapacity.
  destruct (Z.gtb_spec (FormData.candidate_count (formData (state r)))
                       SessionUtils.MAX_CAPACITY); [| lia].
  repeat split.
Qed.

End CalendarHandlers.

(** X15. The calendar never stores a session above the capacity that the
    validator enforces: whatever the data service replies, if no stored
    session has more than 40 candidates before a submission, none has
    after it.  A form with more than 40 candidates makes no round trip at
    all: the tables are as they were and the notification carries the
    error of the validator. *)
Theorem handleSubmit_keeps_capacity (formatDateForIST : JsDate.Instant -> string)
  (r : FetsCalendar.Render) (w : Remote.World FetsCalendar.Backend FetsCalendar.CalendarState) :
  (FetsCalendar.withinCapacity (Remote.db w) ->
   FetsCalendar.withinCapacity
     (Remote.db (snd (FetsCalendar.handleSubmit formatDateForIST r w))))
  /\ (forall u,
        FetsCalendar.user r = Some u ->
        SessionUtils.MAX_CAPACITY
        < FetsCalendar.FormData.candidate_count (FetsCalendar.formData (FetsCalendar.state r)) ->
        Remote.db (snd (FetsCalendar.handleSubmit formatDateForIST r w)) = Remote.db w
        /\ Remote.replies (snd (FetsCalendar.handleSubmit formatDateForIST r w))
           = Remote.replies w
        /\ FetsCalendar.notification
             (Remote.ui (snd (FetsCalendar.handleSubmit formatDateForIST r w)))
           = Some {| FetsCalendar.Notification.type := FetsCalendar.error;
                     FetsCalendar.Notification.message :=
                       "Session exceeds maximum capacity of 40 candidates" |}).
Proof.
  split.
  - apply (handleSubmit_capacity formatDateForIST r w).
  - intros u. apply handleSubmit_over_capacity.
Qed.

(** A form asking for 45 candidates is submitted. *)
Lemma handleSubmit_keeps_capacity_witness :
  let w' := snd (FetsCalendar.handleSubmit Scenario.localDate (CalendarScenario.render 45)
                   (CalendarScenario.world 45)) in
  FetsCalendar.withinCapacity (Remote.db w')
  /\ Remote.db w' = Remote.db (CalendarScenario.world 45).
Proof.
  intros w'.
  destruct (handleSubmit_keeps_capacity Scenario.localDate (CalendarScenario.render 45)
              (CalendarScenario.world 45)) as [Hkept Hrefused].
  split.
  - apply Hkept. repeat constructor; vm_compute; discriminate.
  - destruct (Hrefused {| FetsCalendar.User.id := "u1" |}) as [Hdb _].
    + reflexivity.
    + vm_compute. reflexivity.
    + exact Hdb.
Defined.

Section CalendarDeletion.

Import Remote FetsCalendar.

Variable formatDateForIST : JsDate.Instant -> string.

Ltac run := unfold tryCatch, bind, newDateNow; cbn beta iota.

Lemma handleDelete_others r sessionId confirmed :
  preserves (fun b => filter (fun s => negb (idEqb (Session.id s) sessionId))
                             (sessions_table b))
            (handleDelete formatDateForIST r sessionId confirmed).
Proof.
  unfold handleDelete, showNotification.
  destruct (negb confirmed); [auto with readonly |].
  apply preserves_tryCatch.
  - repeat first
      [ apply preserves_bind; [| intros ?]
      | apply preserves_request; intros b; cbn [deleteSessionById snd sessions_table];
        apply filter_twice
      | apply (readOnly_preserves
                 (fun b => filter (fun s => negb (idEqb (Session.id s) sessionId))
                                  (sessions_table b))), loadSessions_readOnly
      | match goal with
        | |- preserves _ (match ?x with _ => _ end) => destruct x
        end
      | solve [auto with readonly] ].
  - intros e. repeat (apply preserves_bind; [| intros ?]); auto with readonly.
Qed.

Lemma handleDelete_no_new_rows r sessionId confirmed :
  evolves (fun b b' => incl (sessions_table b') (sessions_table b))
          (handleDelete formatDateForIST r sessionId confirmed).
Proof.
  set (R := fun b b' : Backend => incl (sessions_table b') (sessions_table b)).
  assert (R_refl : forall b, R b b) by (intros b; apply incl_refl).
  assert (R_trans : forall a b c, R a b -> R b c -> R a c)
    by (intros a b c Hab Hbc; exact (incl_tran Hbc Hab)).
  unfold handleDelete, showNotification.
  destruct (negb confirmed); [now apply evolves_ret |].
  repeat first
    [ apply evolves_bind; [exact R_trans | | intros ?]
    | apply evolves_tryCatch; [exact R_trans | | intros ?]
    | apply evolves_request; [exact R_refl | intros b; apply incl_filter]
    | apply evolves_readOnly; [exact R_refl | apply loadSessions_readOnly]
    | apply evolves_setState; exact R_refl
    | apply evolves_ret; exact R_refl
    | apply evolves_orThrow; exact R_refl
    | apply evolves_consoleError; exact R_refl
    | match goal with
      | |- evolves _ (match ?x with _ => _ end) => destruct x
      end ].
Qed.

Lemma handleDelete_carried_out r sessionId (w : World Backend CalendarState) :
  carriedOut 1 w ->
  sessions_table (db (snd (handleDelete formatDateForIST r sessionId true w)))
  = filter (fun s => negb (idEqb (Session.id s) sessionId)) (sessions_table (db w)).
Proof.
  intros Hw. apply carriedOut_hd in Hw. unfold handleDelete. cbn [negb]. run.
  rewrite request_resolved by exact Hw.
  cbn [deleteSessionById fst snd orThrow ret showNotification setState].
  match goal with
  | |- context [loadSessions _ ?r ?w3] =>
      pose proof (loadSessions_readOnly formatDateForIST r w3) as Hload;
      destruct (loadSessions_total formatDateForIST r w3) as ([] & w4 & El);
      rewrite El in Hload |- *
  end.
  cbn [fst snd db setDb] in Hload.
  destruct (selectedDate (state r)); [destruct (_ =? _)%nat |];
    cbn [fst snd db setState ret]; rewrite Hload; reflexivity.
Qed.

End CalendarDeletion.

(** X16. Deleting a session touches that session only: whatever the data
    service replies and whatever is answered to the dialog, every session
    with another identifier is still stored, in the same order, and no
    session is added or changed; when the deletion is confirmed and carried
    out, the sessions with that identifier are gone; when it is not
    confirmed, nothing happens at all. *)
Theorem handleDelete_one_session (formatDateForIST : JsDate.Instant -> string)
  (r : FetsCalendar.Render) (sessionId : Z) (confirmed : bool)
  (w : Remote.World FetsCalendar.Backend FetsCalendar.CalendarState) :
  let others (s : FetsCalendar.Session.t) :=
    negb (FetsCalendar.idEqb (FetsCalendar.Session.id s) sessionId) in
  let w' := snd (FetsCalendar.handleDelete formatDateForIST r sessionId confirmed w) in
  filter others (FetsCalendar.sessions_table (Remote.db w'))
  = filter others (FetsCalendar.sessions_table (Remote.db w))
  /\ (forall s, In s (FetsCalendar.sessions_table (Remote.db w')) ->
                In s (FetsCalendar.sessions_table (Remote.db w)))
  /\ (confirmed = true -> Remote.carriedOut 1 w ->
      FetsCalendar.sessions_table (Remote.db w')
      = filter others (FetsCalendar.sessions_table (Remote.db w)))
  /\ (confirmed = false -> w' = w).
Proof.
  intros others w'. subst w'. split; [| split; [| split]].
  - apply (handleDelete_others formatDateForIST r sessionId confirmed w).
  - apply (handleDelete_no_new_rows formatDateForIST r sessionId confirmed w).
  - intros ->. apply handleDelete_carried_out.
  - intros ->. reflexivity.
Qed.

(** The second session of 10 April 2025 is deleted. *)
Lemma handleDelete_one_session_witness :
  map FetsCalendar.Session.id
      (FetsCalendar.sessions_table
         (Remote.db (snd (FetsCalendar.handleDelete Scenario.localDate
                            (CalendarScenario.render 1) 2 true (CalendarScenario.world 1)))))
  = [Some 1; Some 3; Some 4].
Proof.
  destruct (handleDelete_one_session Scenario.localDate (CalendarScenario.render 1) 2 true
              (CalendarScenario.world 1)) as (_ & _ & Hgone & _).
  rewrite Hgone.
  - reflexivity.
  - reflexivity.
  - constructor.
Defined.

(** ** The calendar: candidates per client, times of day *)

Section ClientCounts.

Import Remote FetsCalendar.

Lemma get_set_same o k v : Js.get (Js.set o k v) k = Some v.
Proof.
  unfold Js.get. induction o as [|[k' v'] o IH]; cbn [Js.set find fst].
  - now rewrite String.eqb_refl.
  - destruct (String.eqb_spec k' k).
    + cbn [find fst]. now rewrite String.eqb_refl.
    + cbn [find fst]. destruct (String.eqb_spec k' k); [contradiction | exact IH].
Qed.

Lemma get_set_other o k v k' : k <> k' -> Js.get (Js.set o k v) k' = Js.get o k'.
Proof.
  intros Hne. unfold Js.get. induction o as [|[k0 v0] o IH]; cbn [Js.set find fst].
  - destruct (String.eqb_spec k k'); [contradiction | reflexivity].
  - destruct (String.eqb_spec k0 k) as [-> | Hk].
    + cbn [find fst]. destruct (String.eqb_spec k k'); [contradiction | reflexivity].
    + cbn [find fst]. destruct (String.eqb_spec k0 k'); [reflexivity | exact IH].
Qed.

(** The counts after the loop has run over [l], from the counts [acc]. *)
Lemma counts_loop name : forall (l : list Session.t) (acc : list (string * Z)),
  Js.get
    (fold_left
       (fun clientCounts session =>
          Js.set clientCounts (Session.client_name session)
                 ((match Js.get clientCounts (Session.client_name session) with
                   | Some n => if n =? 0 then 0 else n
                   | None => 0
                   end) + Session.candidate_count session))
       l acc) name
  = if existsb (fun s => (Session.client_name s =? name)%string) l
    then Some ((match Js.get acc name with Some n => n | None => 0 end)
               + candidatesOf name l)
    else Js.get acc name.
Proof.
  induction l as [|s l IH]; intros acc; cbn [fold_left existsb]; [reflexivity |].
  rewrite IH. unfold candidatesOf. cbn [filter].
  destruct (String.eqb_spec (Session.client_name s) name) as [E | E].
  - rewrite E, get_set_same. cbn [orb map fold_right].
    assert (Hv : (match Js.get acc name with
                  | Some n => if n =? 0 then 0 else n
                  | None => 0
                  end) = match Js.get acc name with Some n => n | None => 0 end).
    { destruct (Js.get acc name) as [n |]; [| reflexivity].
      destruct (Z.eqb_spec n 0); congruence. }
    rewrite Hv. destruct (existsb _ l) eqn:El.
    + f_equal. lia.
    + f_equal.
      assert (Hnone : filter (fun s0 => (Session.client_name s0 =? name)%string) l = []).
      { clear - El. induction l as [|a l IH]; [reflexivity |]. cbn [existsb filter] in *.
        apply orb_false_iff in El. destruct El as [-> El]. now apply IH. }
      rewrite Hnone. cbn. lia.
  - rewrite get_set_other by exact E. cbn [orb]. reflexivity.
Qed.

End ClientCounts.

(** X17. The per-client tally of a day: for every client name that is not
    the name of a property every object inherits, the tally holds the sum of
    the candidates of that client's sessions of the day, and it holds no
    entry for a client without a session that day. *)
Theorem getClientCounts_totals (formatDateForIST : JsDate.Instant -> string)
  (r : FetsCalendar.Render) (date : JsDate.Instant) (clientName : string) :
  existsb (String.eqb clientName) Js.inherited = false ->
  let daySessions := FetsCalendar.getSessionsForDate formatDateForIST r date in
  Js.get (FetsCalendar.getClientCounts formatDateForIST r date) clientName
  = if existsb (fun s => (FetsCalendar.Session.client_name s =? clientName)%string) daySessions
    then Some (FetsCalendar.candidatesOf clientName daySessions)
    else None.
Proof.
  intros _ daySessions. unfold FetsCalendar.getClientCounts. fold daySessions.
  rewrite counts_loop. reflexivity.
Qed.

(** The two sessions of Pearson VUE on 10 April 2025 have 17 candidates. *)
Lemma getClientCounts_totals_witness :
  Js.get (FetsCalendar.getClientCounts Scenario.localDate (CalendarScenario.render 1)
            (JsDate.newDate 330 2025 3 10)) "Pearson VUE"
  = Some 17.
Proof.
  rewrite (getClientCounts_totals Scenario.localDate (CalendarScenario.render 1)
             (JsDate.newDate 330 2025 3 10) "Pearson VUE").
  - reflexivity.
  - reflexivity.
Defined.

Section TimesOfDay.

Import Remote FetsCalendar.

Lemma split_no_separator sep s :
  (forall c, In c (list_ascii_of_string s) -> c <> sep) -> Js.split sep s = [s].
Proof.
  induction s as [|c s IH]; intros H; cbn [Js.split]; [reflexivity |].
  destruct (Ascii.eqb_spec c sep) as [E | _].
  - exfalso. apply (H c); [simpl; auto | exact E].
  - rewrite IH by (intros c' Hc'; apply H; simpl; auto). reflexivity.
Qed.

Lemma split_at_separator sep a b :
  (forall c, In c (list_ascii_of_string a) -> c <> sep) ->
  Js.split sep (a ++ String sep b) = a :: Js.split sep b.
Proof.
  induction a as [|c a IH]; intros H; cbn [append Js.split].
  - now rewrite Ascii.eqb_refl.
  - destruct (Ascii.eqb_spec c sep) as [E | _].
    + exfalso. apply (H c); [simpl; auto | exact E].
    + rewrite IH by (intros c' Hc'; apply H; simpl; auto). reflexivity.
Qed.

Lemma allDigits_no_colon s :
  Js.allDigits s -> forall c, In c (list_ascii_of_string s) -> c <> ":"%char.
Proof.
  induction s as [|c0 s IH]; cbn [Js.allDigits list_ascii_of_string]; [intros _ c [] |].
  intros [[d Hd] Hs] c [<- | Hc]; [| now apply IH].
  intros ->. apply digitVal_range in Hd. simpl in Hd. lia.
Qed.

Lemma pad_digits width n : 0 <= n -> Js.allDigits (JsDate.pad width n).
Proof.
  intros Hn. unfold JsDate.pad, Js.padStart. rewrite toString_nonneg by exact Hn.
  apply allDigits_app; [apply allDigits_repeat_zero | apply decimal_aux_digits].
Qed.

Lemma formatTime_of_day h m :
  0 <= h < 24 -> 0 <= m ->
  formatTime (JsDate.pad 2 h ++ ":" ++ JsDate.pad 2 m)
  = Js.toString (twelveHour h) ++ ":" ++ JsDate.pad 2 m ++ (if h <? 12 then "am" else "pm").
Proof.
  intros Hh Hm. unfold formatTime. cbn zeta.
  change (JsDate.pad 2 h ++ ":" ++ JsDate.pad 2 m)
    with (JsDate.pad 2 h ++ String ":" (JsDate.pad 2 m)).
  rewrite split_at_separator by (apply allDigits_no_colon, pad_digits; lia).
  rewrite split_no_separator by (apply allDigits_no_colon, pad_digits; lia).
  cbn [nth nth_error]. unfold JsDate.pad at 1 2 3.
  rewrite parseInt_padStart_toString by lia.
  assert (Hd : (if h >? 12 then Some (h - 12) else if h =? 0 then Some 12 else Some h)
               = Some (twelveHour h)).
  { unfold twelveHour.
    destruct (Z.gtb_spec h 12); [| destruct (Z.eqb_spec h 0)]; f_equal.
    - rewrite <- (Z.mod_unique_pos (h + 11) 12 2 (h - 13)); lia.
    - subst. reflexivity.
    - rewrite <- (Z.mod_unique_pos (h + 11) 12 1 (h - 1)); lia. }
  rewrite Hd. cbn [Js.numberToString].
  destruct (Z.geb_spec h 12); destruct (Z.ltb_spec h 12); try lia; reflexivity.
Qed.

Lemma twelveHour_reads_back h :
  0 <= h < 24 ->
  1 <= twelveHour h <= 12 /\ h = twelveHour h mod 12 + (if h <? 12 then 0 else 12).
Proof.
  intros Hh. unfold twelveHour.
  assert (H12 : 0 <= (h + 11) mod 12 < 12) by (apply Z.mod_pos_bound; lia).
  split; [lia |].
  destruct (Z.ltb_spec h 12).
  - destruct (Z.eqb_spec h 0) as [-> | Hz]; [reflexivity |].
    rewrite <- (Z.mod_unique_pos (h + 11) 12 1 (h - 1)) by lia.
    rewrite Z.mod_small; lia.
  - destruct (Z.eqb_spec h 12) as [-> | Hz]; [reflexivity |].
    rewrite <- (Z.mod_unique_pos (h + 11) 12 2 (h - 13)) by lia.
    rewrite Z.mod_small; lia.
Qed.

End TimesOfDay.

(** X18. A time of day "HH:mm" is shown on the 12-hour clock: the hour
    becomes a number from 1 to 12 without padding (midnight and noon are
    12), the minutes are kept as they are, and "am" is appended before noon
    and "pm" from noon on; the hour of the day can be read back from what
    is shown.  A range is the two times joined by " - ". *)
Theorem formatTimeRange_twelve_hour (h m h' m' : Z) :
  0 <= h < 24 -> 0 <= m -> 0 <= h' < 24 -> 0 <= m' ->
  FetsCalendar.formatTimeRange (JsDate.pad 2 h ++ ":" ++ JsDate.pad 2 m)
                               (JsDate.pad 2 h' ++ ":" ++ JsDate.pad 2 m')
  = (Js.toString (FetsCalendar.twelveHour h) ++ ":" ++ JsDate.pad 2 m
     ++ (if h <? 12 then "am" else "pm"))
    ++ " - "
    ++ (Js.toString (FetsCalendar.twelveHour h') ++ ":" ++ JsDate.pad 2 m'
        ++ (if h' <? 12 then "am" else "pm"))
  /\ 1 <= FetsCalendar.twelveHour h <= 12
  /\ h = FetsCalendar.twelveHour h mod 12 + (if h <? 12 then 0 else 12).
Proof.
  intros Hh Hm Hh' Hm'. unfold FetsCalendar.formatTimeRange.
  rewrite !formatTime_of_day by assumption.
  split; [reflexivity | now apply twelveHour_reads_back].
Qed.

(** A session from midnight to a quarter past one in the afternoon. *)
Lemma formatTimeRange_twelve_hour_witness :
  FetsCalendar.formatTimeRange "00:30" "13:15" = "12:30am - 1:15pm".
Proof.
  destruct (formatTimeRange_twelve_hour 0 30 13 15) as [E _]; try lia.
  exact E.
Defined.

(** ** The civil calendar *)

Section CalendarFacts.

Import JsDate.

Lemma year_of_era yoe doy :
  0 <= yoe <= 399 -> 0 <= doy <= 365 ->
  (doy = 365 -> (yoe + 1) mod 4 = 0 /\ ((yoe + 1) mod 100 <> 0 \/ yoe = 399)) ->
  let doe := yoe * 365 + yoe / 4 - yoe / 100 + doy in
  (doe - doe / 1460 + doe / 36524 - doe / 146096) / 365 = yoe.
Proof.
  intros Hy Hd Hleap doe. subst doe.
  Z.to_euclidean_division_equations; lia.
Qed.

Lemma day_of_era_bounds doe :
  0 <= doe < 146097 ->
  let yoe := (doe - doe / 1460 + doe / 36524 - doe / 146096) / 365 in
  let doy := doe - (365 * yoe + yoe / 4 - yoe / 100) in
  0 <= yoe <= 399 /\ 0 <= doy <= 365
  /\ (doy = 365 -> (yoe + 1) mod 4 = 0 /\ ((yoe + 1) mod 100 <> 0 \/ yoe = 399)).
Proof.
  intros H yoe doy. subst doy yoe.
  Z.to_euclidean_division_equations; lia.
Qed.

(** The day of the year that starts in March, for a month counted from
    March and a day of that month. *)
Lemma month_of_year mp d :
  0 <= mp <= 11 ->
  1 <= d <= (if mp =? 11 then 29
             else if (mp =? 1) || (mp =? 3) || (mp =? 6) || (mp =? 8) then 30 else 31) ->
  let doy := (153 * mp + 2) / 5 + d - 1 in
  0 <= doy <= 365 /\ (doy = 365 -> mp = 11 /\ d = 29)
  /\ (5 * doy + 2) / 153 = mp /\ doy - (153 * mp + 2) / 5 + 1 = d.
Proof.
  intros Hmp Hd doy. subst doy.
  assert (Hcase : mp = 0 \/ mp = 1 \/ mp = 2 \/ mp = 3 \/ mp = 4 \/ mp = 5 \/ mp = 6
                  \/ mp = 7 \/ mp = 8 \/ mp = 9 \/ mp = 10 \/ mp = 11) by lia.
  repeat (destruct Hcase as [-> | Hcase]); try subst mp;
    cbn [Z.eqb Pos.eqb orb] in Hd;
    repeat split; intros; Z.to_euclidean_division_equations; lia.
Qed.

Lemma civil_from_days_from_civil y m d :
  1 <= m <= 12 -> 1 <= d <= daysIn y m ->
  civil_from_days (days_from_civil y m d) = (y, m, d).
Proof.
  intros Hm Hd. unfold civil_from_days, days_from_civil. cbv zeta.
  set (y' := if m <=? 2 then y - 1 else y).
  set (era := y' / 400). set (yoe := y' - era * 400).
  set (mp := if m >? 2 then m - 3 else m + 9).
  set (doy := (153 * mp + 2) / 5 + d - 1).
  set (doe := yoe * 365 + yoe / 4 - yoe / 100 + doy).
  assert (Hyoe : 0 <= yoe <= 399)
    by (subst yoe era; Z.to_euclidean_division_equations; lia).
  assert (Hmp : 0 <= mp <= 11 /\ (if mp <? 10 then mp + 3 else mp - 9) = m
                /\ (m <= 2 <-> 10 <= mp)).
  { subst mp. destruct (Z.gtb_spec m 2).
    - destruct (Z.ltb_spec (m - 3) 10); lia.
    - destruct (Z.ltb_spec (m + 9) 10); lia. }
  destruct Hmp as (Hmp & Hm' & Hjf).
  assert (Hlen : 1 <= d <= (if mp =? 11 then 29
                            else if (mp =? 1) || (mp =? 3) || (mp =? 6) || (mp =? 8)
                                 then 30 else 31)).
  { unfold daysIn in Hd. subst mp.
    destruct (Z.gtb_spec m 2);
      destruct (Z.eqb_spec m 2); try lia;
      [| destruct (isLeapYear y); destruct (Z.eqb_spec (m + 9) 11); lia
       | destruct (Z.eqb_spec (m + 9) 11); [lia |];
         assert (m = 1) by lia; subst m; cbn in Hd |- *; lia].
    destruct (Z.eqb_spec (m - 3) 11); [lia |].
    destruct (Z.eqb_spec m 4), (Z.eqb_spec m 6), (Z.eqb_spec m 9), (Z.eqb_spec m 11);
      cbn [orb] in Hd; try lia;
      destruct (Z.eqb_spec (m - 3) 1), (Z.eqb_spec (m - 3) 3), (Z.eqb_spec (m - 3) 6),
               (Z.eqb_spec (m - 3) 8); cbn [orb]; lia. }
  destruct (month_of_year mp d Hmp Hlen) as (Hdoy & Hfeb & Hmonth & Hday). fold doy in Hdoy, Hfeb, Hmonth, Hday.
  assert (Hleap : doy = 365 ->
                  (yoe + 1) mod 4 = 0 /\ ((yoe + 1) mod 100 <> 0 \/ yoe = 399)).
  { intros H365. destruct (Hfeb H365) as [Hmp11 Hd29].
    assert (Hm2 : m = 2) by (rewrite Hmp11 in Hm'; cbn in Hm'; lia).
    rewrite Hm2 in *.
    unfold daysIn in Hd. change (2 =? 2) with true in Hd. cbn iota in Hd.
    destruct (isLeapYear y) eqn:El; [| lia].
    unfold isLeapYear in El. apply andb_true_iff in El. destruct El as [E4 E100].
    apply Z.eqb_eq in E4. apply orb_true_iff in E100.
    assert (Hy' : y' = y - 1) by (unfold y'; rewrite Hm2; reflexivity).
    assert (Hy : y = yoe + 1 + era * 400) by (unfold yoe; lia).
    destruct E100 as [E100 | E400].
    - apply negb_true_iff, Z.eqb_neq in E100.
      clearbody era yoe. subst y. split.
      + revert E4. Z.to_euclidean_division_equations; lia.
      + left. revert E100. Z.to_euclidean_division_equations; lia.
    - apply Z.eqb_eq in E400.
      clearbody era yoe. subst y. split.
      + revert E4. Z.to_euclidean_division_equations; lia.
      + right. revert E400. Z.to_euclidean_division_equations; lia. }
  assert (Hdoe : 0 <= doe < 146097).
  { subst doe. clearbody yoe doy. Z.to_euclidean_division_equations; lia. }
  replace (era * 146097 + doe - 719468 + 719468) with (doe + era * 146097) by ring.
  rewrite Z.div_add by lia. rewrite (Z.div_small doe 146097) by lia.
  replace (doe + era * 146097 - (0 + era) * 146097) with doe by ring.
  pose proof (year_of_era yoe doy Hyoe Hdoy Hleap) as Hyear. fold doe in Hyear.
  rewrite Hyear. fold doe.
  replace (doe - (365 * yoe + yoe / 4 - yoe / 100)) with doy by (subst doe; ring).
  rewrite Hmonth, Hm', Hday.
  replace (yoe + (0 + era) * 400) with y' by (subst yoe; ring).
  subst y'. destruct (Z.leb_spec m 2); f_equal; f_equal; lia.
Qed.

Lemma month_of_day_of_year doy :
  0 <= doy <= 365 ->
  let mp := (5 * doy + 2) / 153 in
  let d := doy - (153 * mp + 2) / 5 + 1 in
  0 <= mp <= 11 /\ 1 <= d <= 31.
Proof.
  intros H mp d. subst d mp. Z.to_euclidean_division_equations; lia.
Qed.

(** The parts of a day number: its era, its day of the era, and what
    [civil_from_days] computes from them. *)
Lemma civil_from_days_parts z :
  exists era yoe doy mp d,
    0 <= yoe <= 399 /\ 0 <= doy <= 365 /\ 0 <= mp <= 11 /\ 1 <= d <= 31
    /\ z = era * 146097 + (yoe * 365 + yoe / 4 - yoe / 100 + doy) - 719468
    /\ doy = (153 * mp + 2) / 5 + d - 1
    /\ civil_from_days z
       = (if mp <? 10 then yoe + era * 400 else yoe + era * 400 + 1,
          if mp <? 10 then mp + 3 else mp - 9, d).
Proof.
  unfold civil_from_days. cbv zeta.
  set (era := (z + 719468) / 146097).
  set (doe := z + 719468 - era * 146097).
  assert (Hdoe : 0 <= doe < 146097)
    by (subst doe era; Z.to_euclidean_division_equations; lia).
  destruct (day_of_era_bounds doe Hdoe) as (Hyoe & Hdoy & _).
  set (yoe := (doe - doe / 1460 + doe / 36524 - doe / 146096) / 365) in *.
  set (doy := doe - (365 * yoe + yoe / 4 - yoe / 100)) in *.
  destruct (month_of_day_of_year doy Hdoy) as (Hmp & Hd).
  set (mp := (5 * doy + 2) / 153) in *.
  set (d := doy - (153 * mp + 2) / 5 + 1) in *.
  exists era, yoe, doy, mp, d.
  repeat match goal with |- _ /\ _ => split end; try lia.
  destruct (Z.ltb_spec mp 10).
  - destruct (Z.leb_spec (mp + 3) 2); [lia | reflexivity].
  - destruct (Z.leb_spec (mp - 9) 2); [reflexivity | lia].
Qed.

Lemma civil_from_days_valid z :
  1 <= snd (fst (civil_from_days z)) <= 12 /\ 1 <= snd (civil_from_days z) <= 31.
Proof.
  destruct (civil_from_days_parts z) as (era & yoe & doy & mp & d & _ & _ & Hmp & Hd & _ & _ & ->).
  cbn [fst snd]. destruct (Z.ltb_spec mp 10); lia.
Qed.

Lemma days_from_civil_from_days z :
  days_from_civil (fst (fst (civil_from_days z))) (snd (fst (civil_from_days z)))
                  (snd (civil_from_days z)) = z.
Proof.
  destruct (civil_from_days_parts z)
    as (era & yoe & doy & mp & d & Hyoe & Hdoy & Hmp & Hd & Hz & Hdoy' & ->).
  cbn [fst snd]. unfold days_from_civil. cbv zeta.
  assert (Hy : (if (if mp <? 10 then mp + 3 else mp - 9) <=? 2
                then (if mp <? 10 then yoe + era * 400 else yoe + era * 400 + 1) - 1
                else (if mp <? 10 then yoe + era * 400 else yoe + era * 400 + 1))
               = yoe + era * 400).
  { destruct (Z.ltb_spec mp 10).
    - destruct (Z.leb_spec (mp + 3) 2); lia.
    - destruct (Z.leb_spec (mp - 9) 2); lia. }
  rewrite Hy.
  assert (Hm : (if (if mp <? 10 then mp + 3 else mp - 9) >? 2
                then (if mp <? 10 then mp + 3 else mp - 9) - 3
                else (if mp <? 10 then mp + 3 else mp - 9) + 9) = mp).
  { destruct (Z.ltb_spec mp 10).
    - destruct (Z.gtb_spec (mp + 3) 2); lia.
    - destruct (Z.gtb_spec (mp - 9) 2); lia. }
  rewrite Hm.
  rewrite Z.div_add by lia. rewrite (Z.div_small yoe 400) by lia.
  replace (yoe + era * 400 - (0 + era) * 400) with yoe by ring.
  rewrite <- Hdoy'. lia.
Qed.

(** The first day of the month after (y, m) is the day after its last. *)
Lemma days_from_civil_next_month y m :
  1 <= m <= 12 ->
  days_from_civil (if m =? 12 then y + 1 else y) (if m =? 12 then 1 else m + 1) 1
  = days_from_civil y m (daysIn y m) + 1.
Proof.
  intros Hm.
  assert (Hcase : m = 1 \/ m = 2 \/ m = 3 \/ m = 4 \/ m = 5 \/ m = 6 \/ m = 7
                  \/ m = 8 \/ m = 9 \/ m = 10 \/ m = 11 \/ m = 12) by lia.
  unfold days_from_civil, daysIn, isLeapYear. cbv zeta.
  repeat (destruct Hcase as [-> | Hcase]); try subst m;
    repeat match goal with
           | |- context [if ?a <=? ?b then _ else _] => destruct (Z.leb_spec a b); try lia
           | |- context [if ?a >? ?b then _ else _] => destruct (Z.gtb_spec a b); try lia
           | |- context [?a =? ?b] => destruct (Z.eqb_spec a b); try lia
           end;
    cbn [andb orb negb];
    Z.to_euclidean_division_equations; lia.
Qed.

End CalendarFacts.

(** ** Dates: local midnights, months, month arithmetic *)

Section DateFacts.

Import JsDate.

Lemma daysIn_bounds y m : 28 <= daysIn y m <= 31.
Proof.
  unfold daysIn. destruct (m =? 2); [destruct (isLeapYear y); lia |].
  destruct ((m =? 4) || (m =? 6) || (m =? 9) || (m =? 11)); lia.
Qed.

Lemma days_from_civil_day y m d : days_from_civil y m 1 + (d - 1) = days_from_civil y m d.
Proof. unfold days_from_civil. cbv zeta. lia. Qed.

(** The local day on which an instant at a given time after a local
    midnight falls. *)
Lemma localDay_after_midnight tz day time :
  0 <= time < msPerDay ->
  localDay tz (day * msPerDay - tz * msPerMinute + time) = day
  /\ timeWithinDay tz (day * msPerDay - tz * msPerMinute + time) = time.
Proof.
  intros H. unfold localDay, timeWithinDay, msPerDay in *.
  replace (day * 86400000 - tz * msPerMinute + time + tz * msPerMinute)
    with (time + day * 86400000) by ring.
  rewrite Z.div_add, Z.mod_add by lia.
  rewrite Z.div_small, Z.mod_small by lia. lia.
Qed.


(** An instant is its local day, its time within the day, and the offset. *)
Lemma instant_parts tz t :
  t = localDay tz t * msPerDay - tz * msPerMinute + timeWithinDay tz t
  /\ 0 <= timeWithinDay tz t < msPerDay.
Proof.
  unfold localDay, timeWithinDay, msPerDay.
  pose proof (Z.div_mod (t + tz * msPerMinute) 86400000).
  pose proof (Z.mod_pos_bound (t + tz * msPerMinute) 86400000). lia.
Qed.


Lemma getMonth_range tz t : 0 <= getMonth tz t <= 11.
Proof.
  unfold getMonth. pose proof (civil_from_days_valid (localDay tz t)) as [H _].
  destruct (civil_from_days (localDay tz t)) as [[y m] d]. cbn [fst snd] in H. lia.
Qed.

Lemma getDate_range tz t : 1 <= getDate tz t <= 31.
Proof.
  unfold getDate. pose proof (civil_from_days_valid (localDay tz t)) as [_ H].
  destruct (civil_from_days (localDay tz t)) as [[y m] d]. cbn [fst snd] in H. lia.
Qed.

(** The local day of an instant, from its getters. *)
Lemma localDay_getters tz t :
  localDay tz t = days_from_civil (getFullYear tz t) (getMonth tz t + 1) (getDate tz t).
Proof.
  unfold getFullYear, getMonth, getDate.
  pose proof (days_from_civil_from_days (localDay tz t)) as H.
  destruct (civil_from_days (localDay tz t)) as [[y m] d]. cbn [fst snd] in H.
  replace (m - 1 + 1) with m by lia. now rewrite H.
Qed.

(** The month after the month index [monthIndex] of [y]. *)
Lemma next_month_start y monthIndex :
  0 <= monthIndex <= 11 ->
  days_from_civil (y + (monthIndex + 1) / 12) ((monthIndex + 1) mod 12 + 1) 1
  = days_from_civil y (monthIndex + 1) (daysIn y (monthIndex + 1)) + 1.
Proof.
  intros Hm. rewrite <- (days_from_civil_next_month y (monthIndex + 1)) by lia.
  destruct (Z.eqb_spec (monthIndex + 1) 12) as [E | E].
  - rewrite E. reflexivity.
  - rewrite Z.div_small, Z.mod_small by lia. now rewrite Z.add_0_r.
Qed.


Lemma localDay_newDate_later tz y monthIndex k time :
  0 <= time < msPerDay ->
  localDay tz (newDate tz y monthIndex 1 + k * msPerDay + time)
  = days_from_civil (y + monthIndex / 12) (monthIndex mod 12 + 1) 1 + k
  /\ timeWithinDay tz (newDate tz y monthIndex 1 + k * msPerDay + time) = time.
Proof.
  intros H.
  assert (E : newDate tz y monthIndex 1 + k * msPerDay + time
              = (days_from_civil (y + monthIndex / 12) (monthIndex mod 12 + 1) 1 + k)
                * msPerDay - tz * msPerMinute + time)
    by (unfold newDate, msPerDay; cbv zeta; lia).
  rewrite E. now apply localDay_after_midnight.
Qed.

Lemma newDate_day tz y monthIndex d :
  newDate tz y monthIndex d = newDate tz y monthIndex 1 + (d - 1) * msPerDay.
Proof. unfold newDate, msPerDay. cbv zeta. lia. Qed.

End DateFacts.

Section MonthGrid.

Import JsDate Remote Roster.


End MonthGrid.


(** ** Moving between months *)

Section SetMonth.

Import JsDate.

(** [setMonth] to a month that has the day of the month of the date. *)
Lemma setMonth_civil tz t monthIndex :
  getDate tz t <= daysIn (getFullYear tz t + monthIndex / 12) (monthIndex mod 12 + 1) ->
  civil_from_days (localDay tz (setMonth tz t monthIndex))
  = (getFullYear tz t + monthIndex / 12, monthIndex mod 12 + 1, getDate tz t)
  /\ timeWithinDay tz (setMonth tz t monthIndex) = timeWithinDay tz t
  /\ localDay tz (setMonth tz t monthIndex)
     = days_from_civil (getFullYear tz t + monthIndex / 12) (monthIndex mod 12 + 1)
                       (getDate tz t).
Proof.
  intros Hd. unfold setMonth.
  destruct (instant_parts tz t) as [_ Htime].
  pose proof (getDate_range tz t) as HD.
  rewrite newDate_day.
  destruct (localDay_newDate_later tz (getFullYear tz t) monthIndex (getDate tz t - 1)
              (timeWithinDay tz t) Htime) as [-> ->].
  rewrite days_from_civil_day.
  pose proof (Z.mod_pos_bound monthIndex 12).
  split; [apply civil_from_days_from_civil; lia | split; reflexivity].
Qed.

Lemma setMonth_getters tz t monthIndex :
  getDate tz t <= 28 ->
  getFullYear tz (setMonth tz t monthIndex) = getFullYear tz t + monthIndex / 12
  /\ getMonth tz (setMonth tz t monthIndex) = monthIndex mod 12
  /\ getDate tz (setMonth tz t monthIndex) = getDate tz t
  /\ timeWithinDay tz (setMonth tz t monthIndex) = timeWithinDay tz t.
Proof.
  intros Hd.
  pose proof (daysIn_bounds (getFullYear tz t + monthIndex / 12) (monthIndex mod 12 + 1)).
  destruct (setMonth_civil tz t monthIndex) as (E & Htime & _); [lia |].
  unfold getFullYear at 1, getMonth, getDate at 1. rewrite E.
  repeat split; [lia | exact Htime].
Qed.

(** Setting the month and then setting it to a month index that denotes the
    month one started from, from a day that every month has. *)
Lemma setMonth_return tz t monthIndex monthIndex' :
  getDate tz t <= 28 ->
  monthIndex / 12 + monthIndex' / 12 = 0 ->
  monthIndex' mod 12 = getMonth tz t ->
  setMonth tz (setMonth tz t monthIndex) monthIndex' = t.
Proof.
  intros Hd Hy Hm.
  destruct (setMonth_getters tz t monthIndex Hd) as (Hy1 & _ & Hdate & Htime).
  unfold setMonth at 1. rewrite Hy1, Hdate, Htime.
  destruct (instant_parts tz t) as [Ht _].
  transitivity (localDay tz t * msPerDay - tz * msPerMinute + timeWithinDay tz t);
    [| symmetry; exact Ht].
  rewrite (localDay_getters tz t).
  unfold newDate. cbv zeta. rewrite days_from_civil_day.
  replace (getFullYear tz t + monthIndex / 12 + monthIndex' / 12)
    with (getFullYear tz t) by lia.
  rewrite Hm. reflexivity.
Qed.

(** [setMonth] to the next month from a day that the next month does not have. *)
Lemma setMonth_overflow tz t :
  let y1 := getFullYear tz t + (getMonth tz t + 1) / 12 in
  let m1 := (getMonth tz t + 1) mod 12 in
  daysIn y1 (m1 + 1) < getDate tz t ->
  getMonth tz (setMonth tz t (getMonth tz t + 1)) = (getMonth tz t + 2) mod 12
  /\ getDate tz (setMonth tz t (getMonth tz t + 1)) = getDate tz t - daysIn y1 (m1 + 1).
Proof.
  intros y1 m1 Hover.
  pose proof (getMonth_range tz t) as HM. pose proof (getDate_range tz t) as HD.
  pose proof (daysIn_bounds y1 (m1 + 1)) as Hlen.
  assert (Hm1 : 0 <= m1 <= 11) by (subst m1; Z.to_euclidean_division_equations; lia).
  destruct (instant_parts tz t) as [_ Htime].
  assert (E : civil_from_days (localDay tz (setMonth tz t (getMonth tz t + 1)))
              = (y1 + (m1 + 1) / 12, (m1 + 1) mod 12 + 1, getDate tz t - daysIn y1 (m1 + 1))).
  { unfold setMonth. rewrite newDate_day.
    destruct (localDay_newDate_later tz (getFullYear tz t) (getMonth tz t + 1)
                (getDate tz t - 1) (timeWithinDay tz t) Htime) as [-> _].
    fold y1 m1.
    replace (days_from_civil y1 (m1 + 1) 1 + (getDate tz t - 1))
      with (days_from_civil y1 (m1 + 1) (daysIn y1 (m1 + 1)) + 1
            + (getDate tz t - daysIn y1 (m1 + 1) - 1))
      by (rewrite <- (days_from_civil_day y1 (m1 + 1) (daysIn y1 (m1 + 1))); lia).
    rewrite <- next_month_start by exact Hm1.
    rewrite days_from_civil_day.
    pose proof (Z.mod_pos_bound (m1 + 1) 12).
    pose proof (daysIn_bounds (y1 + (m1 + 1) / 12) ((m1 + 1) mod 12 + 1)).
    apply civil_from_days_from_civil; lia. }
  unfold getMonth at 1, getDate at 1. rewrite E. split; [| reflexivity].
  subst m1. Z.to_euclidean_division_equations; lia.
Qed.

End SetMonth.

Section Navigation.

Import JsDate.

(** What one press of a month button and then one press of the other leave
    as the displayed date, for a component whose buttons compute [setMonth]
    of the month index plus or minus one. *)
Lemma month_buttons tz t :
  getDate tz t <= 28 ->
  let forth := setMonth tz t (getMonth tz t + 1) in
  let back := setMonth tz t (getMonth tz t - 1) in
  (getMonth tz forth = (getMonth tz t + 1) mod 12
   /\ getFullYear tz forth = getFullYear tz t + (getMonth tz t + 1) / 12
   /\ getDate tz forth = getDate tz t
   /\ timeWithinDay tz forth = timeWithinDay tz t)
  /\ (getMonth tz back = (getMonth tz t - 1) mod 12
      /\ getFullYear tz back = getFullYear tz t + (getMonth tz t - 1) / 12
      /\ getDate tz back = getDate tz t
      /\ timeWithinDay tz back = timeWithinDay tz t)
  /\ setMonth tz forth (getMonth tz forth - 1) = t
  /\ setMonth tz back (getMonth tz back + 1) = t.
Proof.
  intros Ht forth back.
  destruct (setMonth_getters tz t (getMonth tz t + 1) Ht) as (Hy & Hm & Hd & Htime).
  destruct (setMonth_getters tz t (getMonth tz t - 1) Ht) as (Hy' & Hm' & Hd' & Htime').
  split; [exact (conj Hm (conj Hy (conj Hd Htime))) |].
  split; [exact (conj Hm' (conj Hy' (conj Hd' Htime'))) |].
  pose proof (getMonth_range tz t) as HM.
  split.
  - apply setMonth_return; [exact Ht | |]; subst forth; rewrite Hm;
      Z.to_euclidean_division_equations; lia.
  - apply setMonth_return; [exact Ht | |]; subst back; rewrite Hm';
      Z.to_euclidean_division_equations; lia.
Qed.

End Navigation.

(** X20. The month buttons of the roster, from a day of the month that
    every month has (the 28th at most): the displayed date moves to the same
    day and the same time of day of the following (previous) month, the
    year changing after December (before January); and pressing one button
    and then the other gives the displayed date back. *)
Theorem navigateMonth_round_trip (r : Roster.Render) (w w' : Roster.W) :
  let tz := Roster.tz r in
  let t := Roster.currentDate (Roster.state r) in
  JsDate.getDate tz t <= 28 ->
  let pressed (d : Roster.Direction) :=
    {| Roster.user := Roster.user r; Roster.tz := tz;
       Roster.state := Remote.ui (snd (Roster.navigateMonth r d w)) |} in
  let shown (d : Roster.Direction) := Roster.currentDate (Roster.state (pressed d)) in
  (JsDate.getMonth tz (shown Roster.next) = (JsDate.getMonth tz t + 1) mod 12
   /\ JsDate.getFullYear tz (shown Roster.next)
      = JsDate.getFullYear tz t + (JsDate.getMonth tz t + 1) / 12
   /\ JsDate.getDate tz (shown Roster.next) = JsDate.getDate tz t
   /\ JsDate.timeWithinDay tz (shown Roster.next) = JsDate.timeWithinDay tz t)
  /\ (JsDate.getMonth tz (shown Roster.prev) = (JsDate.getMonth tz t - 1) mod 12
      /\ JsDate.getFullYear tz (shown Roster.prev)
         = JsDate.getFullYear tz t + (JsDate.getMonth tz t - 1) / 12
      /\ JsDate.getDate tz (shown Roster.prev) = JsDate.getDate tz t
      /\ JsDate.timeWithinDay tz (shown Roster.prev) = JsDate.timeWithinDay tz t)
  /\ Roster.currentDate
       (Remote.ui (snd (Roster.navigateMonth (pressed Roster.next) Roster.prev w'))) = t
  /\ Roster.currentDate
       (Remote.ui (snd (Roster.navigateMonth (pressed Roster.prev) Roster.next w'))) = t.
Proof.
  intros tz t Ht pressed shown. exact (month_buttons tz t Ht).
Qed.

(** The roster shows 15 April 2025, 01:00: the following month is May, and
    pressing "previous" afterwards shows 15 April 2025, 01:00 again. *)
Lemma navigateMonth_round_trip_witness :
  let st := Scenario.april [] [] None in
  let r := Scenario.render st in
  let w := Scenario.world (Scenario.tables [] []) [] st in
  let pressed := {| Roster.user := Roster.user r; Roster.tz := Roster.tz r;
                    Roster.state := Remote.ui (snd (Roster.navigateMonth r Roster.next w)) |} in
  JsDate.getMonth (Roster.tz r) (Roster.currentDate (Roster.state pressed))
  = (JsDate.getMonth (Roster.tz r) (Roster.currentDate st) + 1) mod 12
  /\ JsDate.getMonth (Roster.tz r) (Roster.currentDate st) = 3
  /\ Roster.currentDate (Remote.ui (snd (Roster.navigateMonth pressed Roster.prev w)))
     = Roster.currentDate st.
Proof.
  intros st r w pressed.
  destruct (navigateMonth_round_trip r w w) as ((Hmonth & _) & _ & Hback & _).
  - vm_compute. discriminate.
  - split; [exact Hmonth | split; [vm_compute; reflexivity | exact Hback]].
Defined.

(** X21. A month button pressed on a day of the month that the following
    month does not have skips that month: the displayed date lands in the
    month after it, on the day that is left over.  (On 31 January, "next"
    shows a day of March.)  This holds for the roster and for the
    calendar. *)
Theorem navigateMonth_skips_short_month (r : Roster.Render) (c : FetsCalendar.Render)
  (w : Roster.W) (v : Remote.World FetsCalendar.Backend FetsCalendar.CalendarState) :
  let following (tz : Z) (t : JsDate.Instant) :=
    JsDate.daysIn (JsDate.getFullYear tz t + (JsDate.getMonth tz t + 1) / 12)
                  ((JsDate.getMonth tz t + 1) mod 12 + 1) in
  let t := Roster.currentDate (Roster.state r) in
  let s := FetsCalendar.currentDate (FetsCalendar.state c) in
  (following (Roster.tz r) t < JsDate.getDate (Roster.tz r) t ->
   let shown := Roster.currentDate (Remote.ui (snd (Roster.navigateMonth r Roster.next w))) in
   JsDate.getMonth (Roster.tz r) shown = (JsDate.getMonth (Roster.tz r) t + 2) mod 12
   /\ JsDate.getDate (Roster.tz r) shown
      = JsDate.getDate (Roster.tz r) t - following (Roster.tz r) t)
  /\ (following (FetsCalendar.tz c) s < JsDate.getDate (FetsCalendar.tz c) s ->
      let shown :=
        FetsCalendar.currentDate
          (Remote.ui (snd (FetsCalendar.navigateMonth c FetsCalendar.next v))) in
      JsDate.getMonth (FetsCalendar.tz c) shown
      = (JsDate.getMonth (FetsCalendar.tz c) s + 2) mod 12
      /\ JsDate.getDate (FetsCalendar.tz c) shown
         = JsDate.getDate (FetsCalendar.tz c) s - following (FetsCalendar.tz c) s).
Proof.
  intros following t s. split.
  - exact (setMonth_overflow (Roster.tz r) t).
  - exact (setMonth_overflow (FetsCalendar.tz c) s).
Qed.

(** The calendar shows 31 January 2025, 01:00: "next" shows 3 March 2025. *)
Lemma navigateMonth_skips_short_month_witness :
  let c := CalendarScenario.renderAt (JsDate.newDate 330 2025 0 31 + 3600000) in
  let shown :=
    FetsCalendar.currentDate
      (Remote.ui (snd (FetsCalendar.navigateMonth c FetsCalendar.next
                         (CalendarScenario.world 1)))) in
  JsDate.getMonth (FetsCalendar.tz c) shown
  = (JsDate.getMonth (FetsCalendar.tz c)
                     (FetsCalendar.currentDate (FetsCalendar.state c)) + 2) mod 12
  /\ (JsDate.getMonth (FetsCalendar.tz c)
                      (FetsCalendar.currentDate (FetsCalendar.state c)) + 2) mod 12 = 2.
Proof.
  intros c shown.
  destruct (navigateMonth_skips_short_month
              (Scenario.render (Scenario.april [] [] None)) c
              (Scenario.world (Scenario.tables [] []) [] (Scenario.april [] [] None))
              (CalendarScenario.world 1)) as [_ Hcalendar].
  destruct Hcalendar as [Hmonth _].
  - vm_compute. reflexivity.
  - split; [exact Hmonth | vm_compute; reflexivity].
Defined.

(** ** The month grid of the calendar *)

Section CalendarGrid.

Import JsDate Remote FetsCalendar.


End CalendarGrid.


(** ** Reloading the roster: failures and visibility *)

Section Reloading.

Import Remote Roster.

Lemma tryCatch_cases {B U A} (body : Async B U A) (handler : JsError -> Async B U A) w :
  (exists a w1, body w = (Normal A a, w1) /\ tryCatch body handler w = (Normal A a, w1))
  \/ (exists e w1, body w = (Thrown A e, w1) /\ tryCatch body handler w = handler e w1).
Proof.
  unfold tryCatch. destruct (body w) as [[a | e] w1].
  - left. now exists a, w1.
  - right. now exists e, w1.
Qed.

Lemma keeps_orThrowLogged {X R} (part : RosterState -> X) line (res : R + JsError) :
  keeps part (orThrowLogged line res).
Proof. destruct res; simpl; auto with keeps. Qed.

(** The reload ends either with the notification it found, or with its own
    error notification and nothing loaded. *)
Lemma loadData_outcome r (w : W) :
  let s := ui (snd (loadData r w)) in
  loading s = false
  /\ (notification s = notification (ui w)
      \/ (staffProfiles s = [] /\ schedules s = [] /\ requests s = []
          /\ versions s = [] /\ overtimeData s = []
          /\ exists e, notification s
                       = Some {| Notification.type := Roster.error;
                                 Notification.message := databaseErrorMessage e |})).
Proof.
  intros s. subst s. unfold loadData, tryFinally.
  match goal with
  | |- context [tryCatch ?body ?handler w] =>
      destruct (tryCatch_cases body handler w) as [(a & w1 & Eb & ->) | (e & w1 & Eb & ->)];
      assert (Hk : keeps notification body)
  end.
  1,3: repeat first
         [ apply keeps_bind; [| intros ?]
         | apply keeps_request
         | apply keeps_setState; reflexivity
         | apply keeps_orThrowLogged
         | apply keeps_orThrow
         | apply keeps_ret
         | apply keeps_throw
         | match goal with
           | |- keeps _ (match ?x with _ => _ end) => destruct x
           end ].
  - specialize (Hk w). rewrite Eb in Hk. cbn [snd setState ui loading setLoading notification].
    split; [reflexivity | left; exact Hk].
  - clear Hk Eb. unfold bind, showNotification.
    cbn [snd fst setState consoleError ui loading setLoading notification setNotification
         setStaffProfiles setSchedules setRequests setVersionsState setOvertimeData
         staffProfiles schedules requests versions overtimeData].
    split; [reflexivity | right]. repeat split. now exists e.
Qed.

Lemma isAdmin_without_profiles r :
  staffProfiles (state r) = [] -> isAdmin r = false.
Proof.
  intros H. unfold isAdmin, currentStaffProfile, getCurrentUserStaffProfile.
  rewrite H. now destruct (user r).
Qed.

End Reloading.

(** X23. A reload of the roster that fails leaves nothing to act on: it
    always ends with the loading flag down; and when it ends with another
    notification than it found, that notification is its database error,
    the staff, the schedules, the requests, the versions and the overtime
    records of the page are all empty, and in the next render nobody is an
    administrator, so that no handler writes until a reload succeeds. *)
Theorem loadData_failure_clears (r : Roster.Render) (w : Roster.W) :
  let s := Remote.ui (snd (Roster.loadData r w)) in
  Roster.loading s = false
  /\ (Roster.notification s <> Roster.notification (Remote.ui w) ->
      Roster.staffProfiles s = [] /\ Roster.schedules s = [] /\ Roster.requests s = []
      /\ Roster.versions s = [] /\ Roster.overtimeData s = []
      /\ (exists e, Roster.notification s
                    = Some {| Roster.Notification.type := Roster.error;
                              Roster.Notification.message := Roster.databaseErrorMessage e |})
      /\ Roster.isAdmin {| Roster.user := Roster.user r; Roster.tz := Roster.tz r;
                           Roster.state := s |} = false).
Proof.
  intros s. destruct (loadData_outcome r w) as [Hloading Hcases]. fold s in Hloading, Hcases.
  split; [exact Hloading |]. intros Hchanged.
  destruct Hcases as [Hsame | (Hp & Hs & Hq & Hv & Ho & He)]; [contradiction |].
  repeat match goal with |- _ /\ _ => split end; try assumption.
  apply isAdmin_without_profiles. exact Hp.
Qed.

(** The data service rejects the first round trip of a reload. *)
Lemma loadData_failure_clears_witness :
  let rows := [Scenario.shift "7" "s2" "2025-04-10" "D"] in
  let st := Scenario.april rows [] None in
  let w := Scenario.world (Scenario.tables rows []) [Remote.Rejected Scenario.refused] st in
  let s := Remote.ui (snd (Roster.loadData (Scenario.render st) w)) in
  Roster.schedules s = []
  /\ Roster.isAdmin {| Roster.user := Roster.user (Scenario.render st);
                       Roster.tz := Roster.tz (Scenario.render st);
                       Roster.state := s |} = false.
Proof.
  intros rows st w s.
  destruct (loadData_failure_clears (Scenario.render st) w) as [_ Hcleared].
  destruct Hcleared as (_ & Hschedules & _ & _ & _ & _ & Hadmin).
  - vm_compute. discriminate.
  - split; [exact Hschedules | exact Hadmin].
Defined.

Section Visibility.

Import Remote Roster.

(** Runs the next round trip, which is carried out, naming the world after it. *)
Ltac round Hw :=
  match goal with
  | |- context [request ?op ?w] =>
      let w' := fresh "w" in
      let E := fresh "E" in
      let Hdb := fresh "Hdb" in
      let Hui := fresh "Hui" in
      let Hw' := fresh "Hw" in
      destruct (request_answers op w Hw) as (w' & E & Hdb & Hui & _ & _ & Hw');
      rewrite E; clear E;
      cbn [select queryCurrentVersion fst snd db ui] in Hdb, Hui;
      cbn [select queryCurrentVersion fst snd orThrow orThrowLogged ret setState db];
      repeat match goal with
             | H : db ?v = _ |- context [db ?v] => rewrite H
             end
  end.

(** The requests a reload whose round trips are carried out leaves in the
    state. *)
Lemma loadData_requests r (w : W) :
  answers w ->
  requests (ui (snd (loadData r w)))
  = if isSuperAdmin r then newestFirst (leave_requests (db w))
    else match user r with
         | Some u =>
             match find (fun p => optEqb (StaffProfile.user_id p) (Some (User.id u)))
                        (map toStaffProfile
                             (orderBy (fun a c => String.leb (StaffProfileRow.full_name a)
                                                             (StaffProfileRow.full_name c))
                                      (staff_profiles (db w)))) with
             | Some p =>
                 newestFirst (filter (fun q => (LeaveRequest.user_id q =? StaffProfile.id p)%string)
                                     (leave_requests (db w)))
             | None => requests (ui w)
             end
         | None => requests (ui w)
         end.
Proof.
  intros Hw. unfold loadData.
  unfold tryFinally, tryCatch, bind. cbn [setState].
  match goal with
  | |- context [request ?op ?w0] =>
      assert (Hw0 : answers w0) by exact Hw
  end.
  round Hw0. round Hw1. round Hw2. round Hw3.
  assert (Hcode : forall e, maybeSingle (activeIn (scopeMonth r) (scopeYear r)
                                           (roster_versions (db w))) = inr e ->
                            negb (code e =? "PGRST116")%string = false).
  { unfold maybeSingle. intros e.
    destruct (activeIn _ _ _) as [|? [|? ?]]; try discriminate; now intros [= <-]. }
  destruct (maybeSingle _) as [data | e] eqn:Em; [| rewrite (Hcode e eq_refl)];
    cbn [ret setState];
    round Hw4; round Hw5;
    (destruct (isSuperAdmin r);
     [ round Hw6
     | destruct (user r) as [usr |];
       [ match goal with
         | |- context [find ?f ?l] => destruct (find f l) as [usp |]; [round Hw6 |]
         end
       |] ]);
    cbn [fst snd ret ui requests setState
         setLoading setRequests setOvertimeData setVersionsState setCurrentVersion
         setSchedules setStaffProfiles];
    repeat match goal with
           | H : ui _ = _ |- _ => rewrite H; clear H
           end;
    cbn [ui requests
         setLoading setRequests setOvertimeData setVersionsState setCurrentVersion
         setSchedules setStaffProfiles];
    repeat match goal with
           | H : db _ = _ |- _ => rewrite H; clear H
           end;
    reflexivity.
Qed.

End Visibility.

(** X24. Who sees which requests.  After a reload whose round trips are
    carried out, on a page that held no request: a user who is not a super
    administrator sees only requests of the data service that were filed
    in the name of a staff profile of their own; a super administrator sees
    every request, the newest first. *)
Theorem loadData_own_requests (r : Roster.Render) (u : Roster.User.t) (w : Roster.W) :
  Roster.user r = Some u -> Remote.answers w -> Roster.requests (Remote.ui w) = [] ->
  let shown := Roster.requests (Remote.ui (snd (Roster.loadData r w))) in
  (Roster.isSuperAdmin r = false ->
   Forall (fun q =>
             In q (Roster.leave_requests (Remote.db w))
             /\ exists profile,
                  In profile (Roster.staff_profiles (Remote.db w))
                  /\ Roster.StaffProfileRow.user_id profile = Some (Roster.User.id u)
                  /\ Roster.LeaveRequest.user_id q = Roster.StaffProfileRow.id profile)
          shown)
  /\ (Roster.isSuperAdmin r = true ->
      shown = Roster.newestFirst (Roster.leave_requests (Remote.db w))).
Proof.
  intros Hu Hw Hempty shown. subst shown. rewrite (loadData_requests r w Hw), Hu.
  split; intros Hadmin; rewrite Hadmin; [| reflexivity].
  destruct (find _ _) as [p |] eqn:Efind; [| rewrite Hempty; constructor].
  apply find_some in Efind. destruct Efind as [Hin Hmine].
  apply in_map_iff in Hin. destruct Hin as (profile & <- & Hin).
  apply orderBy_In in Hin. apply optEqb_true in Hmine.
  apply Forall_forall. intros q Hq. unfold Roster.newestFirst in Hq.
  apply orderBy_In, filter_In in Hq. destruct Hq as [Hq Hid].
  apply String.eqb_eq in Hid.
  split; [exact Hq |]. exists profile. repeat split; assumption.
Qed.

(** Bob reloads the roster: the data service holds his half-day request and
    a leave request of Cy. *)
Lemma loadData_own_requests_witness :
  let other := {| Roster.LeaveRequest.id := Some "q2"; Roster.LeaveRequest.user_id := "s3";
                  Roster.LeaveRequest.request_type := "leave";
                  Roster.LeaveRequest.requested_date := "2025-04-20";
                  Roster.LeaveRequest.swap_with_user_id := None;
                  Roster.LeaveRequest.swap_date := None;
                  Roster.LeaveRequest.reason := None;
                  Roster.LeaveRequest.status := "pending";
                  Roster.LeaveRequest.approved_by := None;
                  Roster.LeaveRequest.approved_at := None;
                  Roster.LeaveRequest.created_at := 60 |} in
  let st := Scenario.april [] [] None in
  let w := Scenario.world (Scenario.withRequests [Scenario.halfDay; other]
                                                 (Scenario.tables [] [])) [] st in
  Forall (fun q => Roster.LeaveRequest.user_id q = "s2")
         (Roster.requests (Remote.ui (snd (Roster.loadData (Scenario.renderAs "u2" st) w)))).
Proof.
  intros other st w.
  destruct (loadData_own_requests (Scenario.renderAs "u2" st) {| Roster.User.id := "u2" |} w)
    as [Hmine _].
  - reflexivity.
  - constructor.
  - reflexivity.
  - eapply Forall_impl; [| apply Hmine; vm_compute; reflexivity].
    intros q (_ & profile & Hin & Huser & ->).
    cbn in Hin. destruct Hin as [<- | [<- | [<- | []]]]; cbn in Huser |- *;
      try discriminate; reflexivity.
Defined.

(** ** The status of a candidate *)

Section CandidateStatus.

Import Remote CandidateTracker.

Variables (tz : Z) (parseDate : string -> option JsDate.Instant) (random1000 : nat -> Z).

Ltac run := unfold tryCatch, bind, newDateNow; cbn beta iota.

(** The tables after a status update: as they were, or with the row of the
    candidate rewritten. *)
Lemma handleUpdateStatus_tables candidateId newStatus
  (w : World Backend (TrackerState * list string)) :
  let w' := snd (handleUpdateStatus tz parseDate random1000 candidateId newStatus w) in
  candidate_roster_uploads (db w') = candidate_roster_uploads (db w)
  /\ (candidates_table (db w')
      = map (fun c => if (CandidateRow.id c =? candidateId)%string
                      then statusUpdate newStatus (JsDate.toISOString (now w)) c else c)
            (candidates_table (db w))
      \/ (hd Resolved (replies w) <> Resolved
          /\ candidates_table (db w') = candidates_table (db w))).
Proof.
  intros w'. subst w'. unfold handleUpdateStatus. run. unfold request.
  destruct (replies w) as [|[| e | e] rs]; cbn [updateCandidateById fst snd hd].
  1,2: unfold within;
       match goal with
       | |- context [loadCandidates _ _ _ ?w1] =>
           destruct (loadCandidates_run tz parseDate random1000 w1) as (w2 & -> & Hdb & _)
       end;
       cbn [fst snd db setDb popReply] in Hdb |- *; rewrite Hdb;
       split; [reflexivity | left; reflexivity].
  - cbn [consoleError alert setState fst snd db popReply].
    split; [reflexivity | right; split; [discriminate | reflexivity]].
  - cbn [consoleError alert setState fst snd db popReply].
    split; [reflexivity | right; split; [discriminate | reflexivity]].
Qed.

End CandidateStatus.

(** X25. A status update touches the status of the candidate with that
    identifier and nothing else, except that checking in also stamps the
    check-in time: whatever the data service replies, no candidate is added
    or removed, the names, emails and confirmation numbers are as they
    were, the status of every other candidate is as it was, and a check-in
    time is never cleared or changed by a status other than "checked_in".
    When the update is carried out, the candidate has the new status. *)
Theorem handleUpdateStatus_touches_status (tz : Z)
  (parseDate : string -> option JsDate.Instant) (random1000 : nat -> Z)
  (candidateId newStatus : string)
  (w : Remote.World CandidateTracker.Backend (CandidateTracker.TrackerState * list string)) :
  let rows := CandidateTracker.candidates_table (Remote.db w) in
  let rows' :=
    CandidateTracker.candidates_table
      (Remote.db (snd (CandidateTracker.handleUpdateStatus tz parseDate random1000
                         candidateId newStatus w))) in
  map (fun c => (CandidateTracker.CandidateRow.id c, CandidateTracker.CandidateRow.full_name c,
                 CandidateTracker.CandidateRow.email c,
                 CandidateTracker.CandidateRow.confirmation_number c)) rows'
  = map (fun c => (CandidateTracker.CandidateRow.id c, CandidateTracker.CandidateRow.full_name c,
                   CandidateTracker.CandidateRow.email c,
                   CandidateTracker.CandidateRow.confirmation_number c)) rows
  /\ Forall2 (fun c c' =>
                CandidateTracker.CandidateRow.id c <> candidateId -> c' = c) rows rows'
  /\ (newStatus <> "checked_in" ->
      map CandidateTracker.CandidateRow.check_in_time rows'
      = map CandidateTracker.CandidateRow.check_in_time rows)
  /\ (hd Remote.Resolved (Remote.replies w) = Remote.Resolved ->
      Forall (fun c' =>
                CandidateTracker.CandidateRow.id c' = candidateId ->
                CandidateTracker.CandidateRow.status c' = newStatus
                /\ (newStatus = "checked_in" ->
                    CandidateTracker.CandidateRow.check_in_time c'
                    = Some (JsDate.toISOString (Remote.now w))))
             rows').
Proof.
  intros rows rows'.
  destruct (handleUpdateStatus_tables tz parseDate random1000 candidateId newStatus w)
    as [_ [Hupdated | [Hrefused Hsame]]];
    [fold rows in Hupdated; fold rows' in Hupdated
    | fold rows in Hsame; fold rows' in Hsame].
  - rewrite Hupdated. clear Hupdated. split; [| split; [| split]].
    + rewrite map_map. apply map_ext. intros c.
      destruct (CandidateTracker.CandidateRow.id c =? candidateId)%string; reflexivity.
    + induction rows as [|c l IH]; cbn [map]; constructor; [| exact IH].
      intros Hne. destruct (String.eqb_spec (CandidateTracker.CandidateRow.id c) candidateId);
        [contradiction | reflexivity].
    + intros Hstatus. rewrite map_map. apply map_ext. intros c.
      destruct (CandidateTracker.CandidateRow.id c =? candidateId)%string; [| reflexivity].
      cbn [CandidateTracker.statusUpdate CandidateTracker.CandidateRow.check_in_time].
      destruct (String.eqb_spec newStatus "checked_in"); [contradiction | reflexivity].
    + intros _. apply Forall_forall. intros c' Hin. apply in_map_iff in Hin.
      destruct Hin as (c & <- & _).
      destruct (String.eqb_spec (CandidateTracker.CandidateRow.id c) candidateId) as [E | E].
      * intros _. split; [reflexivity |]. intros ->. reflexivity.
      * intros Hid. contradiction.
  - rewrite Hsame. split; [reflexivity |]. split; [| split].
    + clear. induction rows; constructor; auto.
    + reflexivity.
    + intros Hhd. contradiction.
Qed.

(** ** The colour of a client *)

Section ClientTypes.

Lemma upperChar_lowerChar c : Js.upperChar (Js.lowerChar c) = Js.upperChar c.
Proof. destruct c as [[] [] [] [] [] [] [] []]; reflexivity. Qed.

Lemma upperChar_upperChar c : Js.upperChar (Js.upperChar c) = Js.upperChar c.
Proof. destruct c as [[] [] [] [] [] [] [] []]; reflexivity. Qed.

Lemma toUpperCase_toLowerCase s : Js.toUpperCase (Js.toLowerCase s) = Js.toUpperCase s.
Proof.
  induction s as [|c s IH]; cbn [Js.toLowerCase Js.toUpperCase]; [reflexivity |].
  now rewrite upperChar_lowerChar, IH.
Qed.

Lemma toUpperCase_toUpperCase s : Js.toUpperCase (Js.toUpperCase s) = Js.toUpperCase s.
Proof.
  induction s as [|c s IH]; cbn [Js.toUpperCase]; [reflexivity |].
  now rewrite upperChar_upperChar, IH.
Qed.

End ClientTypes.

(** X26. The client type, which picks the colour of a session, does not
    depend on the case of the letters of a client name written in ASCII
    characters: the name in lower case and the name in upper case have the
    type of the name as typed. *)
Theorem getClientType_ignores_case (clientName : string) :
  forallb (fun c => (nat_of_ascii c <? 128)%nat) (list_ascii_of_string clientName) = true ->
  FetsCalendar.getClientType (Js.toLowerCase clientName)
  = FetsCalendar.getClientType clientName
  /\ FetsCalendar.getClientType (Js.toUpperCase clientName)
     = FetsCalendar.getClientType clientName.
Proof.
  intros _. unfold FetsCalendar.getClientType. cbv zeta.
  now rewrite toUpperCase_toLowerCase, toUpperCase_toUpperCase.
Qed.

(** "Pearson Vue" is of the type PEARSON however it is typed. *)
Lemma getClientType_ignores_case_witness :
  FetsCalendar.getClientType (Js.toLowerCase "Pearson Vue") = FetsCalendar.PEARSON
  /\ FetsCalendar.getClientType (Js.toUpperCase "Pearson Vue") = FetsCalendar.PEARSON.
Proof.
  destruct (getClientType_ignores_case "Pearson Vue" eq_refl) as [Hlower Hupper].
  rewrite Hlower, Hupper. split; reflexivity.
Defined.
